(** * CiteGuard: similarity scoring and citation formatting

    A shallow embedding of the two decision-making parts of the repository:

    - [backend/app/services/similarity.py] (class [SimilarityService]),
    - [backend/app/services/citation.py] and the root-level [Citation.py]
      (two versions of class [CitationGenerator], with different rules),

    together with the properties the specification states about them.  A
    property of "the citation formatter" is examined on both generators.

    Modelling conventions.
    - Python [str] is [string]; only the ASCII part of [str.lower] and of the
      whitespace test of [str.split] is modelled (other code points are kept
      as they are and never count as white space).
    - Python [float] is modelled by exact rationals ([Q]): the divisions and
      sums are the mathematical ones, and numbers are compared up to [==].
      Module [Binary64] evaluates the quotients and comparisons the flagging
      depends on with IEEE doubles, and the last section compares the two.
    - Python [int] is [Z] where it can be negative (a year) and [nat] where it
      is a length or a counter.
    - A raised exception is a value of [outcome]; [try]/[except] is a
      pattern match on it.  List and string indexing are partial, so that
      "does not raise" is a theorem and not a convention.
    - The embedding model and scikit-learn are parameters of the service
      (record [Model]). *)

From Stdlib Require PrimFloat Uint63.
From Stdlib Require Import Ascii String QArith Qabs Qround Lqa ZArith Lia.
From stdpp Require Import gmap strings list pretty.

Open Scope string_scope.

(* ===================================================================== *)
(** * Exceptions *)
(* ===================================================================== *)

(** The exception classes the modelled code can raise.  [ProviderError]
    stands for whatever an external collaborator (the embedding model,
    scikit-learn, numpy) raises. *)
Inductive exn_class :=
  | AttributeError | TypeError | IndexError | ValueError | ImportError
  | ProviderError.

(** An exception: its class and [str(e)]. *)
Record exn := Exn { exn_cls : exn_class; exn_msg : string }.

Inductive outcome (A : Type) :=
  | Return (a : A)
  | Raise (e : exn).
Arguments Return {A} a.
Arguments Raise {A} e.

Definition bind {A B} (m : outcome A) (k : A -> outcome B) : outcome B :=
  match m with
  | Return a => k a
  | Raise e => Raise e
  end.

Notation "'let*' x ':=' m 'in' k" := (bind m (fun x => k))
  (at level 10, x name, m at level 100, k at level 200, only parsing).

(** [try: m except Exception as e: h e] *)
Definition try_except {A} (m : outcome A) (h : exn -> outcome A) : outcome A :=
  match m with
  | Return a => Return a
  | Raise e => h e
  end.

(** Left-to-right loop with a state, stopping at the first exception. *)
Fixpoint foldM {A S} (f : S -> A -> outcome S) (st : S) (l : list A) : outcome S :=
  match l with
  | [] => Return st
  | x :: l' => let* st' := f st x in foldM f st' l'
  end.

Fixpoint mapM {A B} (f : A -> outcome B) (l : list A) : outcome (list B) :=
  match l with
  | [] => Return []
  | x :: l' => let* y := f x in let* ys := mapM f l' in Return (y :: ys)
  end.

(* ===================================================================== *)
(** * Python strings and lists *)
(* ===================================================================== *)

Module Py.

(** [c.isspace()] on ASCII: TAB, LF, VT, FF, CR, FS, GS, RS, US and SPACE. *)
Definition isspace (c : ascii) : bool :=
  let n := nat_of_ascii c in
  ((9 <=? n)%nat && (n <=? 13)%nat) || ((28 <=? n)%nat && (n <=? 32)%nat).

Definition lower_char (c : ascii) : ascii :=
  let n := nat_of_ascii c in
  if (65 <=? n)%nat && (n <=? 90)%nat then ascii_of_nat (n + 32) else c.

(** [s.lower()] *)
Fixpoint lower (s : string) : string :=
  match s with
  | EmptyString => EmptyString
  | String c s' => String (lower_char c) (lower s')
  end.

(** [s.split()]: the maximal runs of non-space characters; [cur] is the run
    being read. *)
Fixpoint split_from (cur : string) (s : string) : list string :=
  match s with
  | EmptyString => if decide (cur = "") then [] else [cur]
  | String c s' =>
      if isspace c
      then (if decide (cur = "") then split_from "" s' else cur :: split_from "" s')
      else split_from (cur +:+ String c "") s'
  end.

Definition split (s : string) : list string := split_from "" s.

(** [s.split(sep)] for a one-character separator: never the empty list. *)
Fixpoint split_on (sep : ascii) (s : string) : list string :=
  match s with
  | EmptyString => [""]
  | String c s' =>
      if decide (c = sep) then "" :: split_on sep s'
      else match split_on sep s' with
           | w :: ws => String c w :: ws
           | [] => [String c ""]
           end
  end.

(** [sep.join(l)] *)
Fixpoint join (sep : string) (l : list string) : string :=
  match l with
  | [] => ""
  | [x] => x
  | x :: l' => x +:+ sep +:+ join sep l'
  end.

(** [s.startswith(t)] *)
Fixpoint startswith (t s : string) : bool :=
  match t, s with
  | EmptyString, _ => true
  | String c t', String d s' => bool_decide (c = d) && startswith t' s'
  | String _ _, EmptyString => false
  end.

(** [t in s] *)
Fixpoint is_in (t s : string) : bool :=
  startswith t s
  || match s with
     | EmptyString => false
     | String _ s' => is_in t s'
     end.

(** [s[:n]] on a string *)
Fixpoint str_take (n : nat) (s : string) : string :=
  match n, s with
  | S n', String c s' => String c (str_take n' s')
  | _, _ => ""
  end.

Definition index_error : exn := Exn IndexError "list index out of range".
Definition str_index_error : exn := Exn IndexError "string index out of range".

(** [l[i]] for [i >= 0] *)
Definition item {A} (l : list A) (i : nat) : outcome A :=
  match l !! i with
  | Some x => Return x
  | None => Raise index_error
  end.

(** [l[-1]] *)
Definition item_last {A} (l : list A) : outcome A :=
  match List.rev l with
  | x :: _ => Return x
  | [] => Raise index_error
  end.

(** [l[:-1]] *)
Definition but_last {A} (l : list A) : list A := removelast l.

(** [s[0]] on a string, as a one-character string *)
Definition str_first (s : string) : outcome string :=
  match s with
  | String c _ => Return (String c "")
  | EmptyString => Raise str_index_error
  end.

(** [str(n)] for an [int] *)
Definition str_int (z : Z) : string := pretty z.
Definition str_nat (n : nat) : string := pretty n.

End Py.

(* ===================================================================== *)
(** * Rational arithmetic standing for [float] *)
(* ===================================================================== *)

Module Num.

Local Open Scope Q_scope.

(** [x > y] *)
Definition gtb (x y : Q) : bool :=
  match x ?= y with Gt => true | _ => false end.

(** [int / int] (true division), the divisor being positive *)
Definition div_nat (a b : nat) : Q := inject_Z (Z.of_nat a) / inject_Z (Z.of_nat b).

(** [max(l)] of a non-empty list: the first of the greatest items. *)
Fixpoint max_from (m : Q) (l : list Q) : Q :=
  match l with
  | [] => m
  | x :: l' => max_from (if gtb x m then x else m) l'
  end.

Definition max_list (l : list Q) : outcome Q :=
  match l with
  | [] => Raise (Exn ValueError "max() arg is an empty sequence")
  | x :: l' => Return (max_from x l')
  end.

(** [sum(l)] *)
Definition sum_list (l : list Q) : Q := fold_left Qplus l 0.

(** [min(x, y)]: [y] when [y < x], else [x]. *)
Definition min2 (x y : Q) : Q := if gtb x y then y else x.

(** [sum(1 for s in l if s > t)] and [len([s for s in l if s > t])] *)
Definition count_above (t : Q) (l : list Q) : nat :=
  length (filter (fun s => gtb s t = true) l).

(** A number of the closed interval from 0 to 1. *)
Definition unit_range (x : Q) : Prop := 0 <= x <= 1.

(** [f"{x:.1f}"]: one digit after the point, ties to even. *)
Definition round_half_even (x : Q) : Z :=
  let n := Qfloor x in
  let r := x - inject_Z n in
  match (r ?= 1 # 2)%Q with
  | Lt => n
  | Gt => (n + 1)%Z
  | Eq => if Z.even n then n else (n + 1)%Z
  end.

Definition format_1f (x : Q) : string :=
  let t := round_half_even (Qabs x * 10) in
  (if gtb 0 x then "-" else "") +:+
  Py.str_int (t / 10)%Z +:+ "." +:+ Py.str_int (t mod 10)%Z.

End Num.

(* ===================================================================== *)
(** * The ratios and thresholds of the lexical strategy on doubles *)
(* ===================================================================== *)

(** The similarities of the lexical strategy are quotients of two small
    integers, compared with the literals [0.3] and [0.15].  This module
    computes the same quotients and comparisons on IEEE 754 binary64
    numbers, to check the rational model against them. *)
Module Binary64.

Import PrimFloat.

Definition of_nat (n : nat) : PrimFloat.float :=
  PrimFloat.of_uint63 (Uint63.of_Z (Z.of_nat n)).

(** [a / b] *)
Definition div_nat (a b : nat) : PrimFloat.float :=
  PrimFloat.div (of_nat a) (of_nat b).

(** [x > y] *)
Definition gtb (x y : PrimFloat.float) : bool := PrimFloat.ltb y x.

(** The literals [0.3] and [0.15]: the doubles nearest to 3/10 and 15/100. *)
Definition lit_0_3 : PrimFloat.float := 0x1.3333333333333p-2%float.
Definition lit_0_15 : PrimFloat.float := 0x1.3333333333333p-3%float.
Definition lit_1_0 : PrimFloat.float := 1%float.

(** [(max(l) + sum(l) / len(l)) / 2] *)
Definition aggregate (l : list PrimFloat.float) : PrimFloat.float :=
  let mx := fold_left (fun m x => if gtb x m then x else m) (tl l) (hd lit_1_0 l) in
  let total := fold_left PrimFloat.add l (of_nat 0) in
  PrimFloat.div (PrimFloat.add mx (PrimFloat.div total (of_nat (length l)))) (of_nat 2).

(** For every document of [1] to [limit] distinct words and every number of
    shared words, the two comparisons give on doubles what they give on
    rationals. *)
Definition thresholds_agree (limit : nat) : bool :=
  forallb
    (fun n =>
       forallb
         (fun k =>
            Bool.eqb (gtb (div_nat k n) lit_0_3) (Num.gtb (Num.div_nat k n) (3 # 10))
            && Bool.eqb (gtb (div_nat k n) lit_0_15) (Num.gtb (Num.div_nat k n) (15 # 100)))
         (seq 0 (S n)))
    (seq 1 limit).

End Binary64.

(* ===================================================================== *)
(** * JSON values held by a source dictionary *)
(* ===================================================================== *)

(** The route accepts [sources: List[Dict]] with no schema for the
    dictionaries, so the values under ["content"] and ["title"] are any JSON
    value.  Numbers are modelled by integers. *)
#[warning="-register-all"]
Inductive pyval :=
  | PNone
  | PBool (b : bool)
  | PInt (z : Z)
  | PStr (s : string)
  | PList (l : list pyval)
  | PDict (d : list (string * pyval)).

(** One element of [sources]: a dictionary with string keys. *)
Abbreviation source := (gmap string pyval).

Module Value.

(** [type(v).__name__] *)
Definition type_name (v : pyval) : string :=
  match v with
  | PNone => "NoneType"
  | PBool _ => "bool"
  | PInt _ => "int"
  | PStr _ => "str"
  | PList _ => "list"
  | PDict _ => "dict"
  end.

(** [bool(v)] *)
Definition truthy (v : pyval) : bool :=
  match v with
  | PNone => false
  | PBool b => b
  | PInt z => negb (z =? 0)%Z
  | PStr s => negb (bool_decide (s = ""))
  | PList l => match l with [] => false | _ => true end
  | PDict d => match d with [] => false | _ => true end
  end.

(** [d.get(key, dflt)] *)
Definition get (d : source) (key : string) (dflt : pyval) : pyval :=
  default dflt (d !! key).

(** [v.lower()]: only [str] has the method. *)
Definition lower (v : pyval) : outcome string :=
  match v with
  | PStr s => Return (Py.lower s)
  | _ => Raise (Exn AttributeError
                  ("'" +:+ type_name v +:+ "' object has no attribute 'lower'"))
  end.

(** The hashable values, as dictionary keys. *)
Inductive key :=
  | KNone
  | KBool (b : bool)
  | KInt (z : Z)
  | KStr (s : string).

(** [hash(v)] succeeds on [None], [bool], [int] and [str]. *)
Definition to_key (v : pyval) : outcome key :=
  match v with
  | PNone => Return KNone
  | PBool b => Return (KBool b)
  | PInt z => Return (KInt z)
  | PStr s => Return (KStr s)
  | PList _ | PDict _ =>
      Raise (Exn TypeError ("unhashable type: '" +:+ type_name v +:+ "'"))
  end.

(** Equality of keys: [True == 1] and [False == 0]. *)
Definition key_num (k : key) : option Z :=
  match k with
  | KBool b => Some (if b then 1 else 0)%Z
  | KInt z => Some z
  | _ => None
  end.

Definition key_eqb (k1 k2 : key) : bool :=
  match k1, k2 with
  | KNone, KNone => true
  | KStr s1, KStr s2 => bool_decide (s1 = s2)
  | _, _ =>
      match key_num k1, key_num k2 with
      | Some z1, Some z2 => (z1 =? z2)%Z
      | _, _ => false
      end
  end.

(** [str(k)], as an f-string renders it *)
Definition str_key (k : key) : string :=
  match k with
  | KNone => "None"
  | KBool b => if b then "True" else "False"
  | KInt z => Py.str_int z
  | KStr s => s
  end.

(** [d[k] = v] on an insertion-ordered dictionary: a key already present
    keeps its place (and its first spelling) and takes the new value. *)
Fixpoint dict_set {V} (d : list (key * V)) (k : key) (v : V) : list (key * V) :=
  match d with
  | [] => [(k, v)]
  | (k', v') :: d' =>
      if key_eqb k' k then (k', v) :: d' else (k', v') :: dict_set d' k v
  end.

End Value.

(* ===================================================================== *)
(** * [backend/app/services/similarity.py] *)
(* ===================================================================== *)

Module Similarity.

Import Value.
Local Open Scope Q_scope.

(** The dictionary every path of the service returns. *)
Record SimilarityResult := {
  plagiarism_score : Q;
  flagged_sections : nat;
  recommendations : list string;
  total_matches : nat;
  sources_checked : nat
}.

(** The embedding model and scikit-learn are external: what they compute is
    a parameter of the service, and each call may raise. *)
Record Model := {
  embedding : Type;
  (** [self.model.encode(document_text)] *)
  encode : string -> outcome embedding;
  (** [self.model.encode(source_texts)] *)
  encode_batch : list pyval -> outcome (list embedding);
  (** [cosine_similarity([doc_embedding], source_embeddings)[0]] *)
  cosine_similarity : embedding -> list embedding -> outcome (list Q)
}.

(** [self.model] is [None] when the model could not be loaded;
    [sklearn_importable] tells whether the imports at the head of
    [_analyze_semantic] succeed.  [__init__] also stores [model_name] and
    [threshold], which none of the analysis methods reads. *)
Record SimilarityService := {
  model : option Model;
  sklearn_importable : bool
}.

Definition is_nil {A} (l : list A) : bool :=
  match l with [] => true | _ => false end.

(** State of the loop of [_analyze_simple]: [similarities] and
    [matches_by_source] (title, then similarity and matching words). *)
Definition loop_state : Type := list Q * list (key * (Q * nat)).

(** Body of [for source in sources:] in [_analyze_simple]. *)
Definition _analyze_simple_body (doc_words : gset string) (doc_word_count : nat)
    (st : loop_state) (source : source) : outcome loop_state :=
  let source_content := get source "content" (PStr "") in
  let source_title := get source "title" (PStr "Unknown") in
  if negb (truthy source_content) then Return st
  else
    let* lowered := Value.lower source_content in
    let source_words : gset string := list_to_set (Py.split lowered) in
    let common_words := doc_words ∩ source_words in
    let similarity :=
      if (0 <? doc_word_count)%nat
      then Num.div_nat (size common_words) doc_word_count else 0 in
    let* title := to_key source_title in
    Return ((st.1 ++ [similarity])%list,
            dict_set st.2 title (similarity, size common_words)).

Definition zero_result (recommendation : string) (checked : nat) : SimilarityResult :=
  {| plagiarism_score := 0;
     flagged_sections := 0;
     recommendations := [recommendation];
     total_matches := 0;
     sources_checked := checked |}.

(** [_analyze_simple]: word-overlap analysis. *)
Definition _analyze_simple (document_text : string) (sources : list source)
    : outcome SimilarityResult :=
  let doc_words : gset string := list_to_set (Py.split (Py.lower document_text)) in
  let doc_word_count := size doc_words in
  if (doc_word_count =? 0)%nat then Return (zero_result "Empty document provided" 0)
  else
    let* st := foldM (_analyze_simple_body doc_words doc_word_count) ([], []) sources in
    let similarities := st.1 in
    let matches_by_source := st.2 in
    if is_nil similarities then Return (zero_result "No sources provided" 0)
    else
      let* max_similarity := Num.max_list similarities in
      let avg_similarity :=
        Num.sum_list similarities / inject_Z (Z.of_nat (length similarities)) in
      let plagiarism_score := (max_similarity + avg_similarity) / 2 in
      let high_overlap := Num.count_above (3 # 10) similarities in
      let recommendations :=
        if Num.gtb plagiarism_score (4 # 10)
        then ("⚠️ Significant word overlap (" +:+ Num.format_1f (plagiarism_score * 100)
                +:+ "%) detected")
             :: map (fun e : key * (Q * nat) =>
                       "  • " +:+ str_key e.1 +:+ ": " +:+ Py.str_nat e.2.2
                         +:+ " matching words")
                    (filter (fun e : key * (Q * nat) => Num.gtb e.2.1 (3 # 10) = true)
                            matches_by_source)
        else ["✓ Low similarity with stored documents"] in
      Return {| plagiarism_score := plagiarism_score;
                flagged_sections := high_overlap;
                recommendations := recommendations;
                total_matches := Num.count_above (15 # 100) similarities;
                sources_checked := length sources |}.

(** [_analyze_semantic]: embedding analysis; any exception in its body sends
    the call to [_analyze_simple]. *)
Definition _analyze_semantic (self : SimilarityService) (m : Model)
    (document_text : string) (sources : list source) : outcome SimilarityResult :=
  try_except
    (if negb (sklearn_importable self)
     then Raise (Exn ImportError "No module named 'sklearn'")
     else
       let* doc_embedding := encode m document_text in
       let source_texts :=
         map (fun s : source => get s "content" (PStr ""))
             (filter (fun s : source => truthy (get s "content" PNone) = true) sources) in
       if is_nil source_texts
       then Return (zero_result "No valid source content to compare" 0)
       else
         let* source_embeddings := encode_batch m source_texts in
         let* similarities := cosine_similarity m doc_embedding source_embeddings in
         let* max_similarity := Num.max_list similarities in
         let avg_similarity :=
           Num.sum_list similarities / inject_Z (Z.of_nat (length similarities)) in
         let plagiarism_score := Num.min2 ((max_similarity + avg_similarity) / 2) 1 in
         let high_sim_count := Num.count_above (75 # 100) similarities in
         let recommendations :=
           if Num.gtb plagiarism_score (85 # 100)
           then ["⚠️ High similarity detected (" +:+ Num.format_1f (plagiarism_score * 100)
                   +:+ "%) - Review content carefully"]
           else if Num.gtb plagiarism_score (7 # 10)
           then ["📋 Moderate similarity (" +:+ Num.format_1f (plagiarism_score * 100)
                   +:+ "%) - Consider paraphrasing"]
           else ["✓ Low plagiarism risk"] in
         Return {| plagiarism_score := plagiarism_score;
                   flagged_sections := high_sim_count;
                   recommendations := recommendations;
                   total_matches := Num.count_above (1 # 2) similarities;
                   sources_checked := length sources |})
    (fun _ => _analyze_simple document_text sources).

(** The body of the [try] block of [analyze_document]. *)
Definition analyze_body (self : SimilarityService) (document_text : string)
    (sources : list source) : outcome SimilarityResult :=
  match model self with
  | Some m => _analyze_semantic self m document_text sources
  | None => _analyze_simple document_text sources
  end.

(** [analyze_document]: the public entry point. *)
Definition analyze_document (self : SimilarityService) (document_text : string)
    (sources : list source) : outcome SimilarityResult :=
  if bool_decide (document_text = "") || is_nil sources
  then Return (zero_result
                 (if is_nil sources then "No sources to compare against"
                  else "Empty text provided")
                 (length sources))
  else
    try_except
      (analyze_body self document_text sources)
      (fun e => Return (zero_result (exn_msg e) (length sources))).

(** A service without an embedding model: the lexical strategy. *)
Definition lexical_service : SimilarityService :=
  {| model := None; sklearn_importable := false |}.

(** A model that answers every call with the cosine similarities
    [similarities]. *)
Definition fixed_model (similarities : list Q) : Model :=
  {| embedding := unit;
     encode := fun _ => Return tt;
     encode_batch := fun texts => Return (map (fun _ => tt) texts);
     cosine_similarity := fun _ _ => Return similarities |}.

(** A model whose calls all fail. *)
Definition unavailable_model : Model :=
  {| embedding := unit;
     encode := fun _ => Raise (Exn ProviderError "encode failed");
     encode_batch := fun _ => Raise (Exn ProviderError "encode failed");
     cosine_similarity := fun _ _ => Raise (Exn ProviderError "no embeddings") |}.

(** A service with a loaded model. *)
Definition semantic_service (m : Model) : SimilarityService :=
  {| model := Some m; sklearn_importable := true |}.

(** A source as the data model describes it: a title and a content, both
    strings. *)
Definition SourceText (title content : string) : source :=
  {[ "title" := PStr title; "content" := PStr content ]}.

(** A source whose content is a number: the route lets it through, and
    [source_content.lower()] fails on it. *)
Definition numeric_source : source :=
  {[ "title" := PStr "Notes"; "content" := PInt 5 ]}.

(** [source] is not skipped by the loops: its content is true. *)
Definition has_content (s : source) : bool :=
  truthy (get s "content" (PStr "")).

(** The sources that are not skipped. *)
Definition with_content (sources : list source) : list source :=
  filter (fun s => has_content s = true) sources.

(** The document has a word: [doc_word_count] is not 0. *)
Definition has_word (document_text : string) : Prop :=
  Py.split (Py.lower document_text) <> [].

(** Two results that differ at most in [sources_checked]. *)
Definition same_findings (r r' : SimilarityResult) : Prop :=
  plagiarism_score r = plagiarism_score r'
  /\ flagged_sections r = flagged_sections r'
  /\ recommendations r = recommendations r'
  /\ total_matches r = total_matches r'.

(** ** The specification's words for the lexical strategy *)

(** A source whose title and content, when present, are strings. *)
Definition is_text (s : source) : bool :=
  match s !! "content", s !! "title" with
  | (None | Some (PStr _)), (None | Some (PStr _)) => true
  | _, _ => false
  end.

Definition content_of (s : source) : string :=
  match s !! "content" with Some (PStr c) => c | _ => "" end.

Definition title_of (s : source) : string :=
  match s !! "title" with Some (PStr t) => t | _ => "Unknown" end.

(** The specification's words for the lexical strategy: the lower-cased
    white-space-delimited words of a text, each once. *)
Definition distinct_words (text : string) : list string :=
  remove_dups (Py.split (Py.lower text)).

(** [docWordCount] *)
Definition docWordCount (document : string) : nat :=
  length (distinct_words document).

(** The distinct words of the document that the source has too. *)
Definition shared_words (document source_text : string) : list string :=
  filter (fun w => w ∈ distinct_words source_text) (distinct_words document).

(** [|intersection(docWords, sourceWords)| / docWordCount] *)
Definition overlap (document source_text : string) : Q :=
  Num.div_nat (length (shared_words document source_text)) (docWordCount document).

(** The per-source similarities of the specification: one for each source
    with content, in the order of the sources. *)
Definition overlaps (document : string) (sources : list source) : list Q :=
  map (fun s => overlap document (content_of s)) (with_content sources).

(** [mx] is the greatest of [l]. *)
Definition is_maximum (mx : Q) (l : list Q) : Prop :=
  (exists x, x ∈ l /\ x == mx) /\ (forall x, x ∈ l -> x <= mx).

(** The arithmetic mean of [l]. *)
Definition mean (l : list Q) : Q :=
  fold_right Qplus 0 l / inject_Z (Z.of_nat (length l)).

(** The number of sources with content whose overlap is above [num / den];
    the comparison is made on the integers. *)
Definition count_overlap_above (num den : nat) (document : string)
    (sources : list source) : nat :=
  length
    (filter
       (fun s => (num * docWordCount document
                  < den * length (shared_words document (content_of s)))%nat)
       (with_content sources)).

(** Two outcomes that raise the same exception or return related values. *)
Definition outcome_rel {A} (R : A -> A -> Prop) (m m' : outcome A) : Prop :=
  match m, m' with
  | Return a, Return a' => R a a'
  | Raise e, Raise e' => e = e'
  | _, _ => False
  end.

(** The result of the loop of [_analyze_simple]. *)
Definition simple_loop (document_text : string) (sources : list source)
    : outcome loop_state :=
  let doc_words : gset string := list_to_set (Py.split (Py.lower document_text)) in
  foldM (_analyze_simple_body doc_words (size doc_words)) ([], []) sources.

End Similarity.

(* ===================================================================== *)
(** * What the two citation generators share *)
(* ===================================================================== *)

(** The dictionary [{"full": ..., "in_text": ...}] both generators return. *)
Record CitationResult := { full : string; in_text : string }.

(** [CitationStyle] is a [str]-based [Enum]: a style compares equal to its
    value, so the [style] argument is modelled by that string. *)
Module CitationStyle.
Definition APA : string := "APA".
Definition MLA : string := "MLA".
Definition CHICAGO : string := "Chicago".
Definition HARVARD : string := "Harvard".
Definition IEEE : string := "IEEE".
Definition supported (style : string) : bool :=
  bool_decide (style ∈ [APA; MLA; CHICAGO; HARVARD; IEEE]).
End CitationStyle.

Definition dquote : string := String "034"%char "".

(** [o or dflt] for an [Optional[str]] *)
Definition str_or (o : option string) (dflt : string) : string :=
  match o with Some s => if bool_decide (s = "") then dflt else s | None => dflt end.

(** [f"{year or 'n.d.'}"] *)
Definition year_or (o : option Z) (dflt : string) : string :=
  match o with
  | Some z => if (z =? 0)%Z then dflt else Py.str_int z
  | None => dflt
  end.

(** [if o: ... f(o) ...] for an [Optional[str]]: the text added when [o] is
    a non-empty string *)
Definition if_str (o : option string) (f : string -> string) : string :=
  match o with
  | Some s => if bool_decide (s = "") then "" else f s
  | None => ""
  end.

(** [if year: ... f(year) ...] for an [Optional[int]] *)
Definition if_year (o : option Z) (f : string -> string) : string :=
  match o with
  | Some z => if (z =? 0)%Z then "" else f (Py.str_int z)
  | None => ""
  end.

(** [author.split()[-1]] *)
Definition surname (author : string) : outcome string :=
  Py.item_last (Py.split author).

(** [[p[0] + "." for p in parts]] *)
Definition initials (parts : list string) : outcome (list string) :=
  mapM (fun p => let* c := Py.str_first p in Return (c +:+ ".")) parts.

(** The initial of a name, with its period: ["Jane"] gives ["J."]. *)
Definition initial (name : string) : string :=
  match name with
  | String c _ => String c "."
  | EmptyString => "."
  end.

(** A word of a name: not empty, and free of white space. *)
Fixpoint no_space (s : string) : Prop :=
  match s with
  | EmptyString => True
  | String c s' => Py.isspace c = false /\ no_space s'
  end.

Definition word (s : string) : Prop := s <> "" /\ no_space s.

(** The IEEE shape of a name given by its words: the initial of every
    word but the last, then the last word whole. *)
Definition ieee_name (words : list string) : string :=
  Py.join " " (map initial (removelast words) ++ [List.last words ""])%list.

(** The IEEE author string: the first six names in the IEEE shape, with
    commas, and [", et al."] when there are more. *)
Definition ieee_author_string (authors : list string) : string :=
  Py.join ", " (map (fun a => ieee_name (Py.split a)) (take 6 authors))
    +:+ (if (6 <? length authors)%nat then ", et al." else "").

(** [s] begins with [p]. *)
Definition starts_with (p s : string) : Prop := exists rest, s = p +:+ rest.

(** [t] occurs in [s]. *)
Definition occurs_in (t s : string) : Prop :=
  exists before after, s = before +:+ t +:+ after.

(** The entry puts [token] where it puts the year when there is one:
    [entry y] is the generation with the year [y] in the metadata. *)
Definition year_rendered_as (token : string)
    (entry : option Z -> outcome CitationResult) : Prop :=
  forall r0, entry None = Return r0 ->
  exists before after,
    full r0 = before +:+ token +:+ after
    /\ forall y, y <> 0%Z ->
         exists r, entry (Some y) = Return r
                   /\ full r = before +:+ Py.str_int y +:+ after.

(** The entry without a year is the entry with a year less the year and
    the separator that follows it. *)
Definition year_left_out (entry : option Z -> outcome CitationResult) : Prop :=
  forall r0, entry None = Return r0 ->
  exists before sep after,
    full r0 = before +:+ after
    /\ forall y, y <> 0%Z ->
         exists r, entry (Some y) = Return r
                   /\ full r = before +:+ Py.str_int y +:+ sep +:+ after.

(* ===================================================================== *)
(** * [Citation.py] (root of the repository) *)
(* ===================================================================== *)

Module Citation.

Record SourceMetadata := {
  title : string;
  authors : list string;
  year : option Z;
  publication_name : option string;
  volume : option string;
  issue : option string;
  pages : option string;
  url : option string;
  doi : option string;
  access_date : option string;
  source_type : string
}.

(** [dataclasses.replace(m, year=y)] *)
Definition with_year (m : SourceMetadata) (y : option Z) : SourceMetadata :=
  {| title := title m; authors := authors m; year := y;
     publication_name := publication_name m; volume := volume m;
     issue := issue m; pages := pages m; url := url m; doi := doi m;
     access_date := access_date m; source_type := source_type m |}.

(** An article with a title, authors, a year and a journal, and nothing
    else. *)
Definition article (title : string) (authors : list string) (year : option Z)
    (publication_name : option string) : SourceMetadata :=
  {| title := title; authors := authors; year := year;
     publication_name := publication_name; volume := None; issue := None;
     pages := None; url := None; doi := None; access_date := None;
     source_type := "article" |}.

(** Body of the loop of [_format_authors_apa]: ["Last, F.M."] *)
Definition apa_author (author : string) : outcome string :=
  let parts := Py.split author in
  if (2 <=? length parts)%nat
  then
    let* last := Py.item_last parts in
    let* inits := initials (Py.but_last parts) in
    Return (last +:+ ", " +:+ Py.join "" inits)
  else Return author.

Definition _format_authors_apa (authors : list string) : outcome string :=
  if bool_decide (authors = []) then Return ""
  else
    let* formatted := mapM apa_author (take 20 authors) in
    if (length authors =? 1)%nat then Py.item formatted 0
    else if (length authors =? 2)%nat
    then
      let* a := Py.item formatted 0 in
      let* b := Py.item formatted 1 in
      Return (a +:+ ", & " +:+ b)
    else
      let* z := Py.item_last formatted in
      Return (Py.join ", " (Py.but_last formatted) +:+ ", & " +:+ z).

(** ["Last, First Middle"] when the name has two words or more *)
Definition mla_first (author : string) : outcome string :=
  let parts := Py.split author in
  if (2 <=? length parts)%nat
  then
    let* last := Py.item_last parts in
    Return (last +:+ ", " +:+ Py.join " " (Py.but_last parts))
  else Return author.

Definition _format_authors_mla (authors : list string) : outcome string :=
  if bool_decide (authors = []) then Return ""
  else if (length authors =? 1)%nat
  then let* a0 := Py.item authors 0 in mla_first a0
  else if (length authors =? 2)%nat
  then
    let* first := Py.item authors 0 in
    let* first_formatted := mla_first first in
    let* second := Py.item authors 1 in
    Return (first_formatted +:+ ", and " +:+ second)
  else
    let* a0 := Py.item authors 0 in
    let* first_formatted := mla_first a0 in
    Return (first_formatted +:+ ", et al.").

Definition _generate_apa (m : SourceMetadata) : outcome CitationResult :=
  let* authors := _format_authors_apa (authors m) in
  let year := year_or (year m) "n.d." in
  let* in_text :=
    if (length m.(Citation.authors) =? 1)%nat
    then
      let* a0 := Py.item m.(Citation.authors) 0 in
      let* s0 := surname a0 in
      Return ("(" +:+ s0 +:+ ", " +:+ year +:+ ")")
    else if (length m.(Citation.authors) =? 2)%nat
    then
      let* a0 := Py.item m.(Citation.authors) 0 in
      let* s0 := surname a0 in
      let* a1 := Py.item m.(Citation.authors) 1 in
      let* s1 := surname a1 in
      Return ("(" +:+ s0 +:+ " & " +:+ s1 +:+ ", " +:+ year +:+ ")")
    else
      let* a0 := Py.item m.(Citation.authors) 0 in
      let* s0 := surname a0 in
      Return ("(" +:+ s0 +:+ " et al., " +:+ year +:+ ")") in
  let full :=
    if bool_decide (source_type m = "article")
    then
      authors +:+ " (" +:+ year +:+ "). " +:+ title m +:+ ". "
        +:+ (if_str (publication_name m) (fun x => "*" +:+ x +:+ "*"))
        +:+ (if_str (volume m) (fun x => ", *" +:+ x +:+ "*"))
        +:+ (if_str (issue m) (fun x => "(" +:+ x +:+ ")"))
        +:+ (if_str (pages m) (fun x => ", " +:+ x))
        +:+ "."
        +:+ (if_str (doi m) (fun x => " https://doi.org/" +:+ x))
    else if bool_decide (source_type m = "book")
    then
      authors +:+ " (" +:+ year +:+ "). *" +:+ title m +:+ "*. "
        +:+ str_or (publication_name m) "Publisher" +:+ "."
    else if bool_decide (source_type m = "website")
    then
      authors +:+ " (" +:+ year +:+ "). *" +:+ title m +:+ "*. "
        +:+ str_or (publication_name m) "Website name" +:+ ". "
        +:+ (if_str (url m) (fun x => x))
    else
      authors +:+ " (" +:+ year +:+ "). " +:+ title m +:+ "." in
  Return {| full := full; in_text := in_text |}.

Definition _generate_mla (m : SourceMetadata) : outcome CitationResult :=
  let* authors := _format_authors_mla (authors m) in
  let* in_text :=
    if negb (bool_decide (m.(Citation.authors) = []))
    then
      let* a0 := Py.item m.(Citation.authors) 0 in
      let* s0 := surname a0 in
      Return ("(" +:+ s0
                +:+ (if_str (pages m) (fun x => " " +:+ x))
                +:+ ")")
    else Return ("(" +:+ dquote +:+ Py.str_take 20 (title m) +:+ "..." +:+ dquote +:+ ")") in
  let head :=
    (if negb (bool_decide (authors = "")) then authors +:+ ". " else "")
      +:+ dquote +:+ title m +:+ "." +:+ dquote +:+ " " in
  let full :=
    if bool_decide (source_type m = "article")
    then
      head
        +:+ (if_str (publication_name m) (fun x => "*" +:+ x +:+ "*, "))
        +:+ (if_str (volume m) (fun x => "vol. " +:+ x +:+ ", "))
        +:+ (if_str (issue m) (fun x => "no. " +:+ x +:+ ", "))
        +:+ (if_year (year m) (fun y => y +:+ ", "))
        +:+ (if_str (pages m) (fun x => "pp. " +:+ x +:+ "."))
    else if bool_decide (source_type m = "book")
    then
      head +:+ "*" +:+ str_or (publication_name m) "Publisher" +:+ "*, "
        +:+ year_or (year m) "n.d." +:+ "."
    else if bool_decide (source_type m = "website")
    then
      head
        +:+ (if_str (publication_name m) (fun x => "*" +:+ x +:+ "*, "))
        +:+ (if_year (year m) (fun y => y +:+ ", "))
        +:+ (if_str (url m) (fun x => x))
    else head in
  Return {| full := full; in_text := in_text |}.

Definition _generate_chicago (m : SourceMetadata) : outcome CitationResult :=
  let* authors := _format_authors_apa (authors m) in
  let* who :=
    if negb (bool_decide (m.(Citation.authors) = []))
    then let* a0 := Py.item m.(Citation.authors) 0 in surname a0
    else Return "Source" in
  let in_text := "(" +:+ who +:+ " " +:+ year_or (year m) "n.d." +:+ ")" in
  let full :=
    authors +:+ ". "
      +:+ (if_year (year m) (fun y => y +:+ ". "))
      +:+ dquote +:+ title m +:+ "." +:+ dquote +:+ " "
      +:+ (if_str (publication_name m) (fun x => "*" +:+ x +:+ "* "))
      +:+ (if_str (volume m) (fun x => x +:+ " "))
      +:+ (if_str (issue m) (fun x => "(" +:+ x +:+ ")"))
      +:+ (if_str (pages m) (fun x => ": " +:+ x))
      +:+ "." in
  Return {| full := full; in_text := in_text |}.

Definition _generate_harvard (m : SourceMetadata) : outcome CitationResult :=
  _generate_apa m.

(** One author of the IEEE list: ["F. M. Last"] *)
Definition ieee_author (author : string) : outcome string :=
  let* inits := initials (Py.but_last (Py.split author)) in
  let* last := surname author in
  Return (Py.join " " (inits ++ [last])%list).

(** The author string of [_generate_ieee] *)
Definition ieee_authors (authors : list string) : outcome string :=
  let* formatted := mapM ieee_author (take 6 authors) in
  Return (Py.join ", " formatted
            +:+ (if (6 <? length authors)%nat then ", et al." else "")).

Definition _generate_ieee (m : SourceMetadata) : outcome CitationResult :=
  let* authors := ieee_authors (authors m) in
  let in_text := "[1]" in
  let full :=
    authors +:+ ", "
      +:+ dquote +:+ title m +:+ "," +:+ dquote +:+ " "
      +:+ (if_str (publication_name m) (fun x => "*" +:+ x +:+ "*, "))
      +:+ (if_str (volume m) (fun x => "vol. " +:+ x +:+ ", "))
      +:+ (if_str (issue m) (fun x => "no. " +:+ x +:+ ", "))
      +:+ (if_str (pages m) (fun x => "pp. " +:+ x +:+ ", "))
      +:+ (if_year (year m) (fun y => y +:+ ".")) in
  Return {| full := full; in_text := in_text |}.

Definition generate_citation (metadata : SourceMetadata) (style : string)
    : outcome CitationResult :=
  if bool_decide (style = CitationStyle.APA) then _generate_apa metadata
  else if bool_decide (style = CitationStyle.MLA) then _generate_mla metadata
  else if bool_decide (style = CitationStyle.CHICAGO) then _generate_chicago metadata
  else if bool_decide (style = CitationStyle.HARVARD) then _generate_harvard metadata
  else if bool_decide (style = CitationStyle.IEEE) then _generate_ieee metadata
  else Raise (Exn ValueError ("Unsupported citation style: " +:+ style)).

End Citation.

(* ===================================================================== *)
(** * [backend/app/services/citation.py] *)
(* ===================================================================== *)

(** What [metadata.get(key, ...)] finds in the [metadata] dictionary: no
    such key, the key bound to [None], or the key bound to a value. *)
Inductive field (A : Type) :=
  | Absent
  | Null
  | Val (a : A).
Arguments Absent {A}.
Arguments Null {A}.
Arguments Val {A} a.

Module ServiceCitation.

(** The keys of [metadata] the service reads, with the types the request
    model of the route gives them. *)
Record metadata := {
  authors : field (list string);
  title : field string;
  year : field Z;
  publication_name : field string;
  url : field string
}.

(** [{**m, "year": y}] *)
Definition with_year (m : metadata) (y : field Z) : metadata :=
  {| authors := authors m; title := title m; year := y;
     publication_name := publication_name m; url := url m |}.

(** The year field for [y], [absent] standing for no year. *)
Definition year_field (absent : field Z) (y : option Z) : field Z :=
  match y with Some z => Val z | None => absent end.

(** The dictionary the route builds from a request with a title, authors,
    a year and a publication name. *)
Definition request (title : string) (authors : list string) (year : option Z)
    (publication_name : option string) : metadata :=
  {| authors := Val authors;
     title := Val title;
     year := year_field Null year;
     publication_name := match publication_name with Some p => Val p | None => Null end;
     url := Null |}.

(** [metadata.get("authors", [])] when it is true, that is a non-empty list *)
Definition get_authors (m : metadata) : option (list string) :=
  match authors m with
  | Val (a :: l) => Some (a :: l)
  | _ => None
  end.

(** [f"{metadata.get(key, '')}"] *)
Definition fmt_get (f : field string) : string :=
  match f with Absent => "" | Null => "None" | Val s => s end.

(** [f"{year or 'n.d.'}"] with [year = metadata.get("year")] *)
Definition fmt_year (f : field Z) (dflt : string) : string :=
  match f with
  | Val z => if (z =? 0)%Z then dflt else Py.str_int z
  | _ => dflt
  end.

(** The two formatters have the same text as in [Citation.py]. *)
Definition _format_authors_apa := Citation._format_authors_apa.
Definition _format_authors_mla := Citation._format_authors_mla.

Definition _generate_apa (m : metadata) : outcome CitationResult :=
  let title := fmt_get (title m) in
  let year := fmt_year (year m) "n.d." in
  let pub_name := fmt_get (publication_name m) in
  let* author_str :=
    match get_authors m with
    | Some authors => _format_authors_apa authors
    | None => Return "Unknown"
    end in
  let full :=
    author_str +:+ " (" +:+ year +:+ "). " +:+ title +:+ ". " +:+ pub_name +:+ "."
      +:+ match url m with
          | Val u => if bool_decide (u = "") then "" else " Retrieved from " +:+ u
          | _ => ""
          end in
  let* in_text :=
    match get_authors m with
    | Some _ =>
        let* who := Py.item (Py.split_on "," author_str) 0 in
        Return ("(" +:+ who +:+ " " +:+ year +:+ ")")
    | None => Return "Unknown"
    end in
  Return {| full := full; in_text := in_text |}.

Definition _generate_mla (m : metadata) : outcome CitationResult :=
  let title := fmt_get (title m) in
  let pub_name := fmt_get (publication_name m) in
  let year := fmt_year (year m) "n.d." in
  let* author_str :=
    match get_authors m with
    | Some authors => _format_authors_mla authors
    | None => Return "Unknown"
    end in
  let full :=
    author_str +:+ ". " +:+ dquote +:+ title +:+ "." +:+ dquote +:+ " "
      +:+ pub_name +:+ ", " +:+ year +:+ "." in
  let* who :=
    if Py.is_in "," author_str
    then Py.item (Py.split_on "," author_str) 0
    else Return author_str in
  Return {| full := full; in_text := "(" +:+ who +:+ ")" |}.

(** [", ".join(authors) if authors else "Unknown"] *)
Definition joined_authors (m : metadata) : string :=
  match get_authors m with
  | Some authors => Py.join ", " authors
  | None => "Unknown"
  end.

Definition _generate_chicago (m : metadata) : outcome CitationResult :=
  let title := fmt_get (title m) in
  let pub_name := fmt_get (publication_name m) in
  let author_str := joined_authors m in
  let full :=
    author_str +:+ ". " +:+ dquote +:+ title +:+ "." +:+ dquote +:+ " "
      +:+ pub_name +:+ " (" +:+ fmt_year (year m) "n.d." +:+ ")." in
  let* who := Py.item (Py.split_on "," author_str) 0 in
  Return {| full := full;
            in_text := "(" +:+ who +:+ " " +:+ fmt_year (year m) "n.d." +:+ ")" |}.

Definition _generate_harvard (m : metadata) : outcome CitationResult :=
  let title := fmt_get (title m) in
  let pub_name := fmt_get (publication_name m) in
  let author_str := joined_authors m in
  let full :=
    author_str +:+ ", " +:+ fmt_year (year m) "n.d.d" +:+ ". " +:+ title +:+ ". "
      +:+ pub_name +:+ "." in
  let* who := Py.item (Py.split_on "," author_str) 0 in
  Return {| full := full;
            in_text := "(" +:+ who +:+ " " +:+ fmt_year (year m) "n.d." +:+ ")" |}.

Definition _generate_ieee (m : metadata) : outcome CitationResult :=
  let title := fmt_get (title m) in
  let pub_name := fmt_get (publication_name m) in
  let author_str := joined_authors m in
  let full :=
    "[1] " +:+ author_str +:+ ", " +:+ dquote +:+ title +:+ "," +:+ dquote +:+ " "
      +:+ pub_name +:+ ", " +:+ fmt_year (year m) "n.d." +:+ "." in
  Return {| full := full; in_text := "[1]" |}.

Definition generate_citation (metadata : metadata) (style : string)
    : outcome CitationResult :=
  if bool_decide (style = CitationStyle.APA) then _generate_apa metadata
  else if bool_decide (style = CitationStyle.MLA) then _generate_mla metadata
  else if bool_decide (style = CitationStyle.CHICAGO) then _generate_chicago metadata
  else if bool_decide (style = CitationStyle.HARVARD) then _generate_harvard metadata
  else if bool_decide (style = CitationStyle.IEEE) then _generate_ieee metadata
  else _generate_apa metadata.

End ServiceCitation.

(* ===================================================================== *)
(** * Comparing two runs of the similarity service *)
(* ===================================================================== *)



(* ===================================================================== *)
(** * More of Python's [str] *)
(* ===================================================================== *)

Module PyStr.

Definition upper_char (c : ascii) : ascii :=
  let n := nat_of_ascii c in
  if (97 <=? n)%nat && (n <=? 122)%nat then ascii_of_nat (n - 32) else c.

(** [s.upper()], on ASCII as [Py.lower] *)
Fixpoint upper (s : string) : string :=
  match s with
  | EmptyString => EmptyString
  | String c s' => String (upper_char c) (upper s')
  end.

(** [s.lstrip()] *)
Fixpoint lstrip (s : string) : string :=
  match s with
  | EmptyString => EmptyString
  | String c s' => if Py.isspace c then lstrip s' else s
  end.

(** [s.rstrip()] *)
Fixpoint rstrip (s : string) : string :=
  match s with
  | EmptyString => EmptyString
  | String c s' =>
      match rstrip s' with
      | EmptyString => if Py.isspace c then EmptyString else String c EmptyString
      | r => String c r
      end
  end.

(** [s.strip()] *)
Definition strip (s : string) : string := rstrip (lstrip s).

(** [s.split(sep)] for a separator of one character or more: the text is
    read from the left; [cur] is the piece being read and [skip] the number
    of characters of a separator still to pass. *)
Fixpoint split_by_from (sep : string) (skip : nat) (cur : string) (s : string)
    : list string :=
  match s with
  | EmptyString => [cur]
  | String c s' =>
      match skip with
      | S skip' => split_by_from sep skip' cur s'
      | O =>
          if Py.startswith sep s
          then cur :: split_by_from sep (String.length sep - 1) "" s'
          else split_by_from sep 0 (cur +:+ String c "") s'
      end
  end.

Definition split_by (sep : string) (s : string) : list string :=
  split_by_from sep 0 "" s.

(** [s.split(sep, 1)] for a separator of one character: the text before
    the first separator and the text after it, or the text alone. *)
Fixpoint split_once (sep : ascii) (s : string) : list string :=
  match s with
  | EmptyString => [""]
  | String c s' =>
      if bool_decide (c = sep) then [""; s']
      else match split_once sep s' with
           | [before; after] => [String c before; after]
           | _ => [s]
           end
  end.

End PyStr.

(* ===================================================================== *)
(** * What a route answers *)
(* ===================================================================== *)

(** The value the handler returns, or the [HTTPException] it raises. *)
Inductive response (A : Type) :=
  | Ok (body : A)
  | HTTPException (status_code : nat) (detail : string).
Arguments Ok {A} body.
Arguments HTTPException {A} status_code detail.

(* ===================================================================== *)
(** * [get_similarity_service] and its two caches *)
(* ===================================================================== *)

Module SimilarityCache.

Import Similarity.

(** What the construction of a service depends on: the environment
    variable [SIMILARITY_MODEL], the loading of a model by its name
    ([None] when [sentence_transformers] cannot be imported or the loading
    fails), and whether scikit-learn can be imported. *)
Record environment := {
  SIMILARITY_MODEL : option string;
  load_model : string -> option Model;
  sklearn : bool
}.

(** An object of class [SimilarityService], with the two attributes the
    analysis does not read. *)
Record instance := {
  model_name : string;
  threshold : option Q;
  service : SimilarityService
}.

(** [SimilarityService(model_name=..., threshold=...)] *)
Definition new_service (env : environment) (model_name : string)
    (threshold : option Q) : instance :=
  {| model_name := model_name;
     threshold := threshold;
     service := {| model := load_model env model_name;
                   sklearn_importable := sklearn env |} |}.

(** The two ways the repository calls the function:
    [get_similarity_service()] and [get_similarity_service(threshold=t)],
    [t] being a number or [None].  They are different keys of the
    [lru_cache]. *)
Inductive call :=
  | NoArgument
  | Keyword (t : option Q).

(** The value of the parameter [threshold] in the body. *)
Definition threshold_of (c : call) : option Q :=
  match c with
  | NoArgument => Some (85 # 100)%Q
  | Keyword t => t
  end.

(** Equality of cache keys: numbers are compared by value. *)
Definition call_eqb (c c' : call) : bool :=
  match c, c' with
  | NoArgument, NoArgument => true
  | Keyword None, Keyword None => true
  | Keyword (Some t), Keyword (Some t') => Qeq_bool t t'
  | _, _ => false
  end.

(** The module-level variable [_similarity_service] and the entries of the
    [lru_cache], the most recently used first. *)
Record state := {
  _similarity_service : option instance;
  cache : list (call * instance)
}.

Definition initial : state := {| _similarity_service := None; cache := [] |}.

(** The entry of a key, and the other entries. *)
Fixpoint cache_find (c : call) (entries : list (call * instance))
    : option (instance * list (call * instance)) :=
  match entries with
  | [] => None
  | (c', v) :: rest =>
      if call_eqb c' c then Some (v, rest)
      else match cache_find c rest with
           | Some (found, others) => Some (found, (c', v) :: others)
           | None => None
           end
  end.

(** [maxsize] of [lru_cache()] *)
Definition maxsize : nat := 128.

(** The body of [get_similarity_service]. *)
Definition get_or_create (env : environment) (threshold : option Q)
    (global : option instance) : instance * option instance :=
  match global with
  | Some s => (s, Some s)
  | None =>
      let model_name :=
        default "sentence-transformers/all-MiniLM-L6-v2" (SIMILARITY_MODEL env) in
      let s := new_service env model_name threshold in
      (s, Some s)
  end.

(** [get_similarity_service], with the [lru_cache] around its body: a hit
    returns the cached object and makes its entry the most recent one; a
    miss runs the body, stores the result and drops the least recently
    used entry when there are more than [maxsize]. *)
Definition get_similarity_service (env : environment) (c : call) (st : state)
    : instance * state :=
  match cache_find c (cache st) with
  | Some (found, others) =>
      (found, {| _similarity_service := _similarity_service st;
                 cache := (c, found) :: others |})
  | None =>
      let (s, global) := get_or_create env (threshold_of c) (_similarity_service st) in
      (s, {| _similarity_service := global;
             cache := take maxsize ((c, s) :: cache st) |})
  end.

(** A sequence of calls, from the first to the last. *)
Fixpoint calls (env : environment) (cs : list call) (st : state)
    : list instance * state :=
  match cs with
  | [] => ([], st)
  | c :: cs' =>
      let (s, st1) := get_similarity_service env c st in
      let (ss, st2) := calls env cs' st1 in
      (s :: ss, st2)
  end.

End SimilarityCache.

(* ===================================================================== *)
(** * [backend/app/api/routes/analysis.py] *)
(* ===================================================================== *)

Module AnalysisRoutes.

Import Similarity.

Record AnalyzeTextRequest := {
  text : string;
  sources : option (list source);
  threshold : option Q
}.

(** The constraints of [AnalyzeTextResponse] that a result of the service
    can break: [plagiarism_score: float = Field(..., ge=0.0, le=1.0)]. *)
Definition response_valid (result : SimilarityResult) : bool :=
  Qle_bool 0 (plagiarism_score result) && Qle_bool (plagiarism_score result) 1.

(** [analyze_text]; [validation_error] is [str(e)] for the
    [ValidationError] that pydantic raises on the result. *)
Definition analyze_text (env : SimilarityCache.environment)
    (validation_error : SimilarityResult -> string)
    (request : AnalyzeTextRequest) (st : SimilarityCache.state)
    : response SimilarityResult * SimilarityCache.state :=
  let (similarity_service, st') :=
    SimilarityCache.get_similarity_service env
      (SimilarityCache.Keyword (threshold request)) st in
  (match analyze_document (SimilarityCache.service similarity_service)
           (text request) (default [] (sources request)) with
   | Return result =>
       if response_valid result then Ok result
       else HTTPException 500 (validation_error result)
   | Raise e => HTTPException 500 (exn_msg e)
   end, st').

Record GenerateCitationRequest := {
  title : string;
  authors : list string;
  year : option Z;
  publication_name : option string;
  volume : option string;
  issue : option string;
  pages : option string;
  url : option string;
  doi : option string;
  source_type : string;
  citation_style : string
}.

Record CitationResponse := {
  formatted_citation : string;
  style : string
}.

(** [CitationStyle[name]]: the member of that name, [None] standing for
    [KeyError]. *)
Definition style_by_name (name : string) : option string :=
  if bool_decide (name = "APA") then Some CitationStyle.APA
  else if bool_decide (name = "MLA") then Some CitationStyle.MLA
  else if bool_decide (name = "CHICAGO") then Some CitationStyle.CHICAGO
  else if bool_decide (name = "HARVARD") then Some CitationStyle.HARVARD
  else if bool_decide (name = "IEEE") then Some CitationStyle.IEEE
  else None.

(** [try: CitationStyle[citation_style.upper()] except KeyError: APA] *)
Definition resolve_style (citation_style : string) : string :=
  default CitationStyle.APA (style_by_name (PyStr.upper citation_style)).

(** The value of an optional field of the request, as the dictionary
    holds it. *)
Definition optional {A} (o : option A) : field A :=
  match o with Some a => Val a | None => Null end.

(** The [metadata] dictionary the handler builds; the service reads these
    five keys of it. *)
Definition citation_metadata (request : GenerateCitationRequest)
    : ServiceCitation.metadata :=
  {| ServiceCitation.authors := Val (authors request);
     ServiceCitation.title := Val (title request);
     ServiceCitation.year := optional (year request);
     ServiceCitation.publication_name := optional (publication_name request);
     ServiceCitation.url := optional (url request) |}.

(** [generate_citation] *)
Definition generate_citation (request : GenerateCitationRequest)
    : response CitationResponse :=
  match ServiceCitation.generate_citation (citation_metadata request)
          (resolve_style (citation_style request)) with
  | Return result =>
      Ok {| formatted_citation := full result; style := citation_style request |}
  | Raise e => HTTPException 500 (exn_msg e)
  end.

(** The request with another [citation_style]. *)
Definition with_style (request : GenerateCitationRequest) (citation_style : string)
    : GenerateCitationRequest :=
  {| title := title request; authors := authors request; year := year request;
     publication_name := publication_name request; volume := volume request;
     issue := issue request; pages := pages request; url := url request;
     doi := doi request; source_type := source_type request;
     citation_style := citation_style |}.

End AnalysisRoutes.

(* ===================================================================== *)
(** * [Citation.py]: metadata from a URL *)
(* ===================================================================== *)

Module UrlMetadata.

(** [\d] on ASCII *)
Definition isdigit (c : ascii) : bool :=
  let n := nat_of_ascii c in (48 <=? n)%nat && (n <=? 57)%nat.

(** The longest prefix of [s] whose characters satisfy [p], and what
    follows it: a greedy [p+] or [p*]. *)
Fixpoint span (p : ascii -> bool) (s : string) : string * string :=
  match s with
  | EmptyString => ("", "")
  | String c s' =>
      if p c then let (run, rest) := span p s' in (String c run, rest)
      else ("", s)
  end.

(** [s] without its prefix [p], when it begins with [p]. *)
Fixpoint after_prefix (p s : string) : option string :=
  match p, s with
  | EmptyString, _ => Some s
  | String c p', String d s' => if bool_decide (c = d) then after_prefix p' s' else None
  | String _ _, EmptyString => None
  end.

(** The match of [10\.\d{4,}/[^\s]+] at the head of [s]: all the digits
    that follow ["10."], four at least, a slash, and all the characters up
    to the next white space, one at least. *)
Definition doi_at (s : string) : option string :=
  match after_prefix "10." s with
  | None => None
  | Some rest =>
      let (digits, rest') := span isdigit rest in
      if (4 <=? String.length digits)%nat
      then match rest' with
           | String "/" tail =>
               let (suffix, _) := span (fun c => negb (Py.isspace c)) tail in
               if bool_decide (suffix = "") then None
               else Some ("10." +:+ digits +:+ "/" +:+ suffix)
           | _ => None
           end
      else None
  end.

(** [re.search(r'10\.\d{4,}/[^\s]+', s)]: the match at the leftmost place
    where there is one, as [.group()] gives it. *)
Fixpoint doi_search (s : string) : option string :=
  match doi_at s with
  | Some found => Some found
  | None =>
      match s with
      | EmptyString => None
      | String _ s' => doi_search s'
      end
  end.

(** [n] digits at the head of [s], and what follows them. *)
Fixpoint digits (n : nat) (s : string) : option string :=
  match n, s with
  | O, _ => Some s
  | S n', String c s' => if isdigit c then digits n' s' else None
  | S _, EmptyString => None
  end.

(** There is a match of [\d{4}\.\d{4,5}] at the head of [s]. *)
Definition arxiv_at (s : string) : bool :=
  match digits 4 s with
  | Some (String "." rest) => match digits 4 rest with Some _ => true | None => false end
  | _ => false
  end.

(** [re.search(r'(\d{4}\.\d{4,5})', s)] finds a match. *)
Fixpoint arxiv_search (s : string) : bool :=
  arxiv_at s
  || match s with
     | EmptyString => false
     | String _ s' => arxiv_search s'
     end.

(** [extract_metadata_from_url]; [today] is
    [datetime.now().strftime("%Y-%m-%d")]. *)
Definition extract_metadata_from_url (today : string) (url : string)
    : option Citation.SourceMetadata :=
  match doi_search url with
  | Some doi_match =>
      Some {| Citation.title := "Article Title";
              Citation.authors := ["Author Name"];
              Citation.year := None;
              Citation.publication_name := None;
              Citation.volume := None;
              Citation.issue := None;
              Citation.pages := None;
              Citation.url := None;
              Citation.doi := Some doi_match;
              Citation.access_date := None;
              Citation.source_type := "article" |}
  | None =>
      if Py.is_in "arxiv.org" url && arxiv_search url
      then
        Some {| Citation.title := "Paper Title";
                Citation.authors := ["Author Name"];
                Citation.year := None;
                Citation.publication_name := None;
                Citation.volume := None;
                Citation.issue := None;
                Citation.pages := None;
                Citation.url := Some url;
                Citation.doi := None;
                Citation.access_date := None;
                Citation.source_type := "article" |}
      else
        Some {| Citation.title := "Web Page Title";
                Citation.authors := ["Website Name"];
                Citation.year := None;
                Citation.publication_name := None;
                Citation.volume := None;
                Citation.issue := None;
                Citation.pages := None;
                Citation.url := Some url;
                Citation.doi := None;
                Citation.access_date := Some today;
                Citation.source_type := "website" |}
  end.

End UrlMetadata.

(* ===================================================================== *)
(** * [Analysis.py] (root of the repository): the citation routes *)
(* ===================================================================== *)

Module RootRoutes.



End RootRoutes.

(* ===================================================================== *)
(** * [backend/app/services/paraphrasing.py] *)
(* ===================================================================== *)

Module Paraphrasing.

(** The five rewriting methods of [SimpleParaphraser] are substitutions by
    regular expressions; what they compute is a parameter of the model, and
    each may raise. *)
Record Rewriting := {
  _academicize : string -> outcome string;
  _formalize : string -> outcome string;
  _casualize : string -> outcome string;
  _simplify : string -> outcome string;
  _standard : string -> outcome string
}.

(** [not text or len(text.strip()) < 5] *)
Definition too_short (text : string) : bool :=
  bool_decide (text = "") || (String.length (PyStr.strip text) <? 5)%nat.

(** [SimpleParaphraser.paraphrase] *)
Definition local_paraphrase (rw : Rewriting) (text style : string) : outcome string :=
  if too_short text then Return text
  else
    try_except
      (if bool_decide (style = "academic") then _academicize rw text
       else if bool_decide (style = "formal") then _formalize rw text
       else if bool_decide (style = "casual") then _casualize rw text
       else if bool_decide (style = "simple") then _simplify rw text
       else _standard rw text)
      (fun _ => Return text).

(** A request to a language model: from [self.model] and the prompt to the
    text of the first answer, which is taken to be a [str]; the request may
    raise. *)
Definition Completion : Type := option string -> string -> outcome string.

(** The two kinds of client: [messages.create(...).content[0].text] is a
    request of the first, [chat.completions.create(...).choices[0]
    .message.content] of the second. *)
Inductive Client :=
  | AnthropicClient (create : Completion)
  | OpenAIClient (create : Completion).

(** The request of a client, whatever its kind. *)
Definition request_of (c : Client) : Completion :=
  match c with
  | AnthropicClient create => create
  | OpenAIClient create => create
  end.

(** What [__init__] finds around it: the two environment variables, and
    the construction of a client from a key, which fails when the package
    is not installed or the constructor raises. *)
Record Platform := {
  ANTHROPIC_API_KEY : option string;
  OPENAI_API_KEY : option string;
  Anthropic : string -> outcome Completion;
  OpenAI : string -> outcome Completion
}.

(** The attributes of a [ParaphrasingService] that its methods read;
    [local_paraphraser] holds no state. *)
Record ParaphrasingService := {
  client : option Client;
  model : option string;
  use_local : bool
}.

(** [a or b] for two optional keys *)
Definition key_or (a b : option string) : option string :=
  match a with
  | Some k => if bool_decide (k = "") then b else Some k
  | None => b
  end.

(** The key, when it is true: a non-empty string. *)
Definition usable (key : option string) : option string :=
  match key with
  | Some k => if bool_decide (k = "") then None else Some k
  | None => None
  end.

(** [ParaphrasingService.__init__] *)
Definition init (pf : Platform) (use_anthropic : bool)
    (anthropic_api_key openai_api_key : option string) : ParaphrasingService :=
  let local := {| client := None; model := None; use_local := true |} in
  let first :=
    match (if use_anthropic
           then usable (key_or anthropic_api_key (ANTHROPIC_API_KEY pf))
           else None) with
    | Some key =>
        match Anthropic pf key with
        | Return create => {| client := Some (AnthropicClient create);
                              model := Some "claude-3-haiku-20240307";
                              use_local := false |}
        | Raise _ => local
        end
    | None => local
    end in
  match client first with
  | Some _ => first
  | None =>
      match usable (key_or openai_api_key (OPENAI_API_KEY pf)) with
      | Some key =>
          match OpenAI pf key with
          | Return create => {| client := Some (OpenAIClient create);
                                model := Some "gpt-4-turbo-preview";
                                use_local := false |}
          | Raise _ => first
          end
      | None => first
      end
  end.

Definition newline : string := String "010"%char "".

(** The prompt of [_paraphrase_claude] and [_paraphrase_openai] *)
Definition prompt (text style : string) : string :=
  "Paraphrase the following text in a " +:+ style
    +:+ " style. Keep the same meaning but use different words and sentence structure. Only return the paraphrased text, nothing else."
    +:+ newline +:+ newline +:+ "Text: " +:+ text.

Definition no_attribute (name : string) : exn :=
  Exn AttributeError ("object has no attribute '" +:+ name +:+ "'").

(** [_paraphrase_claude]: the answer of the client, and [text] when
    anything raises. *)
Definition _paraphrase_claude (self : ParaphrasingService) (text style : string)
    : outcome string :=
  try_except
    (match client self with
     | Some (AnthropicClient create) => create (model self) (prompt text style)
     | _ => Raise (no_attribute "messages")
     end)
    (fun _ => Return text).

(** [_paraphrase_openai] *)
Definition _paraphrase_openai (self : ParaphrasingService) (text style : string)
    : outcome string :=
  try_except
    (match client self with
     | Some (OpenAIClient create) => create (model self) (prompt text style)
     | _ => Raise (no_attribute "chat")
     end)
    (fun _ => Return text).

(** [ParaphrasingService.paraphrase] *)
Definition paraphrase (rw : Rewriting) (self : ParaphrasingService)
    (text style : string) : outcome string :=
  if too_short text then Return text
  else if use_local self then local_paraphrase rw text style
  else
    try_except
      (let name := Py.lower (default "" (model self)) in
       if Py.is_in "claude" name then _paraphrase_claude self text style
       else if Py.is_in "gpt" name then _paraphrase_openai self text style
       else Return text)
      (fun _ => local_paraphrase rw text style).

Record Suggestion := { paraphrase_of : string; explanation : string }.

(** [generate_paraphrases] *)
Definition generate_paraphrases (rw : Rewriting) (self : ParaphrasingService)
    (text : string) (context : option string) (num_alternatives : Z)
    : outcome (list Suggestion) :=
  if bool_decide (text = "") then Return [{| paraphrase_of := ""; explanation := "" |}]
  else
    let* paraphrased := paraphrase rw self text "standard" in
    Return [{| paraphrase_of := paraphrased;
               explanation :=
                 "Using " +:+ (if negb (use_local self) then "LLM"
                               else "local synonym replacement") +:+ " algorithm" |}].

End Paraphrasing.

(* ===================================================================== *)
(** * [Paraphrasing.py] (root of the repository): reading the answer *)
(* ===================================================================== *)

Module RootParaphrasing.

(** One element of the list [_parse_response] returns. *)
Record Paraphrase := { paraphrase : string; explanation : string }.

Definition newline : ascii := "010"%char.

(** The [ValueError] of [a, b = parts] when [parts] has not two items. *)
Definition unpack_error (n : nat) : exn :=
  Exn ValueError
    (if (n <? 2)%nat
     then "not enough values to unpack (expected 2, got " +:+ Py.str_nat n +:+ ")"
     else "too many values to unpack (expected 2)").

(** The body of the [try] block of [_parse_response], for one section. *)
Definition parse_section (section : string) : outcome Paraphrase :=
  match PyStr.split_by "EXPLANATION " section with
  | [paraphrase_part; explanation_part] =>
      let* after_label := Py.item (PyStr.split_once newline paraphrase_part) 1 in
      let paraphrase := PyStr.strip after_label in
      let* after_label' := Py.item (PyStr.split_once newline explanation_part) 1 in
      let explanation := PyStr.strip after_label' in
      let* explanation :=
        if Py.is_in "PARAPHRASE" explanation
        then
          let* head := Py.item (PyStr.split_by "PARAPHRASE" explanation) 0 in
          Return (PyStr.strip head)
        else Return explanation in
      Return {| paraphrase := paraphrase; explanation := explanation |}
  | parts => Raise (unpack_error (length parts))
  end.

(** [except (ValueError, IndexError)] *)
Definition skipped (e : exn) : bool :=
  match exn_cls e with
  | ValueError | IndexError => true
  | _ => false
  end.

(** [_parse_response] *)
Definition _parse_response (response : string) : outcome (list Paraphrase) :=
  let sections := PyStr.split_by "PARAPHRASE " response in
  foldM
    (fun paraphrases section =>
       match parse_section section with
       | Return p => Return (paraphrases ++ [p])%list
       | Raise e => if skipped e then Return paraphrases else Raise e
       end)
    [] (drop 1 sections).

(** ** The format the prompt of [_build_prompt] asks for *)

Definition nl : string := String newline "".

(** One numbered item: ["PARAPHRASE n:"], the text, a blank line,
    ["EXPLANATION n:"], the explanation, a blank line. *)
Definition item_text (label : string) (p : Paraphrase) : string :=
  "PARAPHRASE " +:+ label +:+ ":" +:+ nl +:+ paraphrase p +:+ nl +:+ nl
    +:+ "EXPLANATION " +:+ label +:+ ":" +:+ nl +:+ explanation p +:+ nl +:+ nl.

(** An answer: some lines of introduction, then the items. *)
Fixpoint items_text (items : list (string * Paraphrase)) : string :=
  match items with
  | [] => ""
  | (label, p) :: items' => item_text label p +:+ items_text items'
  end.

Definition answer (introduction : string) (items : list (string * Paraphrase))
    : string :=
  introduction +:+ nl +:+ items_text items.

(** A label made of digits. *)
Fixpoint number (label : string) : Prop :=
  match label with
  | EmptyString => True
  | String c label' => UrlMetadata.isdigit c = true /\ number label'
  end.

(** A text with no white space at its ends and without the two markers. *)
Definition plain (text : string) : Prop :=
  PyStr.lstrip text = text /\ PyStr.rstrip text = text
  /\ Py.is_in "PARAPHRASE" text = false
  /\ Py.is_in "EXPLANATION " text = false.

End RootParaphrasing.

(* ===================================================================== *)
(** * Proof tactics *)
(* ===================================================================== *)

(** Run the [bind]s of a goal: case on each outcome at the head of one,
    innermost first. *)
Ltac run_binds :=
  repeat (cbn [bind];
          match goal with
          | |- context [bind ?m _] =>
              lazymatch m with
              | bind _ _ => fail
              | _ => destruct m eqn:?
              end
          end);
  cbn [bind].

(** After [run_binds]: drop the raising cases and name the result. *)
Ltac returned :=
  first [ discriminate | intros [= <-] ].

(** Case on the closed conditions of the goal. *)
Ltac split_ifs :=
  repeat match goal with
         | |- context [if ?c then _ else _] => destruct c eqn:?
         end.

(** The part of a right-nested concatenation [s] before the piece [tok]. *)
Ltac before_of tok s :=
  lazymatch s with
  | ?a +:+ ?b =>
      match a with
      | _ => let _ := match goal with _ => constr_eq a tok end in constr:("")
      | _ => let rest := before_of tok b in constr:(a +:+ rest)
      end
  end.

(** The part of a concatenation before its first empty piece, the place of
    the year that is left out. *)
Ltac before_gap s :=
  lazymatch s with
  | EmptyString => constr:("")
  | EmptyString +:+ _ => constr:("")
  | ?a +:+ ?b => let rest := before_gap b in constr:(a +:+ rest)
  end.

(* ===================================================================== *)
(** * Properties of the similarity service *)
(* ===================================================================== *)

Import Value Similarity.

Lemma analyze_document_returns self doc sources :
  exists r, analyze_document self doc sources = Return r.
Proof.
  unfold analyze_document.
  destruct (bool_decide (doc = "") || is_nil sources); [eauto |].
  destruct (analyze_body self doc sources); simpl; eauto.
Qed.

(** An exception that leaves the [try] block comes from the lexical
    strategy: the semantic one hands its own exceptions over to it. *)
Lemma analyze_body_raises self doc sources e :
  analyze_body self doc sources = Raise e -> _analyze_simple doc sources = Raise e.
Proof.
  unfold analyze_body. destruct (model self) as [m |]; [| tauto].
  unfold _analyze_semantic.
  destruct (sklearn_importable self); simpl; [| tauto].
  destruct (encode m doc); simpl; [| tauto].
  destruct (is_nil _); simpl; [discriminate |].
  destruct (encode_batch m _); simpl; [| tauto].
  destruct (cosine_similarity m _ _); simpl; [| tauto].
  destruct (Num.max_list _); simpl; [discriminate | tauto].
Qed.

(** C1, as stated, fails: the lexical strategy raises [AttributeError] on a
    numeric content, and [analyze_document] answers with a result whose
    score is 0 instead of letting the exception through. *)
Lemma internal_error_returned_as_zero_score :
  analyze_body lexical_service "hello world" [numeric_source]
    = Raise (Exn AttributeError "'int' object has no attribute 'lower'")
  /\ analyze_document lexical_service "hello world" [numeric_source]
    = Return {| plagiarism_score := 0;
                flagged_sections := 0;
                recommendations := ["'int' object has no attribute 'lower'"];
                total_matches := 0;
                sources_checked := 1 |}.
Proof. split; vm_compute; reflexivity. Qed.

(** C1, amended: an exception raised while scoring never leaves
    [analyze_document]; it is turned into a result with score 0, no flagged
    section, no match, [sources_checked] the number of sources, and the
    message of the exception as the only recommendation. *)
Theorem analyze_document_absorbs_errors self doc sources e :
  doc <> "" -> sources <> [] ->
  analyze_body self doc sources = Raise e ->
  analyze_document self doc sources
    = Return (zero_result (exn_msg e) (length sources)).
Proof.
  intros Hdoc Hsrc Hraise. unfold analyze_document.
  rewrite bool_decide_false by assumption.
  destruct sources as [| s sources']; [congruence |].
  simpl. rewrite Hraise. reflexivity.
Qed.

(** C1: the theorem on the source with a numeric content. *)
Lemma analyze_document_absorbs_errors_witness :
  "hello world" <> ""
  /\ [numeric_source] <> []
  /\ analyze_document lexical_service "hello world" [numeric_source]
      = Return (zero_result "'int' object has no attribute 'lower'" 1).
Proof.
  split; [discriminate |]. split; [discriminate |].
  apply (analyze_document_absorbs_errors lexical_service "hello world"
           [numeric_source]
           (Exn AttributeError "'int' object has no attribute 'lower'")).
  - discriminate.
  - discriminate.
  - vm_compute. reflexivity.
Defined.

Section SimilarityLoop.

Variables (doc_words : gset string) (doc_word_count : nat).

Lemma truthy_get_none s : truthy (get s "content" PNone) = has_content s.
Proof. unfold has_content, get. destruct (s !! "content"); reflexivity. Qed.

Lemma body_skips st s :
  has_content s = false ->
  _analyze_simple_body doc_words doc_word_count st s = Return st.
Proof.
  intros H. unfold _analyze_simple_body. fold (has_content s). rewrite H.
  reflexivity.
Qed.

Lemma body_appends st s st' :
  has_content s = true ->
  _analyze_simple_body doc_words doc_word_count st s = Return st' ->
  exists x, st'.1 = (st.1 ++ [x])%list.
Proof.
  intros H. unfold _analyze_simple_body. fold (has_content s). rewrite H. simpl.
  destruct (Value.lower _); simpl; [| discriminate].
  destruct (to_key _); simpl; [| discriminate].
  intros [= <-]. simpl. eauto.
Qed.

Lemma loop_skips sources st :
  foldM (_analyze_simple_body doc_words doc_word_count) st sources
  = foldM (_analyze_simple_body doc_words doc_word_count) st (with_content sources).
Proof.
  revert st. induction sources as [| s sources IH]; intros st; [reflexivity |].
  unfold with_content. rewrite filter_cons. fold (with_content sources).
  destruct (decide (has_content s = true)) as [H | H].
  - simpl. destruct (_analyze_simple_body _ _ st s); simpl; [apply IH | reflexivity].
  - apply not_true_is_false in H. simpl. rewrite (body_skips _ _ H). simpl. apply IH.
Qed.

Lemma loop_length sources st st' :
  foldM (_analyze_simple_body doc_words doc_word_count) st sources = Return st' ->
  length st'.1 = (length st.1 + length (with_content sources))%nat.
Proof.
  revert st. induction sources as [| s sources IH]; intros st; simpl.
  - intros [= <-]. unfold with_content. simpl. lia.
  - unfold with_content. rewrite filter_cons. fold (with_content sources).
    destruct (decide (has_content s = true)) as [H | H].
    + destruct (_analyze_simple_body _ _ st s) as [st1 |] eqn:E; simpl; [| discriminate].
      intros Hl. apply IH in Hl. destruct (body_appends _ _ _ H E) as [x Hx].
      rewrite Hx, length_app in Hl. simpl in *. lia.
    + apply not_true_is_false in H. rewrite (body_skips _ _ H). simpl. apply IH.
Qed.

End SimilarityLoop.

Lemma doc_word_count_zero doc :
  size (list_to_set (Py.split (Py.lower doc)) : gset string) = 0%nat <-> ~ has_word doc.
Proof.
  unfold has_word. rewrite size_empty_iff. split.
  - intros H Hne. destruct (Py.split (Py.lower doc)) as [| w ws]; [congruence |].
    assert (w ∈ (list_to_set (w :: ws) : gset string)) as Hin by set_solver.
    rewrite H in Hin. set_solver.
  - intros H. destruct (Py.split (Py.lower doc)) as [| w ws]; [reflexivity |].
    exfalso. apply H. discriminate.
Qed.

Lemma is_nil_length {A} (l : list A) : is_nil l = true <-> length l = 0%nat.
Proof. destruct l; simpl; split; (congruence || lia). Qed.

(** The degenerate answers of [_analyze_simple]. *)
Lemma analyze_simple_degenerate doc sources r :
  _analyze_simple doc sources = Return r ->
  ~ has_word doc \/ with_content sources = [] ->
  exists msg, r = zero_result msg 0.
Proof.
  unfold _analyze_simple. intros Hr Hdeg.
  destruct (Nat.eqb_spec (size (list_to_set (Py.split (Py.lower doc)) : gset string)) 0)
    as [Hz | Hnz].
  { injection Hr as <-. eauto. }
  destruct Hdeg as [Hw | Hc]; [rewrite doc_word_count_zero in Hnz; tauto |].
  destruct (foldM _ _ sources) as [st |] eqn:Hloop; simpl in Hr; [| discriminate].
  apply loop_length in Hloop. rewrite Hc in Hloop. simpl in Hloop.
  destruct (is_nil st.1) eqn:Hnil.
  - injection Hr as <-. eauto.
  - destruct st.1; simpl in *; [discriminate | lia].
Qed.

(** The regular answer of [_analyze_simple]: its fields in terms of the
    list [similarities] the loop leaves. *)
Lemma analyze_simple_scored doc sources r :
  _analyze_simple doc sources = Return r ->
  has_word doc -> with_content sources <> [] ->
  exists st mx,
    simple_loop doc sources = Return st
    /\ length st.1 = length (with_content sources)
    /\ Num.max_list st.1 = Return mx
    /\ plagiarism_score r
       = ((mx + Num.sum_list st.1 / inject_Z (Z.of_nat (length st.1))) / 2)%Q
    /\ flagged_sections r = Num.count_above (3 # 10) st.1
    /\ total_matches r = Num.count_above (15 # 100) st.1
    /\ sources_checked r = length sources.
Proof.
  unfold _analyze_simple, simple_loop. intros Hr Hw Hc.
  destruct (Nat.eqb_spec (size (list_to_set (Py.split (Py.lower doc)) : gset string)) 0)
    as [Hz | Hnz].
  { apply doc_word_count_zero in Hz. tauto. }
  destruct (foldM _ _ sources) as [st |] eqn:Hloop; simpl in Hr; [| discriminate].
  pose proof (loop_length _ _ _ _ _ Hloop) as Hlen. simpl in Hlen.
  destruct (is_nil st.1) eqn:Hnil.
  { apply is_nil_length in Hnil. rewrite Hnil in Hlen.
    destruct (with_content sources); simpl in *; [congruence | lia]. }
  destruct (Num.max_list st.1) as [mx |] eqn:Hmx; simpl in Hr; [| discriminate].
  injection Hr as <-. exists st, mx. simpl. tauto.
Qed.

(** [_analyze_simple] answers unless the loop raises. *)
Lemma analyze_simple_returns doc sources st :
  simple_loop doc sources = Return st ->
  exists r, _analyze_simple doc sources = Return r.
Proof.
  unfold _analyze_simple, simple_loop. intros ->. simpl.
  destruct (_ =? 0)%nat; [eauto |].
  destruct st.1 as [| x l]; simpl; eauto.
Qed.

Lemma same_findings_refl r : same_findings r r.
Proof. unfold same_findings. tauto. Qed.

Lemma with_content_idemp sources : with_content (with_content sources) = with_content sources.
Proof.
  unfold with_content. induction sources as [| s l IH]; [reflexivity |].
  rewrite filter_cons. destruct (decide (has_content s = true)) as [H | H]; [| exact IH].
  rewrite filter_cons. destruct (decide (has_content s = true)); [| tauto].
  f_equal. exact IH.
Qed.

Lemma filter_get_none sources :
  filter (fun s : source => truthy (get s "content" PNone) = true) sources
  = with_content sources.
Proof.
  unfold with_content. induction sources as [| s l IH]; [reflexivity |].
  rewrite !filter_cons, IH. rewrite truthy_get_none.
  destruct (decide (has_content s = true)); reflexivity.
Qed.

(** Sources without content change nothing but [sources_checked]. *)
Lemma analyze_simple_skips doc sources :
  outcome_rel same_findings
    (_analyze_simple doc sources) (_analyze_simple doc (with_content sources)).
Proof.
  unfold _analyze_simple.
  destruct (_ =? 0)%nat; [apply same_findings_refl |].
  rewrite (loop_skips _ _ sources).
  destruct (foldM _ _ (with_content sources)) as [st |]; simpl; [| reflexivity].
  destruct (is_nil st.1); [apply same_findings_refl |].
  destruct (Num.max_list st.1); simpl; [| reflexivity].
  unfold same_findings. simpl. tauto.
Qed.

Lemma analyze_semantic_skips self m doc sources :
  outcome_rel same_findings
    (_analyze_semantic self m doc sources)
    (_analyze_semantic self m doc (with_content sources)).
Proof.
  unfold _analyze_semantic.
  rewrite !filter_get_none, with_content_idemp.
  destruct (sklearn_importable self); simpl; [| apply analyze_simple_skips].
  destruct (encode m doc); simpl; [| apply analyze_simple_skips].
  destruct (is_nil _); simpl; [apply same_findings_refl |].
  destruct (encode_batch m _); simpl; [| apply analyze_simple_skips].
  destruct (cosine_similarity m _ _); simpl; [| apply analyze_simple_skips].
  destruct (Num.max_list _); simpl; [| apply analyze_simple_skips].
  unfold same_findings. simpl. tauto.
Qed.

Lemma analyze_body_skips self doc sources :
  outcome_rel same_findings
    (analyze_body self doc sources) (analyze_body self doc (with_content sources)).
Proof.
  unfold analyze_body. destruct (model self).
  - apply analyze_semantic_skips.
  - apply analyze_simple_skips.
Qed.

Lemma has_word_nonempty doc : has_word doc -> doc <> "".
Proof. intros H ->. apply H. reflexivity. Qed.

Lemma with_content_nonempty sources : with_content sources <> [] -> sources <> [].
Proof. intros H ->. apply H. reflexivity. Qed.

Lemma analyze_simple_checked doc sources r :
  _analyze_simple doc sources = Return r ->
  has_word doc -> with_content sources <> [] ->
  sources_checked r = length sources.
Proof.
  intros Hr Hw Hc.
  destruct (analyze_simple_scored _ _ _ Hr Hw Hc) as (st & mx & H). tauto.
Qed.

Lemma analyze_body_checked self doc sources r :
  analyze_body self doc sources = Return r ->
  has_word doc -> with_content sources <> [] ->
  sources_checked r = length sources.
Proof.
  unfold analyze_body. intros Hr Hw Hc.
  destruct (model self) as [m |]; [| eapply analyze_simple_checked; eauto].
  revert Hr. unfold _analyze_semantic. rewrite filter_get_none.
  pose proof (fun H => analyze_simple_checked doc sources r H Hw Hc) as Hsimple.
  destruct (sklearn_importable self); simpl; [| exact Hsimple].
  destruct (encode m doc); simpl; [| exact Hsimple].
  destruct (with_content sources) as [| s l] eqn:E; [congruence |]. simpl.
  destruct (encode_batch m _); simpl; [| exact Hsimple].
  destruct (cosine_similarity m _ _); simpl; [| exact Hsimple].
  destruct (Num.max_list _); simpl; [| exact Hsimple].
  intros [= <-]. reflexivity.
Qed.

(** C3, as stated, fails: of two sources one has an empty content, and
    [sources_checked] is 2, not the number of sources with content. *)
Lemma sources_checked_counts_empty_source :
  let sources := [SourceText "A" ""; SourceText "B" "alpha beta"] in
  length (with_content sources) = 1%nat
  /\ exists r, analyze_document lexical_service "alpha" sources = Return r
               /\ sources_checked r = 2%nat.
Proof. split; [vm_compute; reflexivity |]. eexists. split; vm_compute; reflexivity. Qed.

(** C3, amended: when the document has a word and some source has a
    content, [sources_checked] is the number of all the sources given,
    those without content included; the sources without content are
    skipped: score, flagged sections, matches and recommendations are those
    of the call on the sources with content alone. *)
Theorem sources_checked_is_number_of_sources self doc sources :
  has_word doc -> with_content sources <> [] ->
  exists r r',
    analyze_document self doc sources = Return r
    /\ analyze_document self doc (with_content sources) = Return r'
    /\ sources_checked r = length sources
    /\ same_findings r r'.
Proof.
  intros Hw Hc. unfold analyze_document.
  rewrite (bool_decide_false _ (has_word_nonempty _ Hw)).
  pose proof (with_content_nonempty _ Hc) as Hs.
  destruct sources as [| s0 l0] eqn:Es; [congruence |]. rewrite <- Es in *.
  assert (is_nil sources = false) as -> by (rewrite Es; reflexivity).
  destruct (with_content sources) as [| s1 l1] eqn:Ec; [congruence |]. rewrite <- Ec.
  assert (is_nil (with_content sources) = false) as -> by (rewrite Ec; reflexivity).
  simpl.
  pose proof (analyze_body_skips self doc sources) as Hrel.
  destruct (analyze_body self doc sources) as [r | e] eqn:Hb;
    destruct (analyze_body self doc (with_content sources)) as [r' | e'];
    simpl in Hrel; try contradiction.
  - exists r, r'. repeat split; try apply Hrel.
    apply (analyze_body_checked self doc sources r Hb Hw). congruence.
  - subst e'. do 2 eexists. repeat split.
Qed.

(** C3: the theorem on two sources, one of them without content. *)
Lemma sources_checked_is_number_of_sources_witness :
  let sources := [SourceText "A" ""; SourceText "B" "alpha beta"] in
  has_word "alpha"
  /\ with_content sources <> []
  /\ exists r r',
       analyze_document lexical_service "alpha" sources = Return r
       /\ analyze_document lexical_service "alpha" (with_content sources) = Return r'
       /\ sources_checked r = length sources
       /\ same_findings r r'.
Proof.
  intros sources.
  assert (has_word "alpha") as Hw by (vm_compute; discriminate).
  assert (with_content sources <> []) as Hc by (vm_compute; discriminate).
  split; [exact Hw |]. split; [exact Hc |].
  exact (sources_checked_is_number_of_sources lexical_service "alpha" sources Hw Hc).
Defined.

(* ===================================================================== *)
(** * Arithmetic of the scores *)
(* ===================================================================== *)

Section ScoreArithmetic.
Local Open Scope Q_scope.

Lemma gtb_true x y : Num.gtb x y = true <-> y < x.
Proof.
  unfold Num.gtb. rewrite Qgt_alt. destruct (x ?= y); split; congruence.
Qed.

Lemma gtb_false x y : Num.gtb x y = false <-> x <= y.
Proof.
  unfold Num.gtb. rewrite Qle_alt. destruct (x ?= y); split; congruence.
Qed.

Lemma div_nat_range a b :
  (a <= b)%nat -> (0 < b)%nat -> 0 <= Num.div_nat a b <= 1.
Proof.
  intros Hab Hb. unfold Num.div_nat.
  assert (0 < inject_Z (Z.of_nat b)) as Hpos.
  { change 0 with (inject_Z 0). rewrite <- Zlt_Qlt. lia. }
  split.
  - apply Qle_shift_div_l; [exact Hpos |]. rewrite Qmult_0_l.
    change 0 with (inject_Z 0). rewrite <- Zle_Qle. lia.
  - apply Qle_shift_div_r; [exact Hpos |]. rewrite Qmult_1_l.
    rewrite <- Zle_Qle. lia.
Qed.

Lemma max_from_range m l :
  Num.unit_range m -> Forall Num.unit_range l -> Num.unit_range (Num.max_from m l).
Proof.
  revert m. induction l as [| x l IH]; intros m Hm Hl; simpl; [exact Hm |].
  inversion Hl; subst. apply IH; [| assumption].
  destruct (Num.gtb x m); assumption.
Qed.

Lemma fold_plus_range l a :
  Forall Num.unit_range l ->
  a <= fold_left Qplus l a <= a + inject_Z (Z.of_nat (length l)).
Proof.
  revert a. induction l as [| x l IH]; intros a Hl.
  - change (a <= a <= a + 0). lra.
  - inversion Hl as [| ? ? [Hx0 Hx1] Hl']; subst.
    specialize (IH (a + x) Hl'). cbn [fold_left length].
    rewrite Nat2Z.inj_succ, <- Z.add_1_r, inject_Z_plus.
    change (inject_Z 1) with 1. lra.
Qed.

Lemma mean_range l :
  l <> [] -> Forall Num.unit_range l ->
  Num.unit_range (Num.sum_list l / inject_Z (Z.of_nat (length l))).
Proof.
  intros Hne Hl. unfold Num.sum_list.
  pose proof (fold_plus_range l 0 Hl) as [Hlo Hhi].
  assert (0 < inject_Z (Z.of_nat (length l))) as Hpos.
  { change 0 with (inject_Z 0). rewrite <- Zlt_Qlt.
    destruct l; [congruence | simpl; lia]. }
  remember (inject_Z (Z.of_nat (length l))) as n eqn:En.
  remember (fold_left Qplus l 0) as total eqn:Et.
  clear En Et Hl Hne. split.
  - apply Qle_shift_div_l; [exact Hpos | lra].
  - apply Qle_shift_div_r; [exact Hpos | lra].
Qed.

Lemma aggregate_range mx avg :
  Num.unit_range mx -> Num.unit_range avg -> Num.unit_range ((mx + avg) / 2).
Proof.
  unfold Num.unit_range. intros [? ?] [? ?]. split.
  - apply Qle_shift_div_l; lra.
  - apply Qle_shift_div_r; lra.
Qed.

Lemma min2_le_1 x : Num.min2 x 1 <= 1.
Proof.
  unfold Num.min2. destruct (Num.gtb x 1) eqn:E; [lra |].
  apply gtb_false in E. exact E.
Qed.

End ScoreArithmetic.

(* ===================================================================== *)
(** * Range of the score and of [sources_checked] *)
(* ===================================================================== *)

Lemma body_range (doc_words : gset string) st s st' :
  _analyze_simple_body doc_words (size doc_words) st s = Return st' ->
  Forall Num.unit_range st.1 -> Forall Num.unit_range st'.1.
Proof.
  unfold _analyze_simple_body. destruct (negb _); [intros [= <-]; tauto |].
  destruct (Value.lower _) as [lowered |]; simpl; [| discriminate].
  destruct (to_key _); simpl; [| discriminate].
  intros [= <-] Hst. simpl. apply Forall_app. split; [exact Hst |].
  apply Forall_singleton.
  destruct (Nat.ltb_spec 0 (size doc_words)) as [Hpos | _].
  - apply div_nat_range; [| exact Hpos].
    apply subseteq_size, intersection_subseteq_l.
  - split; discriminate.
Qed.

Lemma loop_range (doc_words : gset string) sources st st' :
  foldM (_analyze_simple_body doc_words (size doc_words)) st sources = Return st' ->
  Forall Num.unit_range st.1 -> Forall Num.unit_range st'.1.
Proof.
  revert st. induction sources as [| s sources IH]; intros st; simpl.
  - intros [= <-]. tauto.
  - destruct (_analyze_simple_body _ _ st s) as [st1 |] eqn:E; simpl; [| discriminate].
    intros Hl Hst. apply (IH st1 Hl). exact (body_range _ _ _ _ E Hst).
Qed.

Lemma max_list_range l mx :
  Num.max_list l = Return mx -> Forall Num.unit_range l -> Num.unit_range mx.
Proof.
  destruct l as [| x l]; simpl; [discriminate |].
  intros [= <-] Hl. inversion Hl; subst. apply max_from_range; assumption.
Qed.

Lemma zero_in_range : Num.unit_range 0.
Proof. split; discriminate. Qed.

(** The lexical strategy scores between 0 and 1. *)
Lemma analyze_simple_score_range doc sources r :
  _analyze_simple doc sources = Return r -> Num.unit_range (plagiarism_score r).
Proof.
  unfold _analyze_simple.
  destruct (_ =? 0)%nat; [intros [= <-]; apply zero_in_range |].
  destruct (foldM _ _ sources) as [st |] eqn:Hloop; simpl; [| discriminate].
  apply loop_range in Hloop; [| constructor].
  destruct (is_nil st.1) eqn:Hnil; [intros [= <-]; apply zero_in_range |].
  destruct (Num.max_list st.1) as [mx |] eqn:Hmx; simpl; [| discriminate].
  intros [= <-]. simpl. apply aggregate_range.
  - exact (max_list_range _ _ Hmx Hloop).
  - apply mean_range; [| exact Hloop]. intros E. rewrite E in Hnil. discriminate.
Qed.

Lemma analyze_simple_checked_le doc sources r :
  _analyze_simple doc sources = Return r -> (sources_checked r <= length sources)%nat.
Proof.
  unfold _analyze_simple.
  destruct (_ =? 0)%nat; [intros [= <-]; simpl; lia |].
  destruct (foldM _ _ sources) as [st |]; simpl; [| discriminate].
  destruct (is_nil st.1); [intros [= <-]; simpl; lia |].
  destruct (Num.max_list st.1); simpl; [| discriminate].
  intros [= <-]. simpl. lia.
Qed.

(** Whatever the strategy, the score is at most 1 and [sources_checked] at
    most the number of sources. *)
Lemma analyze_body_upper_bounds self doc sources r :
  analyze_body self doc sources = Return r ->
  (plagiarism_score r <= 1)%Q /\ (sources_checked r <= length sources)%nat.
Proof.
  assert (forall r, _analyze_simple doc sources = Return r ->
            (plagiarism_score r <= 1)%Q /\ (sources_checked r <= length sources)%nat)
    as Hsimple.
  { intros r0 H. split; [apply (analyze_simple_score_range _ _ _ H) |].
    exact (analyze_simple_checked_le _ _ _ H). }
  unfold analyze_body. destruct (model self) as [m |]; [| apply Hsimple].
  unfold _analyze_semantic.
  destruct (sklearn_importable self); simpl; [| apply Hsimple].
  destruct (encode m doc); simpl; [| apply Hsimple].
  destruct (is_nil _); simpl.
  { intros [= <-]. simpl. split; [discriminate | lia]. }
  destruct (encode_batch m _); simpl; [| apply Hsimple].
  destruct (cosine_similarity m _ _); simpl; [| apply Hsimple].
  destruct (Num.max_list _); simpl; [| apply Hsimple].
  intros [= <-]. simpl. split; [apply min2_le_1 | lia].
Qed.

Lemma analyze_document_upper_bounds self doc sources r :
  analyze_document self doc sources = Return r ->
  (plagiarism_score r <= 1)%Q /\ (sources_checked r <= length sources)%nat.
Proof.
  unfold analyze_document.
  destruct (_ || _).
  { intros [= <-]. simpl. split; [discriminate | lia]. }
  destruct (analyze_body self doc sources) as [r0 | e] eqn:Hb; simpl.
  - intros [= <-]. exact (analyze_body_upper_bounds _ _ _ _ Hb).
  - intros [= <-]. simpl. split; [discriminate | lia].
Qed.

(** Without a model the score is between 0 and 1. *)
Lemma lexical_score_range self doc sources r :
  model self = None ->
  analyze_document self doc sources = Return r ->
  Num.unit_range (plagiarism_score r).
Proof.
  intros Hm. unfold analyze_document, analyze_body. rewrite Hm.
  destruct (_ || _); [intros [= <-]; apply zero_in_range |].
  destruct (_analyze_simple doc sources) as [r0 | e] eqn:Hs; simpl.
  - intros [= <-]. exact (analyze_simple_score_range _ _ _ Hs).
  - intros [= <-]. apply zero_in_range.
Qed.

Lemma min2_range x : Num.unit_range x -> Num.unit_range (Num.min2 x 1).
Proof.
  intros Hx. unfold Num.min2. destruct (Num.gtb x 1); [| exact Hx].
  split; discriminate.
Qed.

(** With a model whose cosine similarities are between 0 and 1, the score
    is between 0 and 1 on every path. *)
Lemma analyze_document_score_range self doc sources r :
  (forall m d es sims,
     model self = Some m -> cosine_similarity m d es = Return sims ->
     Forall Num.unit_range sims) ->
  analyze_document self doc sources = Return r ->
  Num.unit_range (plagiarism_score r).
Proof.
  intros Hmodel. unfold analyze_document.
  destruct (_ || _); [intros [= <-]; apply zero_in_range |].
  destruct (analyze_body self doc sources) as [r0 | e] eqn:Hb; simpl;
    intros [= <-]; [| apply zero_in_range].
  revert Hb. unfold analyze_body.
  destruct (model self) as [m |] eqn:Hm; [| apply analyze_simple_score_range].
  unfold _analyze_semantic.
  pose proof (analyze_simple_score_range doc sources r0) as Hsimple.
  destruct (sklearn_importable self); simpl; [| exact Hsimple].
  destruct (encode m doc) as [d |]; simpl; [| exact Hsimple].
  destruct (is_nil _); simpl; [intros [= <-]; apply zero_in_range |].
  destruct (encode_batch m _) as [es |]; simpl; [| exact Hsimple].
  destruct (cosine_similarity m d es) as [sims |] eqn:Hsims; simpl; [| exact Hsimple].
  destruct (Num.max_list sims) as [mx |] eqn:Hmx; simpl; [| exact Hsimple].
  intros [= <-]. simpl.
  pose proof (Hmodel m d es sims eq_refl Hsims) as Hrange.
  apply min2_range, aggregate_range.
  - exact (max_list_range _ _ Hmx Hrange).
  - apply mean_range; [| exact Hrange]. intros ->. discriminate.
Qed.

(** When the model is unavailable the service answers as the lexical
    strategy does. *)
Lemma unavailable_model_falls_back doc sources :
  analyze_document (semantic_service unavailable_model) doc sources
  = analyze_document lexical_service doc sources.
Proof. reflexivity. Qed.

(** C2 fails on the semantic strategy: with a model whose cosine
    similarity for the pair is -1/10, the score is -1/10, below 0.  The
    single-sided [min(plagiarism_score, 1.0)] leaves it there. *)
Lemma semantic_score_below_zero :
  exists r,
    analyze_document (semantic_service (fixed_model [- (1 # 10)]%Q))
      "quantum chromodynamics lecture" [SourceText "Recipes" "how to bake bread"]
    = Return r
    /\ (plagiarism_score r == - (1 # 10))%Q
    /\ (plagiarism_score r < 0)%Q
    /\ sources_checked r = 1%nat.
Proof.
  eexists. split; [vm_compute; reflexivity |]. simpl.
  split; [reflexivity |]. split; reflexivity.
Qed.

(* ===================================================================== *)
(** * The lexical strategy against the specification's words *)
(* ===================================================================== *)

Section Lexical.

Variable document : string.

#[local] Abbreviation doc_words :=
  (list_to_set (Py.split (Py.lower document)) : gset string).

Lemma size_words text :
  size (list_to_set (Py.split (Py.lower text)) : gset string)
  = length (distinct_words text).
Proof.
  unfold distinct_words.
  rewrite <- (size_list_to_set (C := gset string) _ (NoDup_remove_dups _)).
  f_equal. apply set_eq. intros w.
  rewrite !elem_of_list_to_set, elem_of_remove_dups. reflexivity.
Qed.

Lemma size_common text :
  size (doc_words ∩ list_to_set (Py.split (Py.lower text)) : gset string)
  = length (shared_words document text).
Proof.
  unfold shared_words, doc_words.
  rewrite <- (size_list_to_set (C := gset string)).
  - f_equal. apply set_eq. intros w.
    rewrite elem_of_intersection, !elem_of_list_to_set, list_elem_of_filter.
    unfold distinct_words. rewrite !elem_of_remove_dups. tauto.
  - apply NoDup_filter, NoDup_remove_dups.
Qed.

Lemma has_word_count : has_word document -> (0 < docWordCount document)%nat.
Proof.
  intros Hw. unfold docWordCount. rewrite <- size_words.
  destruct (Nat.eq_dec (size (list_to_set (Py.split (Py.lower document)) : gset string)) 0)
    as [Hz | Hnz]; [| lia].
  apply doc_word_count_zero in Hz. contradiction.
Qed.

(** One turn of the loop on a source with a textual content. *)
Lemma body_text st s :
  has_word document -> is_text s = true -> has_content s = true ->
  _analyze_simple_body doc_words (size doc_words) st s
  = Return ((st.1 ++ [overlap document (content_of s)])%list,
            dict_set st.2 (KStr (title_of s))
              (overlap document (content_of s),
               length (shared_words document (content_of s)))).
Proof.
  intros Hw Ht Hc. unfold _analyze_simple_body. fold (has_content s). rewrite Hc.
  simpl. unfold is_text in Ht. unfold has_content, get in Hc.
  unfold get, content_of, title_of, overlap.
  pose proof (has_word_count Hw) as Hpos.
  assert (size doc_words = docWordCount document) as Hsize by apply size_words.
  destruct (s !! "content") as [[] |]; try discriminate;
    destruct (s !! "title") as [[] |]; try discriminate; simpl;
    rewrite size_common, Hsize;
    destruct (Nat.ltb_spec 0 (docWordCount document)); (reflexivity || lia).
Qed.

Lemma loop_text sources st :
  has_word document -> Forall (fun s => is_text s = true) sources ->
  exists matches,
    foldM (_analyze_simple_body doc_words (size doc_words)) st sources
    = Return ((st.1 ++ overlaps document sources)%list, matches).
Proof.
  intros Hw. revert st. induction sources as [| s sources IH]; intros st Ht.
  - simpl. exists st.2. unfold overlaps. simpl. rewrite app_nil_r.
    destruct st; reflexivity.
  - inversion Ht as [| ? ? Hs Ht']; subst. unfold overlaps, with_content.
    rewrite filter_cons. fold (with_content sources).
    destruct (decide (has_content s = true)) as [Hc | Hc].
    + simpl. rewrite (body_text st s Hw Hs Hc). simpl.
      match goal with
      | |- context [foldM _ ?st1 sources] => destruct (IH st1 Ht') as [matches Hm]
      end.
      exists matches.
      rewrite Hm. simpl. unfold overlaps. rewrite <- app_assoc. reflexivity.
    + apply not_true_is_false in Hc. simpl. rewrite (body_skips _ _ _ _ Hc). simpl.
      exact (IH st Ht').
Qed.

Lemma simple_loop_text sources :
  has_word document -> Forall (fun s => is_text s = true) sources ->
  exists matches,
    simple_loop document sources = Return (overlaps document sources, matches).
Proof.
  intros Hw Ht. destruct (loop_text sources ([], []) Hw Ht) as [matches Hm].
  exists matches. exact Hm.
Qed.

End Lexical.

Section Aggregation.
Local Open Scope Q_scope.

Lemma max_from_is_maximum m l : is_maximum (Num.max_from m l) (m :: l).
Proof.
  revert m. induction l as [| x l IH]; intros m; simpl.
  - split; [exists m; split; [left | reflexivity] |].
    intros y Hy. apply list_elem_of_singleton in Hy. subst. apply Qle_refl.
  - destruct (IH (if Num.gtb x m then x else m)) as [(y & Hy & Heq) Hub].
    assert (m <= (if Num.gtb x m then x else m)
            /\ x <= (if Num.gtb x m then x else m)) as [Hm Hx].
    { destruct (Num.gtb x m) eqn:E.
      - apply gtb_true in E. split; [apply Qlt_le_weak, E | apply Qle_refl].
      - apply gtb_false in E. split; [apply Qle_refl | exact E]. }
    assert ((if Num.gtb x m then x else m) <= Num.max_from (if Num.gtb x m then x else m) l)
      as Htop by (apply Hub; left).
    split.
    + exists y. split; [| exact Heq].
      apply elem_of_cons in Hy as [-> | Hy].
      * destruct (Num.gtb x m); [right; left | left].
      * right; right; exact Hy.
    + intros z Hz. apply elem_of_cons in Hz as [-> | Hz].
      * eapply Qle_trans; eauto.
      * apply elem_of_cons in Hz as [-> | Hz].
        -- eapply Qle_trans; eauto.
        -- apply Hub. right. exact Hz.
Qed.

Lemma max_list_is_maximum l mx : Num.max_list l = Return mx -> is_maximum mx l.
Proof.
  destruct l as [| x l]; simpl; [discriminate |].
  intros [= <-]. apply max_from_is_maximum.
Qed.

Lemma fold_left_plus l a : fold_left Qplus l a == a + fold_right Qplus 0 l.
Proof.
  revert a. induction l as [| x l IH]; intros a; simpl.
  - ring.
  - rewrite IH. ring.
Qed.

Lemma sum_list_mean l :
  Num.sum_list l / inject_Z (Z.of_nat (length l)) == mean l.
Proof.
  unfold Num.sum_list, mean. rewrite fold_left_plus. apply Qdiv_comp; [ring | reflexivity].
Qed.

(** The comparison of a ratio of integers with a threshold, on integers. *)
Lemma gtb_div_nat k n (a : Z) (b : positive) :
  (0 < n)%nat ->
  Num.gtb (Num.div_nat k n) (a # b) = true
  <-> (a * Z.of_nat n < Z.pos b * Z.of_nat k)%Z.
Proof.
  intros Hn. rewrite gtb_true. unfold Num.div_nat.
  assert (0 < inject_Z (Z.of_nat n)) as Hpos.
  { change 0 with (inject_Z 0). rewrite <- Zlt_Qlt. lia. }
  assert ((a # b) * inject_Z (Z.of_nat n) < inject_Z (Z.of_nat k)
          <-> (a * Z.of_nat n < Z.pos b * Z.of_nat k)%Z) as <-.
  { unfold Qlt, Qmult, inject_Z. simpl. split; intros H; lia. }
  split.
  - intros H. apply (Qmult_lt_r _ _ _ Hpos) in H.
    assert (inject_Z (Z.of_nat k) / inject_Z (Z.of_nat n) * inject_Z (Z.of_nat n)
            == inject_Z (Z.of_nat k)) as E.
    { field. intros E. rewrite E in Hpos. discriminate. }
    rewrite E in H. exact H.
  - intros H. apply Qlt_shift_div_l; assumption.
Qed.

Lemma count_above_overlaps (num den : nat) document sources :
  has_word document -> (0 < den)%nat ->
  Num.count_above (Z.of_nat num # Pos.of_nat den) (overlaps document sources)
  = count_overlap_above num den document sources.
Proof.
  intros Hw Hden. pose proof (has_word_count document Hw) as Hpos.
  unfold Num.count_above, count_overlap_above, overlaps.
  induction (with_content sources) as [| s l IH]; [reflexivity |].
  cbn [map]. rewrite !filter_cons.
  assert (Num.gtb (overlap document (content_of s)) (Z.of_nat num # Pos.of_nat den) = true
          <-> (num * docWordCount document
               < den * length (shared_words document (content_of s)))%nat) as Hiff.
  { unfold overlap. rewrite (gtb_div_nat _ _ _ _ Hpos).
    rewrite <- (positive_nat_Z (Pos.of_nat den)), Nat2Pos.id by lia. lia. }
  destruct (decide (Num.gtb _ _ = true)) as [Hg | Hg];
    destruct (decide (_ < _)%nat) as [Hl | Hl]; simpl; try rewrite IH; try reflexivity;
    tauto.
Qed.

End Aggregation.

(** The lexical strategy through the public entry point. *)
Lemma analyze_document_lexical self document sources :
  model self = None -> has_word document -> sources <> [] ->
  analyze_document self document sources
  = try_except (_analyze_simple document sources)
      (fun e => Return (zero_result (exn_msg e) (length sources))).
Proof.
  intros Hm Hw Hs. unfold analyze_document, analyze_body. rewrite Hm.
  rewrite (bool_decide_false _ (has_word_nonempty _ Hw)).
  destruct sources; [congruence | reflexivity].
Qed.

(** On textual sources the lexical strategy answers, and its fields are
    those computed from the specification's per-source overlaps. *)
Lemma analyze_simple_text document sources :
  has_word document -> Forall (fun s => is_text s = true) sources ->
  with_content sources <> [] ->
  exists matches r mx,
    simple_loop document sources = Return (overlaps document sources, matches)
    /\ _analyze_simple document sources = Return r
    /\ Num.max_list (overlaps document sources) = Return mx
    /\ plagiarism_score r
       = ((mx + Num.sum_list (overlaps document sources)
                / inject_Z (Z.of_nat (length (overlaps document sources)))) / 2)%Q
    /\ flagged_sections r = Num.count_above (3 # 10) (overlaps document sources)
    /\ total_matches r = Num.count_above (15 # 100) (overlaps document sources).
Proof.
  intros Hw Ht Hc.
  destruct (simple_loop_text document sources Hw Ht) as [matches Hloop].
  destruct (analyze_simple_returns _ _ _ Hloop) as [r Hr].
  destruct (analyze_simple_scored _ _ _ Hr Hw Hc)
    as (st & mx & Hloop' & _ & Hmx & Hscore & Hflag & Htot & _).
  rewrite Hloop in Hloop'. injection Hloop' as <-. simpl in *.
  exists matches, r, mx. tauto.
Qed.

(** C4: in the lexical strategy the similarity of a source is the number of
    distinct lower-cased words it shares with the document over the number
    of distinct lower-cased words of the document, and the score is the
    average of the greatest and of the mean of these similarities; "the cat
    sat" against "the cat sat on the mat" gives similarity 1, score 1, one
    flagged section and one match. *)
Theorem lexical_score_is_word_overlap :
  (forall self document sources,
     model self = None -> has_word document ->
     Forall (fun s => is_text s = true) sources -> with_content sources <> [] ->
     exists matches r mx,
       simple_loop document sources = Return (overlaps document sources, matches)
       /\ analyze_document self document sources = Return r
       /\ is_maximum mx (overlaps document sources)
       /\ (plagiarism_score r == (mx + mean (overlaps document sources)) / 2)%Q)
  /\ (docWordCount "the cat sat" = 3
      /\ shared_words "the cat sat" "the cat sat on the mat" = ["the"; "cat"; "sat"]
      /\ (overlap "the cat sat" "the cat sat on the mat" == 1)%Q
      /\ exists r,
           analyze_document lexical_service "the cat sat"
             [SourceText "Source" "the cat sat on the mat"] = Return r
           /\ (plagiarism_score r == 1)%Q
           /\ flagged_sections r = 1
           /\ total_matches r = 1).
Proof.
  split.
  - intros self document sources Hm Hw Ht Hc.
    destruct (analyze_simple_text document sources Hw Ht Hc)
      as (matches & r & mx & Hloop & Hr & Hmx & Hscore & _).
    exists matches, r, mx. split; [exact Hloop |]. split.
    + rewrite (analyze_document_lexical self _ _ Hm Hw (with_content_nonempty _ Hc)).
      rewrite Hr. reflexivity.
    + split; [exact (max_list_is_maximum _ _ Hmx) |].
      rewrite Hscore, sum_list_mean. reflexivity.
  - split; [vm_compute; reflexivity |]. split; [vm_compute; reflexivity |].
    split; [vm_compute; reflexivity |].
    eexists. split; [vm_compute; reflexivity |]. simpl.
    split; [reflexivity |]. split; reflexivity.
Qed.

(** C4: the general part of the theorem on three sources, one of them
    without content. *)
Lemma lexical_score_is_word_overlap_witness :
  let sources := [SourceText "A" "the cat sat on the mat"; SourceText "B" "";
                  SourceText "C" "a dog sat"] in
  model lexical_service = None
  /\ has_word "the cat sat"
  /\ Forall (fun s => is_text s = true) sources
  /\ with_content sources <> []
  /\ exists matches r mx,
       simple_loop "the cat sat" sources = Return (overlaps "the cat sat" sources, matches)
       /\ analyze_document lexical_service "the cat sat" sources = Return r
       /\ is_maximum mx (overlaps "the cat sat" sources)
       /\ (plagiarism_score r == (mx + mean (overlaps "the cat sat" sources)) / 2)%Q.
Proof.
  intros sources.
  assert (has_word "the cat sat") as Hw by (vm_compute; discriminate).
  assert (Forall (fun s => is_text s = true) sources) as Ht
    by (repeat constructor).
  assert (with_content sources <> []) as Hc by (vm_compute; discriminate).
  split; [reflexivity |]. split; [exact Hw |]. split; [exact Ht |].
  split; [exact Hc |].
  exact (proj1 lexical_score_is_word_overlap lexical_service "the cat sat" sources
           eq_refl Hw Ht Hc).
Defined.

(** C5: in the lexical strategy [flagged_sections] is the number of sources
    whose similarity is above 0.3 and [total_matches] the number of those
    above 0.15, both bounds excluded; a document of ten distinct words that
    shares three of them with its only source has similarity 0.3 and no
    flagged section. *)
Theorem lexical_flag_thresholds :
  (forall self document sources,
     model self = None -> has_word document -> sources <> [] ->
     Forall (fun s => is_text s = true) sources ->
     exists r,
       analyze_document self document sources = Return r
       /\ flagged_sections r = count_overlap_above 3 10 document sources
       /\ total_matches r = count_overlap_above 15 100 document sources)
  /\ (forall self document s,
        model self = None -> is_text s = true -> has_content s = true ->
        docWordCount document = 10 ->
        length (shared_words document (content_of s)) = 3 ->
        (overlap document (content_of s) == 3 # 10)%Q
        /\ exists r,
             analyze_document self document [s] = Return r
             /\ flagged_sections r = 0
             /\ total_matches r = 1).
Proof.
  assert (forall self document sources,
     model self = None -> has_word document -> sources <> [] ->
     Forall (fun s => is_text s = true) sources ->
     exists r,
       analyze_document self document sources = Return r
       /\ flagged_sections r = count_overlap_above 3 10 document sources
       /\ total_matches r = count_overlap_above 15 100 document sources) as General.
  { intros self document sources Hm Hw Hs Ht.
    rewrite (analyze_document_lexical self _ _ Hm Hw Hs).
    destruct (simple_loop_text document sources Hw Ht) as [matches Hloop].
    destruct (analyze_simple_returns _ _ _ Hloop) as [r Hr].
    exists r. rewrite Hr. split; [reflexivity |].
    destruct (decide (with_content sources = [])) as [Hc | Hc].
    - destruct (analyze_simple_degenerate _ _ _ Hr (or_intror Hc)) as [msg ->].
      unfold count_overlap_above. rewrite Hc. split; reflexivity.
    - destruct (analyze_simple_text document sources Hw Ht Hc)
        as (matches' & r' & mx & _ & Hr' & _ & _ & Hflag & Htot).
      rewrite Hr in Hr'. injection Hr' as <-.
      rewrite Hflag, Htot.
      rewrite <- (count_above_overlaps 3 10 document sources Hw) by lia.
      rewrite <- (count_above_overlaps 15 100 document sources Hw) by lia.
      split; reflexivity. }
  split; [exact General |].
  intros self document s Hm Ht Hc Hten Hthree.
  assert (has_word document) as Hw.
  { unfold has_word. intros E. unfold docWordCount, distinct_words in Hten.
    rewrite E in Hten. discriminate. }
  split.
  - unfold overlap. rewrite Hten, Hthree. reflexivity.
  - destruct (General self document [s] Hm Hw) as (r & Hr & Hflag & Htot);
      [discriminate | repeat constructor; exact Ht |].
    exists r. split; [exact Hr |].
    rewrite Hflag, Htot. unfold count_overlap_above, with_content.
    rewrite filter_cons. destruct (decide (has_content s = true)); [| tauto].
    rewrite !filter_cons, Hten, Hthree. simpl. split; reflexivity.
Qed.

(** C5: the boundary of the theorem on a document of ten words that shares
    three with its source, in another case and twice over. *)
Lemma lexical_flag_thresholds_witness :
  let document := "one two three four five six seven eight nine ten" in
  let s := SourceText "Counting" "One two; THREE one three TWO" in
  model lexical_service = None
  /\ is_text s = true
  /\ has_content s = true
  /\ docWordCount document = 10
  /\ length (shared_words document (content_of s)) = 3
  /\ (overlap document (content_of s) == 3 # 10)%Q
  /\ exists r,
       analyze_document lexical_service document [s] = Return r
       /\ flagged_sections r = 0
       /\ total_matches r = 1.
Proof.
  intros document s.
  assert (is_text s = true) as Ht by (vm_compute; reflexivity).
  assert (has_content s = true) as Hc by (vm_compute; reflexivity).
  assert (docWordCount document = 10) as Hten by (vm_compute; reflexivity).
  assert (length (shared_words document (content_of s)) = 3) as Hthree
    by (vm_compute; reflexivity).
  split; [reflexivity |]. split; [exact Ht |]. split; [exact Hc |].
  split; [exact Hten |]. split; [exact Hthree |].
  exact (proj2 lexical_flag_thresholds lexical_service document s
           eq_refl Ht Hc Hten Hthree).
Defined.

(* ===================================================================== *)
(** * Strings and lists *)
(* ===================================================================== *)

Section StringFacts.

#[local] Arguments String.append !_ _ / : simpl nomatch.

Lemma append_nil_r s : s +:+ "" = s.
Proof. induction s as [| c s IH]; simpl; [reflexivity | rewrite IH; reflexivity]. Qed.

Lemma append_assoc s1 s2 s3 : (s1 +:+ s2) +:+ s3 = s1 +:+ s2 +:+ s3.
Proof. induction s1 as [| c s1 IH]; simpl; [reflexivity | rewrite IH; reflexivity]. Qed.

(** The words [s.split()] returns are not empty. *)
Lemma split_from_words cur s : Forall (fun w => w <> "") (Py.split_from cur s).
Proof.
  revert cur. induction s as [| c s IH]; intros cur; simpl.
  - destruct (decide (cur = "")); repeat constructor; assumption.
  - destruct (Py.isspace c); [| apply IH].
    destruct (decide (cur = "")); [apply IH |].
    constructor; [assumption | apply IH].
Qed.

Lemma split_words s : Forall (fun w => w <> "") (Py.split s).
Proof. apply split_from_words. Qed.

(** Reading a word extends the current run. *)
Lemma split_from_word cur w rest :
  no_space w -> Py.split_from cur (w +:+ rest) = Py.split_from (cur +:+ w) rest.
Proof.
  revert cur. induction w as [| c w IH]; intros cur Hw; simpl.
  - rewrite append_nil_r. reflexivity.
  - destruct Hw as [Hc Hw]. rewrite Hc, (IH _ Hw), append_assoc. reflexivity.
Qed.

(** Splitting the words of a name joined by single spaces gives them back. *)
Lemma split_join_words ws : Forall word ws -> Py.split (Py.join " " ws) = ws.
Proof.
  unfold Py.split. induction ws as [| w ws IH]; intros Hws; [reflexivity |].
  inversion Hws as [| ? ? [Hne Hsp] Hws']; subst.
  destruct ws as [| w' ws].
  - simpl. rewrite <- (append_nil_r w) at 1. rewrite (split_from_word "" w "" Hsp).
    simpl. destruct (decide (w = "")); [contradiction | reflexivity].
  - change (Py.join " " (w :: w' :: ws)) with (w +:+ " " +:+ Py.join " " (w' :: ws)).
    rewrite (split_from_word "" w _ Hsp). simpl.
    destruct (decide (w = "")); [contradiction |].
    f_equal. exact (IH Hws').
Qed.

End StringFacts.

Lemma item_last_snoc {A} (l : list A) x : Py.item_last (l ++ [x]) = Return x.
Proof. unfold Py.item_last. rewrite rev_unit. reflexivity. Qed.

Lemma item_last_returns {A} (l : list A) :
  l <> [] -> exists x, Py.item_last l = Return x /\ last l = Some x.
Proof.
  destruct l as [| y l] using rev_ind; [congruence |]. intros _.
  exists y. rewrite item_last_snoc, last_snoc. tauto.
Qed.

Lemma but_last_snoc {A} (l : list A) x : Py.but_last (l ++ [x]) = l.
Proof. unfold Py.but_last. apply removelast_last. Qed.

Lemma item_lookup {A} (l : list A) i x : l !! i = Some x -> Py.item l i = Return x.
Proof. unfold Py.item. intros ->. reflexivity. Qed.

Lemma mapM_total {A B} (f : A -> outcome B) (g : A -> B) l :
  Forall (fun x => f x = Return (g x)) l -> mapM f l = Return (map g l).
Proof.
  induction 1 as [| x l Hx Hl IH]; simpl; [reflexivity |].
  rewrite Hx, IH. reflexivity.
Qed.

Lemma initials_total parts :
  Forall (fun w => w <> "") parts -> initials parts = Return (map initial parts).
Proof.
  intros H. unfold initials. apply mapM_total.
  eapply Forall_impl; [exact H |]. intros [| c w] Hw; [congruence | reflexivity].
Qed.

Lemma split_on_item sep s : exists x, Py.item (Py.split_on sep s) 0 = Return x.
Proof.
  destruct s as [| c s]; simpl; [eauto |].
  destruct (decide (c = sep)); [eauto |].
  destruct (Py.split_on sep s); eauto.
Qed.

Lemma Forall_but_last {A} (P : A -> Prop) l : Forall P l -> Forall P (Py.but_last l).
Proof.
  destruct l as [| x l] using rev_ind; [tauto |].
  rewrite but_last_snoc, Forall_app. tauto.
Qed.

Lemma item_returns {A} (l : list A) i :
  i < length l -> exists x, Py.item l i = Return x.
Proof.
  intros H. apply lookup_lt_is_Some in H as [x Hx]. exists x.
  exact (item_lookup _ _ _ Hx).
Qed.

Lemma mapM_returns {A B} (f : A -> outcome B) l :
  (forall x, exists y, f x = Return y) ->
  exists ys, mapM f l = Return ys /\ length ys = length l.
Proof.
  intros Hf. induction l as [| x l (ys & Hys & Hlen)]; simpl; [eauto |].
  destruct (Hf x) as [y ->]. rewrite Hys. simpl. exists (y :: ys). simpl. auto.
Qed.

(* ===================================================================== *)
(** * The author formatters never raise *)
(* ===================================================================== *)

Lemma apa_author_returns author : exists r, Citation.apa_author author = Return r.
Proof.
  unfold Citation.apa_author.
  destruct (Nat.leb_spec 2 (length (Py.split author))) as [Hlen | _]; [| eauto].
  destruct (item_last_returns (Py.split author)) as (x & -> & _).
  { intros E. rewrite E in Hlen. simpl in Hlen. lia. }
  simpl. rewrite initials_total by apply Forall_but_last, split_words.
  simpl. eauto.
Qed.

Lemma mla_first_returns author : exists r, Citation.mla_first author = Return r.
Proof.
  unfold Citation.mla_first.
  destruct (Nat.leb_spec 2 (length (Py.split author))) as [Hlen | _]; [| eauto].
  destruct (item_last_returns (Py.split author)) as (x & -> & _); [| simpl; eauto].
  intros E. rewrite E in Hlen. simpl in Hlen. lia.
Qed.

Lemma format_authors_apa_returns authors :
  exists r, Citation._format_authors_apa authors = Return r.
Proof.
  unfold Citation._format_authors_apa.
  destruct (bool_decide (authors = [])) eqn:Hnil; [eauto |].
  apply bool_decide_eq_false in Hnil.
  destruct (mapM_returns Citation.apa_author (take 20 authors) apa_author_returns)
    as (formatted & -> & Hlen).
  rewrite length_take in Hlen. simpl.
  destruct (Nat.eqb_spec (length authors) 1) as [H1 | H1].
  { apply item_returns. lia. }
  destruct (Nat.eqb_spec (length authors) 2) as [H2 | H2].
  { destruct (item_returns formatted 0) as [a ->]; [lia |].
    destruct (item_returns formatted 1) as [b ->]; [lia |]. simpl. eauto. }
  destruct (item_last_returns formatted) as (z & -> & _); [| simpl; eauto].
  intros E. rewrite E in Hlen. simpl in Hlen.
  destruct authors; [congruence | simpl in Hlen; lia].
Qed.

Lemma format_authors_mla_returns authors :
  exists r, Citation._format_authors_mla authors = Return r.
Proof.
  unfold Citation._format_authors_mla.
  destruct (bool_decide (authors = [])) eqn:Hnil; [eauto |].
  apply bool_decide_eq_false in Hnil.
  destruct authors as [| a0 l]; [congruence |].
  destruct (mla_first_returns a0) as [r Hr].
  destruct l as [| a1 [| a2 l]]; simpl; rewrite Hr; simpl; eauto.
Qed.

Lemma startswith_append t rest : Py.startswith t (t +:+ rest) = true.
Proof.
  induction t as [| c t IH]; simpl; [reflexivity |].
  rewrite bool_decide_true by reflexivity. exact IH.
Qed.

Lemma is_in_occurs t s : occurs_in t s -> Py.is_in t s = true.
Proof.
  intros (before & after & ->). induction before as [| c before IH]; simpl.
  - destruct (t +:+ after) eqn:E; simpl; rewrite <- E, startswith_append; reflexivity.
  - rewrite IH. apply orb_true_r.
Qed.

(* ===================================================================== *)
(** * The citation generators of the service never raise *)
(* ===================================================================== *)

Section ServiceTotal.
Import ServiceCitation.

Lemma service_apa_returns m : exists r, _generate_apa m = Return r.
Proof.
  unfold _generate_apa. destruct (get_authors m) as [authors |]; [| simpl; eauto].
  destruct (format_authors_apa_returns authors) as [author_str Ha].
  unfold _format_authors_apa. rewrite Ha. simpl.
  destruct (split_on_item "," author_str) as [who ->]. simpl. eauto.
Qed.

Lemma service_mla_returns m : exists r, _generate_mla m = Return r.
Proof.
  unfold _generate_mla.
  assert (exists author_str,
            match get_authors m with
            | Some authors => _format_authors_mla authors
            | None => Return "Unknown"
            end = Return author_str) as [author_str ->].
  { destruct (get_authors m) as [authors |]; [| eauto].
    apply format_authors_mla_returns. }
  simpl. destruct (Py.is_in "," author_str); [| simpl; eauto].
  destruct (split_on_item "," author_str) as [who ->]. simpl. eauto.
Qed.

Lemma service_chicago_returns m : exists r, _generate_chicago m = Return r.
Proof.
  unfold _generate_chicago.
  destruct (split_on_item "," (joined_authors m)) as [who ->]. simpl. eauto.
Qed.

Lemma service_harvard_returns m : exists r, _generate_harvard m = Return r.
Proof.
  unfold _generate_harvard.
  destruct (split_on_item "," (joined_authors m)) as [who ->]. simpl. eauto.
Qed.

Lemma service_ieee_returns m : exists r, _generate_ieee m = Return r.
Proof. unfold _generate_ieee. eauto. Qed.

Lemma service_generate_returns m style : exists r, generate_citation m style = Return r.
Proof.
  unfold generate_citation.
  repeat (destruct (bool_decide _));
    auto using service_apa_returns, service_mla_returns, service_chicago_returns,
      service_harvard_returns, service_ieee_returns.
Qed.

End ServiceTotal.

Lemma unsupported_style style :
  CitationStyle.supported style = false ->
  style <> CitationStyle.APA /\ style <> CitationStyle.MLA
  /\ style <> CitationStyle.CHICAGO /\ style <> CitationStyle.HARVARD
  /\ style <> CitationStyle.IEEE.
Proof.
  unfold CitationStyle.supported. intros H. apply bool_decide_eq_false in H.
  repeat split; intros ->; apply H; set_solver.
Qed.

(** C6, as stated, fails on [Citation.py]: a style outside the five raises
    [ValueError], while APA returns a citation. *)
Lemma root_generator_rejects_unknown_style :
  let m := Citation.article "T" ["Jane Doe"] (Some 2024%Z) (Some "J") in
  CitationStyle.supported "Vancouver" = false
  /\ Citation.generate_citation m "Vancouver"
     = Raise (Exn ValueError "Unsupported citation style: Vancouver")
  /\ Citation.generate_citation m CitationStyle.APA
     = Return {| full := "Doe, J. (2024). T. *J*."; in_text := "(Doe, 2024)" |}.
Proof. repeat split; vm_compute; reflexivity. Qed.

(** C6, amended: with a style outside the five supported ones, the
    generator of the service ([backend/app/services/citation.py]) returns
    what it returns for APA and does not raise; the generator of
    [Citation.py] raises [ValueError]. *)
Theorem unknown_style_resolution :
  (forall m style,
     CitationStyle.supported style = false ->
     ServiceCitation.generate_citation m style
     = ServiceCitation.generate_citation m CitationStyle.APA
     /\ exists r, ServiceCitation.generate_citation m style = Return r)
  /\ (forall m style,
        CitationStyle.supported style = false ->
        Citation.generate_citation m style
        = Raise (Exn ValueError ("Unsupported citation style: " +:+ style))).
Proof.
  split; intros m style Hs;
    destruct (unsupported_style style Hs) as (H1 & H2 & H3 & H4 & H5).
  - split; [| apply service_generate_returns].
    unfold ServiceCitation.generate_citation.
    rewrite !bool_decide_false by assumption.
    rewrite bool_decide_true by reflexivity. reflexivity.
  - unfold Citation.generate_citation.
    rewrite !bool_decide_false by assumption. reflexivity.
Qed.

(** C6: the theorem on the style "Vancouver". *)
Lemma unknown_style_resolution_witness :
  let m := ServiceCitation.request "T" ["Jane Doe"] (Some 2024%Z) (Some "J") in
  CitationStyle.supported "Vancouver" = false
  /\ ServiceCitation.generate_citation m "Vancouver"
     = ServiceCitation.generate_citation m CitationStyle.APA
  /\ exists r, ServiceCitation.generate_citation m "Vancouver" = Return r.
Proof.
  intros m. split; [vm_compute; reflexivity |].
  apply (proj1 unknown_style_resolution m "Vancouver"). vm_compute. reflexivity.
Defined.

(* ===================================================================== *)
(** * The year of an entry *)
(* ===================================================================== *)

Lemma fmt_year_absent absent dflt :
  absent = Absent \/ absent = Null ->
  ServiceCitation.fmt_year (ServiceCitation.year_field absent None) dflt = dflt.
Proof. intros [-> | ->]; reflexivity. Qed.

Lemma fmt_year_present absent y dflt :
  y <> 0%Z ->
  ServiceCitation.fmt_year (ServiceCitation.year_field absent (Some y)) dflt
  = Py.str_int y.
Proof. intros Hy. simpl. apply Z.eqb_neq in Hy. rewrite Hy. reflexivity. Qed.

Lemma year_or_present y dflt : y <> 0%Z -> year_or (Some y) dflt = Py.str_int y.
Proof. intros Hy. simpl. apply Z.eqb_neq in Hy. rewrite Hy. reflexivity. Qed.

Lemma if_year_present y f : y <> 0%Z -> if_year (Some y) f = f (Py.str_int y).
Proof. intros Hy. simpl. apply Z.eqb_neq in Hy. rewrite Hy. reflexivity. Qed.

(** The year slot of an entry: what stands before [tok] in the entry
    without a year stands before the year in the entry with a year;
    [Hpresent] rewrites the year of the latter to its digits. *)
Ltac year_slot tok Hpresent :=
  lazymatch goal with
  | |- context [full {| full := ?entry; in_text := _ |}] =>
      let before := before_of tok entry in
      cbn [full]; exists before; eexists; split;
      [ rewrite ?append_assoc; reflexivity
      | let y := fresh "y" in
        let Hy := fresh "Hy" in
        intros y Hy; rewrite ?(Hpresent y) by exact Hy;
        eexists; split; [reflexivity |];
        cbn [full]; rewrite ?append_assoc; reflexivity ]
  end.

Section ServiceYear.
Import ServiceCitation.

Variables (m : metadata) (absent : field Z).
Hypothesis absent_year : absent = Absent \/ absent = Null.

Lemma service_apa_year :
  year_rendered_as "n.d." (fun y => _generate_apa (with_year m (year_field absent y))).
Proof.
  intros r0. unfold _generate_apa. cbn [year title publication_name url with_year].
  change (get_authors (with_year m ?y)) with (get_authors m).
  rewrite (fmt_year_absent _ _ absent_year).
  run_binds; returned; destruct (get_authors m); try discriminate;
    year_slot constr:("n.d.") (fun y => fmt_year_present absent y "n.d.").
Qed.

Lemma service_mla_year :
  year_rendered_as "n.d." (fun y => _generate_mla (with_year m (year_field absent y))).
Proof.
  intros r0. unfold _generate_mla. cbn [year title publication_name url with_year].
  change (get_authors (with_year m ?y)) with (get_authors m).
  rewrite (fmt_year_absent _ _ absent_year).
  run_binds; returned; year_slot constr:("n.d.") (fun y => fmt_year_present absent y "n.d.").
Qed.

Lemma service_chicago_year :
  year_rendered_as "n.d."
    (fun y => _generate_chicago (with_year m (year_field absent y))).
Proof.
  intros r0. unfold _generate_chicago, joined_authors.
  cbn [year title publication_name url with_year].
  change (get_authors (with_year m ?y)) with (get_authors m).
  rewrite (fmt_year_absent _ _ absent_year).
  run_binds; returned; year_slot constr:("n.d.") (fun y => fmt_year_present absent y "n.d.").
Qed.

Lemma service_ieee_year :
  year_rendered_as "n.d." (fun y => _generate_ieee (with_year m (year_field absent y))).
Proof.
  intros r0. unfold _generate_ieee, joined_authors.
  cbn [year title publication_name url with_year].
  change (get_authors (with_year m ?y)) with (get_authors m).
  rewrite (fmt_year_absent _ _ absent_year).
  returned; year_slot constr:("n.d.") (fun y => fmt_year_present absent y "n.d.").
Qed.

(** The Harvard entry of the service has another token, ["n.d.d"], in the
    place of the year. *)
Lemma service_harvard_year :
  year_rendered_as "n.d.d"
    (fun y => _generate_harvard (with_year m (year_field absent y))).
Proof.
  intros r0. unfold _generate_harvard, joined_authors.
  cbn [year title publication_name url with_year].
  change (get_authors (with_year m ?y)) with (get_authors m).
  rewrite (fmt_year_absent absent "n.d.d" absent_year).
  run_binds; returned; year_slot constr:("n.d.d") (fun y => fmt_year_present absent y "n.d.d").
Qed.

End ServiceYear.

Section RootYear.
Import Citation.

Variable m : SourceMetadata.

Lemma root_apa_year :
  year_rendered_as "n.d." (fun y => _generate_apa (with_year m y)).
Proof.
  intros r0. unfold _generate_apa.
  cbn [title authors year publication_name volume issue pages url doi source_type
       with_year].
  change (year_or None "n.d.") with "n.d.".
  split_ifs; run_binds; returned;
    year_slot constr:("n.d.") (fun y => year_or_present y "n.d.").
Qed.

Lemma root_harvard_year :
  year_rendered_as "n.d." (fun y => _generate_harvard (with_year m y)).
Proof. exact root_apa_year. Qed.

Lemma root_mla_book_year :
  source_type m = "book" ->
  year_rendered_as "n.d." (fun y => _generate_mla (with_year m y)).
Proof.
  intros Hbook r0. unfold _generate_mla.
  cbn [title authors year publication_name volume issue pages url doi source_type
       with_year].
  change (year_or None "n.d.") with "n.d.".
  rewrite Hbook. rewrite (bool_decide_false ("book" = "article")) by discriminate.
  rewrite (bool_decide_true ("book" = "book")) by reflexivity.
  split_ifs; run_binds; returned;
    year_slot constr:("n.d.") (fun y => year_or_present y "n.d.").
Qed.

End RootYear.

(** The year and its separator [sep] are left out of the entry without a
    year. *)
Ltac year_gap sep :=
  lazymatch goal with
  | |- context [full {| full := ?entry; in_text := _ |}] =>
      let before := before_gap entry in
      cbn [full]; exists before, sep; eexists; split;
      [ rewrite ?append_assoc; reflexivity
      | let y := fresh "y" in
        let Hy := fresh "Hy" in
        intros y Hy; rewrite ?(if_year_present y) by exact Hy;
        eexists; split; [reflexivity |];
        cbn beta; cbn [full]; rewrite ?append_assoc; reflexivity ]
  end.

Section RootYearLeftOut.
Import Citation.

Variable m : SourceMetadata.

Lemma root_chicago_year : year_left_out (fun y => _generate_chicago (with_year m y)).
Proof.
  intros r0. unfold _generate_chicago.
  cbn [title authors year publication_name volume issue pages url doi source_type
       with_year].
  change (year_or None "n.d.") with "n.d.".
  split_ifs; run_binds; returned; year_gap constr:(". ").
Qed.

Lemma root_ieee_year : year_left_out (fun y => _generate_ieee (with_year m y)).
Proof.
  intros r0. unfold _generate_ieee.
  cbn [title authors year publication_name volume issue pages url doi source_type
       with_year].
  run_binds; returned; year_gap constr:(".").
Qed.

Lemma root_mla_article_year :
  source_type m = "article" ->
  year_left_out (fun y => _generate_mla (with_year m y)).
Proof.
  intros Htype r0. unfold _generate_mla.
  cbn [title authors year publication_name volume issue pages url doi source_type
       with_year].
  rewrite Htype. rewrite (bool_decide_true ("article" = "article")) by reflexivity.
  split_ifs; run_binds; returned; year_gap constr:(", ").
Qed.

Lemma root_mla_website_year :
  source_type m = "website" ->
  year_left_out (fun y => _generate_mla (with_year m y)).
Proof.
  intros Htype r0. unfold _generate_mla.
  cbn [title authors year publication_name volume issue pages url doi source_type
       with_year].
  rewrite Htype. rewrite (bool_decide_false ("website" = "article")) by discriminate.
  rewrite (bool_decide_false ("website" = "book")) by discriminate.
  rewrite (bool_decide_true ("website" = "website")) by reflexivity.
  split_ifs; run_binds; returned; year_gap constr:(", ").
Qed.

End RootYearLeftOut.

(** C7, as stated, fails: the Chicago entry of [Citation.py] for a work
    without a year has no ["n.d."] in it; the year is left out. *)
Lemma root_chicago_entry_has_no_nd :
  let m := Citation.article "T" ["Jane Doe"] None (Some "J") in
  Citation.generate_citation m CitationStyle.CHICAGO
  = Return {| full := "Doe, J.. " +:+ dquote +:+ "T." +:+ dquote +:+ " *J* .";
              in_text := "(Doe n.d.)" |}
  /\ ~ year_rendered_as "n.d."
         (fun y => Citation._generate_chicago (Citation.with_year m y)).
Proof.
  intros m. split; [vm_compute; reflexivity |].
  intros H.
  destruct (H {| full := "Doe, J.. " +:+ dquote +:+ "T." +:+ dquote +:+ " *J* .";
                 in_text := "(Doe n.d.)" |})
    as (before & after & Hfull & _); [vm_compute; reflexivity |].
  assert (Py.is_in "n.d." ("Doe, J.. " +:+ dquote +:+ "T." +:+ dquote +:+ " *J* .") = true)
    as Hin by (apply is_in_occurs; exists before, after; exact Hfull).
  vm_compute in Hin. discriminate.
Qed.

(** C7, amended: for a work without a year, the APA, MLA, Chicago and IEEE
    entries of the service, and the APA, Harvard and MLA-book entries of
    [Citation.py], have ["n.d."] where the year would be; the MLA article
    and website entries, the Chicago and the IEEE entries of [Citation.py]
    leave the year out with its separator. *)
Theorem absent_year_rendering :
  (forall m absent,
     absent = Absent \/ absent = Null ->
     year_rendered_as "n.d."
       (fun y => ServiceCitation._generate_apa
                   (ServiceCitation.with_year m (ServiceCitation.year_field absent y)))
     /\ year_rendered_as "n.d."
          (fun y => ServiceCitation._generate_mla
                      (ServiceCitation.with_year m (ServiceCitation.year_field absent y)))
     /\ year_rendered_as "n.d."
          (fun y => ServiceCitation._generate_chicago
                      (ServiceCitation.with_year m (ServiceCitation.year_field absent y)))
     /\ year_rendered_as "n.d."
          (fun y => ServiceCitation._generate_ieee
                      (ServiceCitation.with_year m (ServiceCitation.year_field absent y))))
  /\ (forall m,
        year_rendered_as "n.d." (fun y => Citation._generate_apa (Citation.with_year m y))
        /\ year_rendered_as "n.d."
             (fun y => Citation._generate_harvard (Citation.with_year m y))
        /\ (Citation.source_type m = "book" ->
            year_rendered_as "n.d."
              (fun y => Citation._generate_mla (Citation.with_year m y)))
        /\ (Citation.source_type m = "article" \/ Citation.source_type m = "website" ->
            year_left_out (fun y => Citation._generate_mla (Citation.with_year m y)))
        /\ year_left_out (fun y => Citation._generate_chicago (Citation.with_year m y))
        /\ year_left_out (fun y => Citation._generate_ieee (Citation.with_year m y))).
Proof.
  split.
  - intros m absent Habsent.
    auto using service_apa_year, service_mla_year, service_chicago_year,
      service_ieee_year.
  - intros m. repeat split.
    + apply root_apa_year.
    + apply root_harvard_year.
    + apply root_mla_book_year.
    + intros [H | H]; [apply root_mla_article_year | apply root_mla_website_year];
        exact H.
    + apply root_chicago_year.
    + apply root_ieee_year.
Qed.

(** C7: the theorem on the APA entry of the service for a request
    without a year. *)
Lemma absent_year_rendering_witness :
  let m := ServiceCitation.request "T" ["Jane Doe"] None (Some "J") in
  (@Null Z = Absent \/ @Null Z = Null)
  /\ exists r0,
       ServiceCitation._generate_apa
         (ServiceCitation.with_year m (ServiceCitation.year_field Null None))
       = Return r0
       /\ exists before after,
            full r0 = before +:+ "n.d." +:+ after
            /\ forall y, y <> 0%Z ->
                 exists r,
                   ServiceCitation._generate_apa
                     (ServiceCitation.with_year m
                        (ServiceCitation.year_field Null (Some y)))
                   = Return r
                   /\ full r = before +:+ Py.str_int y +:+ after.
Proof.
  intros m. split; [right; reflexivity |].
  destruct (proj1 absent_year_rendering m Null (or_intror eq_refl)) as [Hapa _].
  eexists. split; [vm_compute; reflexivity |].
  apply Hapa. vm_compute. reflexivity.
Defined.

(** C8, as stated, fails on the service: its APA in-text citation has no
    comma between the surname and the year. *)
Lemma service_apa_in_text_has_no_comma :
  exists r,
    ServiceCitation.generate_citation
      (ServiceCitation.request "T" ["Jane Doe"] (Some 2024%Z) (Some "J"))
      CitationStyle.APA = Return r
    /\ in_text r = "(Doe 2024)"
    /\ in_text r <> "(Doe, 2024)".
Proof.
  eexists. split; [vm_compute; reflexivity |]. split; [reflexivity | discriminate].
Qed.

(** C8, amended: for the article "T" of Jane Doe, 2024, in "J", the APA
    entry of both generators begins with "Doe, J. (2024). T. "; the in-text
    citation is "(Doe, 2024)" in [Citation.py] and "(Doe 2024)" in the
    service. *)
Theorem apa_jane_doe :
  (forall m,
     Citation.title m = "T" -> Citation.authors m = ["Jane Doe"] ->
     Citation.year m = Some 2024%Z -> Citation.publication_name m = Some "J" ->
     Citation.source_type m = "article" ->
     exists r,
       Citation.generate_citation m CitationStyle.APA = Return r
       /\ in_text r = "(Doe, 2024)"
       /\ starts_with "Doe, J. (2024). T. " (full r))
  /\ (forall m,
        ServiceCitation.title m = Val "T" ->
        ServiceCitation.authors m = Val ["Jane Doe"] ->
        ServiceCitation.year m = Val 2024%Z ->
        ServiceCitation.publication_name m = Val "J" ->
        exists r,
          ServiceCitation.generate_citation m CitationStyle.APA = Return r
          /\ in_text r = "(Doe 2024)"
          /\ starts_with "Doe, J. (2024). T. " (full r)).
Proof.
  split.
  - intros [] Ht Ha Hy Hp Hs. simpl in *. subst.
    eexists. split; [vm_compute; reflexivity |].
    split; [reflexivity |]. eexists. reflexivity.
  - intros [] Ht Ha Hy Hp. simpl in *. subst.
    eexists. split; [vm_compute; reflexivity |].
    split; [reflexivity |]. eexists. reflexivity.
Qed.

(** C8: the theorem on the article of [Citation.py] with no other field. *)
Lemma apa_jane_doe_witness :
  let m := Citation.article "T" ["Jane Doe"] (Some 2024%Z) (Some "J") in
  Citation.title m = "T"
  /\ Citation.authors m = ["Jane Doe"]
  /\ Citation.year m = Some 2024%Z
  /\ Citation.publication_name m = Some "J"
  /\ Citation.source_type m = "article"
  /\ exists r,
       Citation.generate_citation m CitationStyle.APA = Return r
       /\ in_text r = "(Doe, 2024)"
       /\ starts_with "Doe, J. (2024). T. " (full r).
Proof.
  intros m. repeat (split; [reflexivity |]).
  apply (proj1 apa_jane_doe m); reflexivity.
Defined.

(* ===================================================================== *)
(** * The authors of an IEEE entry *)
(* ===================================================================== *)

Lemma ieee_author_shape author :
  Py.split author <> [] ->
  Citation.ieee_author author = Return (ieee_name (Py.split author)).
Proof.
  intros Hne. unfold Citation.ieee_author, surname, ieee_name.
  pose proof (split_words author) as Hwords.
  destruct (Py.split author) as [| w ws] using rev_ind; [congruence |].
  rewrite but_last_snoc, item_last_snoc, removelast_last, last_last.
  apply Forall_app in Hwords as [Hgiven _].
  rewrite (initials_total _ Hgiven). reflexivity.
Qed.

Lemma ieee_authors_shape authors :
  Forall (fun a => Py.split a <> []) authors ->
  Citation.ieee_authors authors = Return (ieee_author_string authors).
Proof.
  intros Hall. unfold Citation.ieee_authors, ieee_author_string.
  rewrite (mapM_total Citation.ieee_author (fun a => ieee_name (Py.split a))).
  - reflexivity.
  - apply Forall_take. eapply Forall_impl; [exact Hall |].
    intros a Ha. exact (ieee_author_shape a Ha).
Qed.

(** C9, as stated, fails on the service: its IEEE entry joins the names
    as they are, all seven of them, where [Citation.py] abbreviates six and
    adds ", et al.". *)
Lemma service_ieee_keeps_names :
  let authors := ["Ann Lee"; "Bob Ray"; "Cy Orr"; "Di Fox"; "Ed Kim"; "Flo Day"; "Gus Poe"] in
  Citation.ieee_authors authors
  = Return "A. Lee, B. Ray, C. Orr, D. Fox, E. Kim, F. Day, et al."
  /\ ServiceCitation.generate_citation
       (ServiceCitation.request "T" authors (Some 2024%Z) (Some "J")) CitationStyle.IEEE
     = Return {| full := "[1] Ann Lee, Bob Ray, Cy Orr, Di Fox, Ed Kim, Flo Day, Gus Poe, "
                           +:+ dquote +:+ "T," +:+ dquote +:+ " J, 2024.";
                 in_text := "[1]" |}.
Proof. split; vm_compute; reflexivity. Qed.

(** C9, amended: in [Citation.py] the IEEE author string is made of the
    first six authors, each given by the initials of all its words but the
    last and by its last word whole, joined with commas, and ", et al." is
    added exactly when there are more than six; so "First Last" gives
    "F. Last" and "First Middle Last" gives "F. M. Last".  In the service
    the IEEE entry carries the names as they are, joined with commas, with
    no limit. *)
Theorem ieee_author_formatting :
  (forall m,
     Citation.authors m <> [] ->
     Forall (fun a => Py.split a <> []) (Citation.authors m) ->
     Citation.ieee_authors (Citation.authors m)
     = Return (ieee_author_string (Citation.authors m))
     /\ exists r,
          Citation.generate_citation m CitationStyle.IEEE = Return r
          /\ starts_with (ieee_author_string (Citation.authors m) +:+ ", ") (full r))
  /\ (forall first middle last,
        word first -> word middle -> word last ->
        Citation.ieee_author (first +:+ " " +:+ last)
        = Return (initial first +:+ " " +:+ last)
        /\ Citation.ieee_author (first +:+ " " +:+ middle +:+ " " +:+ last)
           = Return (initial first +:+ " " +:+ initial middle +:+ " " +:+ last))
  /\ (forall m authors,
        ServiceCitation.authors m = Val authors -> authors <> [] ->
        exists r,
          ServiceCitation.generate_citation m CitationStyle.IEEE = Return r
          /\ starts_with ("[1] " +:+ Py.join ", " authors +:+ ", ") (full r)).
Proof.
  split; [| split].
  - intros m Hne Hall. pose proof (ieee_authors_shape _ Hall) as Hshape.
    split; [exact Hshape |].
    change (Citation.generate_citation m CitationStyle.IEEE)
      with (Citation._generate_ieee m).
    unfold Citation._generate_ieee. rewrite Hshape. cbn [bind].
    eexists. split; [reflexivity |]. cbn [full]. eexists.
    rewrite append_assoc. reflexivity.
  - intros first middle last Hf Hm Hl.
    assert (Forall word [first; last]) as H2 by auto using Forall_cons, Forall_nil.
    assert (Forall word [first; middle; last]) as H3
      by auto using Forall_cons, Forall_nil.
    split.
    + change (first +:+ " " +:+ last) with (Py.join " " [first; last]).
      rewrite ieee_author_shape; rewrite (split_join_words _ H2);
        [reflexivity | discriminate].
    + change (first +:+ " " +:+ middle +:+ " " +:+ last)
        with (Py.join " " [first; middle; last]).
      rewrite ieee_author_shape; rewrite (split_join_words _ H3);
        [reflexivity | discriminate].
  - intros m authors Ha Hne.
    change (ServiceCitation.generate_citation m CitationStyle.IEEE)
      with (ServiceCitation._generate_ieee m).
    unfold ServiceCitation._generate_ieee, ServiceCitation.joined_authors,
      ServiceCitation.get_authors.
    rewrite Ha. destruct authors as [| a l]; [congruence |].
    eexists. split; [reflexivity |]. cbn [full]. eexists.
    rewrite !append_assoc. reflexivity.
Qed.

(** C9: the theorem on three authors with four words, two words and one
    word. *)
Lemma ieee_author_formatting_witness :
  let m := Citation.article "T"
             ["John Ronald Reuel Tolkien"; "Jane Doe"; "Plato"] (Some 1954%Z) (Some "J") in
  Citation.authors m <> []
  /\ Forall (fun a => Py.split a <> []) (Citation.authors m)
  /\ Citation.ieee_authors (Citation.authors m)
     = Return "J. R. R. Tolkien, J. Doe, Plato"
  /\ exists r,
       Citation.generate_citation m CitationStyle.IEEE = Return r
       /\ starts_with (ieee_author_string (Citation.authors m) +:+ ", ") (full r).
Proof.
  intros m.
  assert (Citation.authors m <> []) as Hne by discriminate.
  assert (Forall (fun a => Py.split a <> []) (Citation.authors m)) as Hall
    by (repeat constructor; vm_compute; discriminate).
  split; [exact Hne |]. split; [exact Hall |].
  destruct (proj1 ieee_author_formatting m Hne Hall) as [Hshape Hfull].
  split; [vm_compute; reflexivity | exact Hfull].
Defined.

(* ===================================================================== *)
(** * Entries of works without authors *)
(* ===================================================================== *)

Section ServiceNoAuthors.
Import ServiceCitation.

Variable m : metadata.
Hypothesis no_authors : get_authors m = None.

Lemma service_apa_unknown :
  exists r, _generate_apa m = Return r /\ starts_with "Unknown" (full r).
Proof.
  unfold _generate_apa. rewrite no_authors. cbn [bind].
  eexists. split; [reflexivity |]. eexists. reflexivity.
Qed.

Lemma service_mla_unknown :
  exists r, _generate_mla m = Return r /\ starts_with "Unknown" (full r).
Proof.
  unfold _generate_mla. rewrite no_authors. cbn [bind].
  change (Py.is_in "," "Unknown") with false. cbn [bind].
  eexists. split; [reflexivity |]. eexists. reflexivity.
Qed.

Lemma joined_authors_unknown : joined_authors m = "Unknown".
Proof. unfold joined_authors. rewrite no_authors. reflexivity. Qed.

Lemma service_chicago_unknown :
  exists r, _generate_chicago m = Return r /\ starts_with "Unknown" (full r).
Proof.
  unfold _generate_chicago. rewrite joined_authors_unknown.
  change (Py.item (Py.split_on "," "Unknown") 0) with (Return "Unknown").
  cbn [bind]. eexists. split; [reflexivity |]. eexists. reflexivity.
Qed.

Lemma service_harvard_unknown :
  exists r, _generate_harvard m = Return r /\ starts_with "Unknown" (full r).
Proof.
  unfold _generate_harvard. rewrite joined_authors_unknown.
  change (Py.item (Py.split_on "," "Unknown") 0) with (Return "Unknown").
  cbn [bind]. eexists. split; [reflexivity |]. eexists. reflexivity.
Qed.

Lemma service_ieee_unknown :
  exists r, _generate_ieee m = Return r /\ starts_with "[1] Unknown" (full r).
Proof.
  unfold _generate_ieee. rewrite joined_authors_unknown.
  eexists. split; [reflexivity |]. eexists. cbn [full].
  rewrite <- append_assoc. reflexivity.
Qed.

End ServiceNoAuthors.

Section RootNoAuthors.
Import Citation.

Variable m : SourceMetadata.
Hypothesis no_authors : authors m = [].

Lemma root_mla_no_authors :
  exists r, _generate_mla m = Return r
            /\ starts_with (dquote +:+ title m +:+ "." +:+ dquote) (full r)
            /\ in_text r = "(" +:+ dquote +:+ Py.str_take 20 (title m) +:+ "..." +:+ dquote +:+ ")".
Proof.
  unfold _generate_mla. rewrite no_authors.
  change (_format_authors_mla []) with (Return (A := string) "").
  cbn [bind]. rewrite (bool_decide_true ([] = [])) by reflexivity.
  rewrite (bool_decide_true ("" = "")) by reflexivity. cbn [negb bind].
  eexists. split; [reflexivity |]. cbn [full in_text]. split; [| reflexivity].
  split_ifs; eexists; change ("" +:+ ?x) with x; rewrite ?append_assoc; reflexivity.
Qed.

Lemma root_chicago_no_authors :
  exists r, _generate_chicago m = Return r /\ starts_with ". " (full r).
Proof.
  unfold _generate_chicago. rewrite no_authors.
  change (_format_authors_apa []) with (Return (A := string) "").
  cbn [bind]. rewrite (bool_decide_true ([] = [])) by reflexivity. cbn [negb bind].
  eexists. split; [reflexivity |]. eexists. reflexivity.
Qed.

Lemma root_ieee_no_authors :
  exists r, _generate_ieee m = Return r /\ starts_with ", " (full r).
Proof.
  unfold _generate_ieee. rewrite no_authors.
  change (ieee_authors []) with (Return (A := string) "").
  cbn [bind]. eexists. split; [reflexivity |]. eexists. reflexivity.
Qed.

(** The APA entry (and so the Harvard entry) of [Citation.py] is not
    produced: [m.authors[0]] raises [IndexError]. *)
Lemma root_apa_no_authors :
  _generate_apa m = Raise Py.index_error /\ _generate_harvard m = Raise Py.index_error.
Proof.
  unfold _generate_harvard, _generate_apa. rewrite no_authors. split; reflexivity.
Qed.

End RootNoAuthors.

(** C10, as stated, fails on [Citation.py]: without authors its IEEE entry
    begins with the comma that follows the missing names, and "Unknown"
    occurs nowhere in it. *)
Lemma root_ieee_entry_without_authors :
  exists r,
    Citation.generate_citation (Citation.article "T" [] (Some 2024%Z) (Some "J"))
      CitationStyle.IEEE = Return r
    /\ full r = ", " +:+ dquote +:+ "T," +:+ dquote +:+ " *J*, 2024."
    /\ Py.is_in "Unknown" (full r) = false.
Proof. eexists. split; [vm_compute; reflexivity |]. split; reflexivity. Qed.

(** C10, amended: for a work without authors, the service returns, in
    every style, an entry whose author is "Unknown" (after the "[1] " of
    IEEE); [Citation.py] returns an MLA entry that begins with the quoted
    title, a Chicago entry that begins with the period and an IEEE entry
    that begins with the comma that would follow the authors. *)
Theorem entries_without_authors :
  (forall m style,
     ServiceCitation.get_authors m = None ->
     exists r,
       ServiceCitation.generate_citation m style = Return r
       /\ (starts_with "Unknown" (full r) \/ starts_with "[1] Unknown" (full r)))
  /\ (forall m,
        Citation.authors m = [] ->
        (exists r, Citation.generate_citation m CitationStyle.MLA = Return r
                   /\ starts_with (dquote +:+ Citation.title m +:+ "." +:+ dquote) (full r))
        /\ (exists r, Citation.generate_citation m CitationStyle.CHICAGO = Return r
                      /\ starts_with ". " (full r))
        /\ (exists r, Citation.generate_citation m CitationStyle.IEEE = Return r
                      /\ starts_with ", " (full r))).
Proof.
  split.
  - intros m style Hm. unfold ServiceCitation.generate_citation.
    destruct (service_apa_unknown m Hm) as (r1 & H1 & P1).
    destruct (service_mla_unknown m Hm) as (r2 & H2 & P2).
    destruct (service_chicago_unknown m Hm) as (r3 & H3 & P3).
    destruct (service_harvard_unknown m Hm) as (r4 & H4 & P4).
    destruct (service_ieee_unknown m Hm) as (r5 & H5 & P5).
    repeat (destruct (bool_decide _)); eauto.
  - intros m Hm.
    destruct (root_mla_no_authors m Hm) as (r1 & H1 & P1 & _).
    destruct (root_chicago_no_authors m Hm) as (r2 & H2 & P2).
    destruct (root_ieee_no_authors m Hm) as (r3 & H3 & P3).
    repeat split; eauto.
Qed.

(** C10: the theorem on the Harvard entry of the service. *)
Lemma entries_without_authors_witness :
  let m := ServiceCitation.request "T" [] (Some 2024%Z) (Some "J") in
  ServiceCitation.get_authors m = None
  /\ exists r,
       ServiceCitation.generate_citation m CitationStyle.HARVARD = Return r
       /\ (starts_with "Unknown" (full r) \/ starts_with "[1] Unknown" (full r)).
Proof.
  intros m. split; [reflexivity |].
  exact (proj1 entries_without_authors m CitationStyle.HARVARD eq_refl).
Defined.

(* ===================================================================== *)
(** * The rational model against doubles *)
(* ===================================================================== *)

(** Up to 300 distinct words in the document, the comparisons of a
    similarity with [0.3] and [0.15] have the same outcome on doubles and on
    rationals; in particular 3/10 is not above the literal [0.3]. *)
Lemma thresholds_agree_on_doubles : Binary64.thresholds_agree 300 = true.
Proof. vm_compute. reflexivity. Qed.

Lemma three_tenths_on_doubles :
  Binary64.gtb (Binary64.div_nat 3 10) Binary64.lit_0_3 = false
  /\ PrimFloat.eqb (Binary64.div_nat 3 10) Binary64.lit_0_3 = true.
Proof. split; vm_compute; reflexivity. Qed.

(** "the cat sat" against "the cat sat on the mat" on doubles: similarity
    3/3 = 1.0 and score (1.0 + 1.0 / 1) / 2 = 1.0. *)
Lemma the_cat_sat_on_doubles :
  PrimFloat.eqb (Binary64.div_nat 3 3) Binary64.lit_1_0 = true
  /\ PrimFloat.eqb (Binary64.aggregate [Binary64.div_nat 3 3]) Binary64.lit_1_0 = true
  /\ Binary64.gtb (Binary64.div_nat 3 3) Binary64.lit_0_3 = true
  /\ Binary64.gtb (Binary64.div_nat 3 3) Binary64.lit_0_15 = true.
Proof. repeat split; vm_compute; reflexivity. Qed.

(* ===================================================================== *)
(** * More on the results of the similarity service *)
(* ===================================================================== *)

(** X1: [analyze_document] returns a result for every service, every
    document and every list of sources: ill-typed sources and failures of
    the model included, no exception leaves it. *)
Theorem analyze_document_never_raises self doc sources :
  exists r, analyze_document self doc sources = Return r.
Proof. apply analyze_document_returns. Qed.

Section Counters.
Local Open Scope Q_scope.

Lemma count_above_snoc t l x :
  Num.count_above t (l ++ [x]) = (Num.count_above t l + (if Num.gtb x t then 1 else 0))%nat.
Proof.
  unfold Num.count_above. rewrite filter_app, length_app, filter_cons, filter_nil.
  destruct (decide (Num.gtb x t = true)) as [-> | H]; [reflexivity |].
  apply not_true_is_false in H. rewrite H. reflexivity.
Qed.

Lemma count_above_le_length t l : (Num.count_above t l <= length l)%nat.
Proof. unfold Num.count_above. apply length_filter. Qed.

Lemma count_above_mono t t' l :
  t <= t' -> (Num.count_above t' l <= Num.count_above t l)%nat.
Proof.
  intros Ht. unfold Num.count_above. induction l as [| x l IH]; [reflexivity |].
  rewrite !filter_cons.
  destruct (decide (Num.gtb x t' = true)) as [H' | H'];
    destruct (decide (Num.gtb x t = true)) as [H | H]; simpl; try lia.
  exfalso. apply H. apply gtb_true. apply gtb_true in H'.
  eapply Qle_lt_trans; eauto.
Qed.

End Counters.

Section ResultShape.
Local Open Scope Q_scope.

(** The entries of [matches_by_source] above the flagging threshold. *)
#[local] Abbreviation flagged_entry :=
  (fun e : key * (Q * nat) => Num.gtb e.2.1 (3 # 10) = true).

Lemma dict_set_flagged (d : list (key * (Q * nat))) k q n :
  (length (filter flagged_entry (dict_set d k (q, n)))
   <= length (filter flagged_entry d) + (if Num.gtb q (3 # 10) then 1 else 0))%nat.
Proof.
  induction d as [| [k' v'] d IH]; simpl.
  - rewrite filter_cons, filter_nil. simpl.
    destruct (decide (Num.gtb q (3 # 10) = true)) as [-> | H]; simpl; [lia |].
    apply not_true_is_false in H. rewrite H. lia.
  - destruct (key_eqb k' k).
    + rewrite !filter_cons. simpl.
      destruct (decide (Num.gtb q (3 # 10) = true)) as [-> | H];
        destruct (decide (Num.gtb v'.1 (3 # 10) = true)); simpl; lia.
    + rewrite !filter_cons.
      destruct (decide (flagged_entry (k', v'))); simpl; lia.
Qed.

Lemma body_flagged (doc_words : gset string) n st s st' :
  _analyze_simple_body doc_words n st s = Return st' ->
  (length (filter flagged_entry st.2) <= Num.count_above (3 # 10) st.1)%nat ->
  (length (filter flagged_entry st'.2) <= Num.count_above (3 # 10) st'.1)%nat.
Proof.
  unfold _analyze_simple_body. destruct (negb _); [intros [= <-]; tauto |].
  destruct (Value.lower _) as [lowered |]; simpl; [| discriminate].
  destruct (to_key _) as [title |]; simpl; [| discriminate].
  intros [= <-] Hst. cbn [fst snd]. rewrite count_above_snoc.
  etransitivity; [apply dict_set_flagged |]. lia.
Qed.

Lemma loop_flagged (doc_words : gset string) n sources st st' :
  foldM (_analyze_simple_body doc_words n) st sources = Return st' ->
  (length (filter flagged_entry st.2) <= Num.count_above (3 # 10) st.1)%nat ->
  (length (filter flagged_entry st'.2) <= Num.count_above (3 # 10) st'.1)%nat.
Proof.
  revert st. induction sources as [| s sources IH]; intros st; simpl.
  - intros [= <-]. tauto.
  - destruct (_analyze_simple_body _ _ st s) as [st1 |] eqn:E; simpl; [| discriminate].
    intros Hl Hst. apply (IH st1 Hl). exact (body_flagged _ _ _ _ _ E Hst).
Qed.

(** What every result of [_analyze_simple] satisfies. *)
Lemma analyze_simple_shape doc sources r :
  _analyze_simple doc sources = Return r ->
  (flagged_sections r <= total_matches r)%nat
  /\ (total_matches r <= length (with_content sources))%nat
  /\ (total_matches r <= sources_checked r)%nat
  /\ (1 <= length (recommendations r) <= 1 + flagged_sections r)%nat.
Proof.
  unfold _analyze_simple.
  destruct (_ =? 0)%nat; [intros [= <-]; simpl; lia |].
  destruct (foldM _ _ sources) as [st |] eqn:Hloop; simpl; [| discriminate].
  pose proof (loop_length _ _ _ _ _ Hloop) as Hlen. simpl in Hlen.
  apply loop_flagged in Hloop; [| simpl; lia].
  destruct (is_nil st.1); [intros [= <-]; simpl; lia |].
  destruct (Num.max_list st.1) as [mx |]; simpl; [| discriminate].
  intros [= <-]. cbn [flagged_sections total_matches sources_checked recommendations].
  pose proof (count_above_mono (15 # 100) (3 # 10) st.1) as Hmono.
  pose proof (count_above_le_length (15 # 100) st.1) as Hle.
  pose proof (length_filter (fun s => has_content s = true) sources) as Hwc.
  fold (with_content sources) in Hwc.
  assert (15 # 100 <= 3 # 10) as H15 by discriminate. specialize (Hmono H15).
  repeat split; try lia.
  - destruct (Num.gtb _ (4 # 10)); simpl; lia.
  - destruct (Num.gtb _ (4 # 10)); simpl; [| lia]. rewrite length_map. lia.
Qed.

(** What every result of the [try] block satisfies. *)
Lemma analyze_body_shape self doc sources r :
  analyze_body self doc sources = Return r ->
  (flagged_sections r <= total_matches r)%nat
  /\ (1 <= length (recommendations r) <= 1 + flagged_sections r)%nat.
Proof.
  assert (forall r, _analyze_simple doc sources = Return r ->
            (flagged_sections r <= total_matches r)%nat
            /\ (1 <= length (recommendations r) <= 1 + flagged_sections r)%nat)
    as Hsimple.
  { intros r0 H. apply analyze_simple_shape in H. tauto. }
  unfold analyze_body. destruct (model self) as [m |]; [| apply Hsimple].
  unfold _analyze_semantic.
  destruct (sklearn_importable self); simpl; [| apply Hsimple].
  destruct (encode m doc); simpl; [| apply Hsimple].
  destruct (is_nil _); simpl.
  { intros [= <-]. simpl. lia. }
  destruct (encode_batch m _); simpl; [| apply Hsimple].
  destruct (cosine_similarity m _ _) as [sims |]; simpl; [| apply Hsimple].
  destruct (Num.max_list _); simpl; [| apply Hsimple].
  intros [= <-]. cbn [flagged_sections total_matches recommendations].
  split.
  - apply count_above_mono. discriminate.
  - destruct (Num.gtb _ (85 # 100)); [simpl; lia |].
    destruct (Num.gtb _ (7 # 10)); simpl; lia.
Qed.

End ResultShape.

(** X2: in every result the flagged sections are among the matches
    ([flagged_sections <= total_matches]); without a model the matches are
    among the sources with content, and so at most [sources_checked]. *)
Theorem flagged_sections_among_matches self doc sources :
  exists r,
    analyze_document self doc sources = Return r
    /\ (flagged_sections r <= total_matches r)%nat
    /\ (model self = None ->
        (total_matches r <= length (with_content sources))%nat
        /\ (total_matches r <= sources_checked r)%nat).
Proof.
  unfold analyze_document.
  destruct (_ || _).
  { eexists. split; [reflexivity |]. simpl. split; [lia |]. intros _. lia. }
  destruct (analyze_body self doc sources) as [r | e] eqn:Hb; simpl.
  - exists r. split; [reflexivity |].
    split; [apply (analyze_body_shape _ _ _ _ Hb) |].
    intros Hm. unfold analyze_body in Hb. rewrite Hm in Hb.
    apply analyze_simple_shape in Hb. tauto.
  - eexists. split; [reflexivity |]. simpl. split; [lia |]. intros _. lia.
Qed.

(** X2: the theorem on three sources, one of them without content. *)
Lemma flagged_sections_among_matches_witness :
  let sources := [SourceText "A" "the cat sat on the mat"; SourceText "B" "";
                  SourceText "C" "a dog sat"] in
  exists r,
    analyze_document lexical_service "the cat sat" sources = Return r
    /\ (flagged_sections r <= total_matches r)%nat
    /\ (total_matches r <= length (with_content sources))%nat
    /\ (total_matches r <= sources_checked r)%nat.
Proof.
  intros sources.
  destruct (flagged_sections_among_matches lexical_service "the cat sat" sources)
    as (r & Hr & Hflag & Hlex).
  exists r. split; [exact Hr |]. split; [exact Hflag |]. apply Hlex. reflexivity.
Defined.

(** X3: every result carries at least one recommendation, and at most
    one more than it has flagged sections. *)
Theorem recommendations_bounds self doc sources :
  exists r,
    analyze_document self doc sources = Return r
    /\ (1 <= length (recommendations r) <= 1 + flagged_sections r)%nat.
Proof.
  unfold analyze_document.
  destruct (_ || _).
  { eexists. split; [reflexivity |]. simpl. lia. }
  destruct (analyze_body self doc sources) as [r | e] eqn:Hb; simpl.
  - exists r. split; [reflexivity |]. apply (analyze_body_shape _ _ _ _ Hb).
  - eexists. split; [reflexivity |]. simpl. lia.
Qed.

(** X4: when the service has no model, or a model whose cosine
    similarities are all between 0 and 1, the score of every result is
    between 0 and 1. *)
Theorem score_between_zero_and_one self doc sources :
  (forall m d es sims,
     model self = Some m -> cosine_similarity m d es = Return sims ->
     Forall Num.unit_range sims) ->
  exists r,
    analyze_document self doc sources = Return r
    /\ Num.unit_range (plagiarism_score r).
Proof.
  intros Hmodel. destruct (analyze_document_returns self doc sources) as [r Hr].
  exists r. split; [exact Hr |].
  exact (analyze_document_score_range self doc sources r Hmodel Hr).
Qed.

(** X4: the theorem on a model that answers 1/2 and 9/10. *)
Lemma score_between_zero_and_one_witness :
  exists r,
    analyze_document (semantic_service (fixed_model [(1 # 2)%Q; (9 # 10)%Q]))
      "quantum chromodynamics lecture"
      [SourceText "Recipes" "how to bake bread"; SourceText "Notes" "lecture notes"]
    = Return r
    /\ Num.unit_range (plagiarism_score r).
Proof.
  apply (score_between_zero_and_one
           (semantic_service (fixed_model [(1 # 2)%Q; (9 # 10)%Q]))).
  intros m d es sims [= <-] [= <-].
  repeat constructor; discriminate.
Defined.

Lemma analyze_simple_blank doc sources :
  ~ has_word doc ->
  _analyze_simple doc sources = Return (zero_result "Empty document provided" 0).
Proof.
  intros Hw. apply doc_word_count_zero in Hw. unfold _analyze_simple.
  rewrite Hw. reflexivity.
Qed.

(** X5: without a model, a document that has no word scores 0
    against any sources, ill-typed ones included: the empty document with
    the message "Empty text provided" and [sources_checked] the number of
    sources, a document of white space with "Empty document provided" and
    [sources_checked] 0. *)
Theorem blank_document_scores_zero self doc sources :
  model self = None -> ~ has_word doc -> sources <> [] ->
  analyze_document self doc sources
  = Return (if bool_decide (doc = "")
            then zero_result "Empty text provided" (length sources)
            else zero_result "Empty document provided" 0).
Proof.
  intros Hm Hw Hs. unfold analyze_document, analyze_body. rewrite Hm.
  destruct sources as [| s sources]; [congruence |].
  destruct (bool_decide (doc = "")); [reflexivity |]. simpl.
  rewrite (analyze_simple_blank _ _ Hw). reflexivity.
Qed.

(** X5: the theorem on a document of two spaces and a numeric source. *)
Lemma blank_document_scores_zero_witness :
  analyze_document lexical_service "  " [numeric_source; SourceText "A" "alpha"]
  = Return (zero_result "Empty document provided" 0).
Proof.
  apply (blank_document_scores_zero lexical_service "  "
           [numeric_source; SourceText "A" "alpha"]).
  - reflexivity.
  - vm_compute. intros H. apply H. reflexivity.
  - discriminate.
Defined.

Lemma analyze_simple_without_content doc sources :
  with_content sources = [] ->
  _analyze_simple doc sources
  = Return (zero_result (if bool_decide (has_word doc)
                         then "No sources provided" else "Empty document provided") 0).
Proof.
  intros Hc. destruct (decide (has_word doc)) as [Hw | Hw].
  - rewrite bool_decide_true by assumption. unfold _analyze_simple.
    destruct (Nat.eqb_spec (size (list_to_set (Py.split (Py.lower doc)) : gset string)) 0)
      as [Hz | _].
    { apply doc_word_count_zero in Hz. contradiction. }
    rewrite loop_skips, Hc. reflexivity.
  - rewrite bool_decide_false by assumption. apply analyze_simple_blank, Hw.
Qed.

(** X6: when no source has a content, whatever the strategy the
    result has score 0, no flagged section, no match and [sources_checked]
    0, with one of three messages. *)
Theorem sources_without_content_score_zero self doc sources :
  doc <> "" -> sources <> [] -> with_content sources = [] ->
  exists msg,
    analyze_document self doc sources = Return (zero_result msg 0)
    /\ msg ∈ ["No valid source content to compare"; "No sources provided";
              "Empty document provided"].
Proof.
  intros Hdoc Hs Hc. unfold analyze_document.
  rewrite bool_decide_false by assumption.
  assert (is_nil sources = false) as -> by (destruct sources; [congruence | reflexivity]).
  simpl.
  assert (exists msg, _analyze_simple doc sources = Return (zero_result msg 0)
                      /\ msg ∈ ["No valid source content to compare";
                                "No sources provided"; "Empty document provided"])
    as (msg & Hsimple & Hmsg).
  { rewrite (analyze_simple_without_content _ _ Hc).
    eexists. split; [reflexivity |].
    destruct (bool_decide (has_word doc)); repeat constructor. }
  unfold analyze_body. destruct (model self) as [m |].
  2: { exists msg. rewrite Hsimple. split; [reflexivity | exact Hmsg]. }
  unfold _analyze_semantic. rewrite filter_get_none, Hc.
  destruct (sklearn_importable self); simpl.
  2: { exists msg. rewrite Hsimple. split; [reflexivity | exact Hmsg]. }
  destruct (encode m doc); simpl.
  - eexists. split; [reflexivity |]. constructor.
  - exists msg. rewrite Hsimple. split; [reflexivity | exact Hmsg].
Qed.

(** X6: the theorem on a source with an empty content and one with no content. *)
Lemma sources_without_content_score_zero_witness :
  exists msg,
    analyze_document (semantic_service (fixed_model [(1 # 2)%Q])) "alpha beta"
      [SourceText "A" ""; {[ "title" := PStr "B" ]}]
    = Return (zero_result msg 0)
    /\ msg ∈ ["No valid source content to compare"; "No sources provided";
              "Empty document provided"].
Proof.
  apply sources_without_content_score_zero.
  - discriminate.
  - discriminate.
  - vm_compute. reflexivity.
Defined.

(** X7: when the semantic strategy fails (scikit-learn cannot be
    imported, the document cannot be encoded, or, some source having a
    content, the sources cannot be encoded, the cosine similarity raises or
    returns no number), the result is that of the service without model. *)
Theorem semantic_failure_falls_back self m doc sources :
  model self = Some m ->
  sklearn_importable self = false
  \/ (exists e, encode m doc = Raise e)
  \/ (with_content sources <> []
      /\ ((forall texts, exists e, encode_batch m texts = Raise e)
          \/ (forall d es, exists e, cosine_similarity m d es = Raise e)
          \/ (forall d es, cosine_similarity m d es = Return []))) ->
  analyze_document self doc sources = analyze_document lexical_service doc sources.
Proof.
  intros Hm Hfail. unfold analyze_document.
  destruct (_ || _); [reflexivity |]. f_equal.
  unfold analyze_body. rewrite Hm. simpl. unfold _analyze_semantic.
  destruct Hfail as [-> | Hfail]; [reflexivity |].
  destruct (sklearn_importable self); [| reflexivity]. simpl.
  destruct Hfail as [[e ->] | [Hc Hfail]]; [reflexivity |].
  destruct (encode m doc) as [d |]; [| reflexivity]. simpl.
  rewrite filter_get_none.
  destruct (with_content sources) as [| s l]; [congruence |]. simpl.
  destruct Hfail as [Hbatch | Hcos].
  { match goal with
    | |- context [encode_batch m ?texts] => destruct (Hbatch texts) as [e ->]
    end. reflexivity. }
  destruct (encode_batch m _) as [es |]; [| reflexivity]. simpl.
  destruct Hcos as [Hcos | Hcos].
  - destruct (Hcos d es) as [e ->]. reflexivity.
  - rewrite (Hcos d es). reflexivity.
Qed.

(** X7: the theorem on a model whose cosine similarity returns no number. *)
Lemma semantic_failure_falls_back_witness :
  analyze_document (semantic_service (fixed_model [])) "the cat sat"
    [SourceText "A" "the cat sat on the mat"]
  = analyze_document lexical_service "the cat sat"
      [SourceText "A" "the cat sat on the mat"].
Proof.
  apply (semantic_failure_falls_back (semantic_service (fixed_model []))
           (fixed_model [])).
  - reflexivity.
  - right. right. split; [vm_compute; discriminate |].
    right. right. intros d es. reflexivity.
Defined.

(** X8: without a model, the result depends on the document only
    through the set of its lower-cased words: case, order and repetition of
    the words change nothing. *)
Theorem lexical_result_depends_on_word_set self doc doc' sources :
  model self = None -> doc <> "" -> doc' <> "" ->
  (forall w, w ∈ distinct_words doc <-> w ∈ distinct_words doc') ->
  analyze_document self doc sources = analyze_document self doc' sources.
Proof.
  intros Hm Hdoc Hdoc' Hwords. unfold analyze_document, analyze_body.
  rewrite Hm, !bool_decide_false by assumption. simpl.
  destruct (is_nil sources); [reflexivity |]. f_equal.
  unfold _analyze_simple.
  assert ((list_to_set (Py.split (Py.lower doc)) : gset string)
          = list_to_set (Py.split (Py.lower doc'))) as ->; [| reflexivity].
  apply set_eq. intros w. rewrite !elem_of_list_to_set.
  specialize (Hwords w). unfold distinct_words in Hwords.
  rewrite !elem_of_remove_dups in Hwords. exact Hwords.
Qed.

(** X8: the theorem on two writings of the same three words. *)
Lemma lexical_result_depends_on_word_set_witness :
  analyze_document lexical_service "The cat sat"
    [SourceText "A" "the cat sat on the mat"; SourceText "B" "a dog sat"]
  = analyze_document lexical_service "sat  CAT the cat"
      [SourceText "A" "the cat sat on the mat"; SourceText "B" "a dog sat"].
Proof.
  apply lexical_result_depends_on_word_set.
  - reflexivity.
  - discriminate.
  - discriminate.
  - intros w.
    assert (distinct_words "The cat sat" = ["the"; "cat"; "sat"]) as ->
      by (vm_compute; reflexivity).
    assert (distinct_words "sat  CAT the cat" = ["sat"; "the"; "cat"]) as ->
      by (vm_compute; reflexivity).
    rewrite !elem_of_cons, !elem_of_nil. tauto.
Defined.

(* ===================================================================== *)
(** * The order of the sources *)
(* ===================================================================== *)

Section SourceOrder.
Local Open Scope Q_scope.

Variables (doc_words : gset string) (doc_word_count : nat).

#[local] Abbreviation body := (_analyze_simple_body doc_words doc_word_count).
#[local] Abbreviation same_similarities :=
  (fun a b : loop_state => a.1 ≡ₚ b.1).





End SourceOrder.

Section OrderArithmetic.
Local Open Scope Q_scope.





End OrderArithmetic.





(* ===================================================================== *)
(** * The scores 0 and 1 *)
(* ===================================================================== *)

Section ExtremeScores.
Local Open Scope Q_scope.

Lemma length_filter_all {A} (P : A -> Prop) `{Hdec : !forall x, Decision (P x)} (l : list A) :
  length (filter P l) = length l <-> Forall P l.
Proof.
  induction l as [| x l IH]; [simpl; split; [constructor | reflexivity] |].
  rewrite filter_cons. pose proof (length_filter P l) as Hle.
  destruct (decide (P x)) as [Hx | Hx]; simpl.
  - rewrite Forall_cons. split.
    + intros [= H]. split; [exact Hx | apply IH, H].
    + intros [_ H]. f_equal. apply IH, H.
  - split; [lia |]. intros H. inversion H; subst. contradiction.
Qed.

Lemma length_filter_none {A} (P : A -> Prop) `{Hdec : !forall x, Decision (P x)} (l : list A) :
  length (filter P l) = 0%nat <-> filter P l = [].
Proof. destruct (filter P l); simpl; split; (congruence || lia). Qed.

Lemma div_nat_one k n : (0 < n)%nat -> Num.div_nat k n == 1 <-> k = n.
Proof.
  intros Hn. unfold Num.div_nat.
  assert (~ inject_Z (Z.of_nat n) == 0) as Hnz.
  { change 0 with (inject_Z 0). rewrite inject_Z_injective. lia. }
  split.
  - intros H.
    assert (inject_Z (Z.of_nat k) == inject_Z (Z.of_nat n)) as E.
    { rewrite <- (Qmult_1_l (inject_Z (Z.of_nat n))), <- H. field. exact Hnz. }
    rewrite inject_Z_injective in E. lia.
  - intros ->. field. exact Hnz.
Qed.

Lemma div_nat_zero k n : (0 < n)%nat -> Num.div_nat k n == 0 <-> k = 0%nat.
Proof.
  intros Hn. unfold Num.div_nat.
  assert (~ inject_Z (Z.of_nat n) == 0) as Hnz.
  { change 0 with (inject_Z 0). rewrite inject_Z_injective. lia. }
  split.
  - intros H.
    assert (inject_Z (Z.of_nat k) == inject_Z 0) as E.
    { change (inject_Z 0) with 0.
      rewrite <- (Qmult_0_l (inject_Z (Z.of_nat n))), <- H. field. exact Hnz. }
    rewrite inject_Z_injective in E. lia.
  - intros ->. change (inject_Z (Z.of_nat 0)) with 0. field. exact Hnz.
Qed.

(** A source has all the words of the document. *)
Lemma overlap_one document text :
  has_word document ->
  overlap document text == 1
  <-> (forall w, w ∈ distinct_words document -> w ∈ distinct_words text).
Proof.
  intros Hw. unfold overlap.
  rewrite (div_nat_one _ _ (has_word_count document Hw)).
  unfold shared_words, docWordCount. rewrite length_filter_all, Forall_forall.
  reflexivity.
Qed.

(** A source has none of the words of the document. *)
Lemma overlap_zero document text :
  has_word document ->
  overlap document text == 0 <-> shared_words document text = [].
Proof.
  intros Hw. unfold overlap.
  rewrite (div_nat_zero _ _ (has_word_count document Hw)).
  unfold shared_words. apply length_filter_none.
Qed.

Lemma overlap_range document text :
  has_word document -> Num.unit_range (overlap document text).
Proof.
  intros Hw. unfold overlap. apply div_nat_range.
  - unfold shared_words, docWordCount. apply length_filter.
  - exact (has_word_count document Hw).
Qed.

Lemma overlaps_range document sources :
  has_word document -> Forall Num.unit_range (overlaps document sources).
Proof.
  intros Hw. unfold overlaps. apply Forall_map, Forall_forall.
  intros s _. exact (overlap_range _ _ Hw).
Qed.

Lemma sum_all_ones l :
  Forall (fun x => x <= 1) l ->
  fold_right Qplus 0 l <= inject_Z (Z.of_nat (length l))
  /\ (fold_right Qplus 0 l == inject_Z (Z.of_nat (length l)) -> Forall (fun x => x == 1) l).
Proof.
  induction 1 as [| x l Hx Hl [IHle IHeq]].
  - split; [apply Qle_refl | constructor].
  - cbn [fold_right length]. rewrite Nat2Z.inj_succ, <- Z.add_1_r, inject_Z_plus.
    change (inject_Z 1) with 1.
    remember (fold_right Qplus 0 l) as total. remember (inject_Z (Z.of_nat (length l))) as n.
    split; [lra |]. intros E. constructor; [lra |]. apply IHeq. lra.
Qed.

Lemma sum_all_zeros l :
  Forall (fun x => x == 0) l -> fold_right Qplus 0 l == 0.
Proof.
  induction 1 as [| x l Hx Hl IH]; simpl; [reflexivity |]. rewrite Hx, IH. reflexivity.
Qed.

Lemma sum_of_ones l :
  Forall (fun x => x == 1) l -> fold_right Qplus 0 l == inject_Z (Z.of_nat (length l)).
Proof.
  induction 1 as [| x l Hx Hl IH]; [reflexivity |].
  cbn [fold_right length]. rewrite Nat2Z.inj_succ, <- Z.add_1_r, inject_Z_plus, Hx, IH.
  change (inject_Z 1) with 1. ring.
Qed.

Lemma length_positive {A} (l : list A) : l <> [] -> 0 < inject_Z (Z.of_nat (length l)).
Proof.
  intros Hne. change 0 with (inject_Z 0). rewrite <- Zlt_Qlt.
  destruct l; [congruence | simpl; lia].
Qed.

(** The score is 1 exactly when every similarity is 1. *)
Lemma aggregate_one l mx :
  l <> [] -> Forall Num.unit_range l -> is_maximum mx l ->
  (mx + mean l) / 2 == 1 <-> Forall (fun x => x == 1) l.
Proof.
  intros Hne Hl [(x & Hx & Hxe) Hub].
  pose proof (length_positive l Hne) as Hpos.
  assert (Forall (fun x => x <= 1) l) as Hle.
  { eapply Forall_impl; [exact Hl |]. intros y [_ Hy]. exact Hy. }
  destruct (sum_all_ones l Hle) as [Hsum Hall].
  assert (mx <= 1) as Hmx.
  { rewrite <- Hxe. rewrite Forall_forall in Hle. apply Hle, Hx. }
  unfold mean. split.
  - intros H. apply Hall.
    remember (fold_right Qplus 0 l) as total. remember (inject_Z (Z.of_nat (length l))) as n.
    assert (total / n <= 1) as Hmean by (apply Qle_shift_div_r; [exact Hpos | lra]).
    assert (total / n == 1) as E.
    { assert ((mx + total / n) / 2 * 2 == 1 * 2) as H2 by (rewrite H; reflexivity).
      assert ((mx + total / n) / 2 * 2 == mx + total / n) as H3 by (field; lra).
      rewrite H3 in H2. lra. }
    assert (total / n * n == total) as E2 by (field; lra).
    rewrite E in E2. lra.
  - intros H. rewrite (sum_of_ones l H).
    assert (mx == 1) as ->.
    { rewrite <- Hxe. rewrite Forall_forall in H. apply H, Hx. }
    field. lra.
Qed.

(** The score is 0 exactly when every similarity is 0. *)
Lemma aggregate_zero l mx :
  l <> [] -> Forall Num.unit_range l -> is_maximum mx l ->
  (mx + mean l) / 2 == 0 <-> Forall (fun x => x == 0) l.
Proof.
  intros Hne Hl [(x & Hx & Hxe) Hub].
  pose proof (length_positive l Hne) as Hpos.
  pose proof (fold_plus_range l 0 Hl) as [Hlo _]. rewrite fold_left_plus in Hlo.
  assert (0 <= mx) as Hmx.
  { rewrite <- Hxe. rewrite Forall_forall in Hl. apply Hl, Hx. }
  unfold mean. split.
  - intros H.
    remember (fold_right Qplus 0 l) as total. remember (inject_Z (Z.of_nat (length l))) as n.
    assert (0 <= total / n) as Hmean by (apply Qle_shift_div_l; [exact Hpos | lra]).
    assert (mx == 0) as E.
    { assert ((mx + total / n) / 2 * 2 == 0 * 2) as H2 by (rewrite H; reflexivity).
      assert ((mx + total / n) / 2 * 2 == mx + total / n) as H3 by (field; lra).
      rewrite H3 in H2. lra. }
    apply Forall_forall. intros y Hy. apply Qle_antisym.
    + rewrite <- E. apply Hub, Hy.
    + rewrite Forall_forall in Hl. apply Hl, Hy.
  - intros H. rewrite (sum_all_zeros l H).
    assert (mx == 0) as ->.
    { rewrite <- Hxe. rewrite Forall_forall in H. apply H, Hx. }
    field. lra.
Qed.

End ExtremeScores.

(** X10: without a model and on textual sources, the score is 1
    exactly when every source with content has all the words of the
    document, and 0 exactly when no source with content shares a word with
    it. *)
Theorem lexical_score_extremes self document sources :
  model self = None -> has_word document ->
  Forall (fun s => is_text s = true) sources -> with_content sources <> [] ->
  exists r,
    analyze_document self document sources = Return r
    /\ ((plagiarism_score r == 1)%Q
        <-> Forall (fun s => forall w, w ∈ distinct_words document ->
                                       w ∈ distinct_words (content_of s))
                   (with_content sources))
    /\ ((plagiarism_score r == 0)%Q
        <-> Forall (fun s => shared_words document (content_of s) = [])
                   (with_content sources)).
Proof.
  intros Hm Hw Ht Hc.
  destruct (analyze_simple_text document sources Hw Ht Hc)
    as (matches & r & mx & _ & Hr & Hmx & Hscore & _).
  exists r. split.
  { rewrite (analyze_document_lexical self _ _ Hm Hw (with_content_nonempty _ Hc)).
    rewrite Hr. reflexivity. }
  assert (overlaps document sources <> []) as Hne.
  { unfold overlaps. destruct (with_content sources); [congruence | discriminate]. }
  pose proof (overlaps_range document sources Hw) as Hrange.
  pose proof (max_list_is_maximum _ _ Hmx) as Hmax.
  rewrite Hscore, sum_list_mean. split.
  - rewrite (aggregate_one _ _ Hne Hrange Hmax). unfold overlaps.
    rewrite Forall_map. apply Forall_iff. intros s. apply overlap_one, Hw.
  - rewrite (aggregate_zero _ _ Hne Hrange Hmax). unfold overlaps.
    rewrite Forall_map. apply Forall_iff. intros s. apply overlap_zero, Hw.
Qed.

(** X10: the theorem on two sources that have the three words of the document. *)
Lemma lexical_score_extremes_witness :
  let sources := [SourceText "A" "The cat sat on the mat"; SourceText "B" "";
                  SourceText "C" "a CAT that sat is the cat"] in
  exists r,
    analyze_document lexical_service "the cat sat" sources = Return r
    /\ ((plagiarism_score r == 1)%Q
        <-> Forall (fun s => forall w, w ∈ distinct_words "the cat sat" ->
                                       w ∈ distinct_words (content_of s))
                   (with_content sources))
    /\ ((plagiarism_score r == 0)%Q
        <-> Forall (fun s => shared_words "the cat sat" (content_of s) = [])
                   (with_content sources)).
Proof.
  intros sources.
  apply (lexical_score_extremes lexical_service "the cat sat" sources).
  - reflexivity.
  - vm_compute. discriminate.
  - repeat constructor.
  - vm_compute. discriminate.
Defined.

(* ===================================================================== *)
(** * The score against the counters *)
(* ===================================================================== *)

Section ScoreAndCounters.
Local Open Scope Q_scope.






End ScoreAndCounters.



(* ===================================================================== *)
(** * The cached service and the route [analyze_text] *)
(* ===================================================================== *)

Section Cache.
Import SimilarityCache.

Variable env : environment.

(** Every object the state holds is [s0]. *)
#[local] Abbreviation holds_only s0 st :=
  (_similarity_service st = Some s0 /\ Forall (fun e => e.2 = s0) (cache st)).

Lemma cache_find_holds s0 c entries found others :
  Forall (fun e : call * instance => e.2 = s0) entries ->
  cache_find c entries = Some (found, others) ->
  found = s0 /\ Forall (fun e : call * instance => e.2 = s0) others.
Proof.
  revert found others. induction entries as [| [c' v] rest IH]; intros found others Hall;
    simpl; [discriminate |].
  inversion Hall as [| ? ? Hv Hrest]; subst. simpl in *.
  destruct (call_eqb c' c); [intros [= <- <-]; tauto |].
  destruct (cache_find c rest) as [[found' others'] |]; [| discriminate].
  intros [= <- <-]. destruct (IH _ _ Hrest eq_refl) as [-> Hothers].
  split; [reflexivity |]. constructor; [reflexivity | exact Hothers].
Qed.

Lemma get_similarity_service_holds s0 c st :
  holds_only s0 st ->
  (get_similarity_service env c st).1 = s0
  /\ holds_only s0 (get_similarity_service env c st).2.
Proof.
  intros [Hglobal Hcache]. unfold get_similarity_service.
  destruct (cache_find c (cache st)) as [[found others] |] eqn:Hfind.
  - destruct (cache_find_holds _ _ _ _ _ Hcache Hfind) as [-> Hothers]. simpl.
    split; [reflexivity |]. split; [exact Hglobal |].
    constructor; [reflexivity | exact Hothers].
  - rewrite Hglobal. simpl. split; [reflexivity |]. split; [reflexivity |].
    constructor; [reflexivity | apply Forall_take, Hcache].
Qed.

Lemma calls_hold s0 cs st :
  holds_only s0 st -> Forall (fun s => s = s0) (calls env cs st).1.
Proof.
  revert st. induction cs as [| c cs IH]; intros st Hst; simpl; [constructor |].
  destruct (get_similarity_service_holds s0 c st Hst) as [Hs Hst'].
  destruct (get_similarity_service env c st) as [s st1]. simpl in Hs, Hst'.
  specialize (IH st1 Hst'). destruct (calls env cs st1) as [ss st2]. simpl in *.
  constructor; [exact Hs | exact IH].
Qed.

Lemma first_call c :
  let s0 := new_service env
              (default "sentence-transformers/all-MiniLM-L6-v2" (SIMILARITY_MODEL env))
              (threshold_of c) in
  (get_similarity_service env c initial).1 = s0
  /\ holds_only s0 (get_similarity_service env c initial).2.
Proof.
  simpl. split; [reflexivity |]. split; [reflexivity |].
  repeat constructor.
Qed.

End Cache.

(** X12: in a sequence of calls of [get_similarity_service] from a
    fresh process, every call returns the object built by the first one,
    with the threshold of the first call: the thresholds of the later
    calls are not used. *)
Theorem similarity_service_built_once env c cs :
  Forall
    (fun s =>
       s = SimilarityCache.new_service env
             (default "sentence-transformers/all-MiniLM-L6-v2"
                (SimilarityCache.SIMILARITY_MODEL env))
             (SimilarityCache.threshold_of c))
    (SimilarityCache.calls env (c :: cs) SimilarityCache.initial).1.
Proof.
  destruct (first_call env c) as [Hs Hst]. cbn [SimilarityCache.calls].
  destruct (SimilarityCache.get_similarity_service env c SimilarityCache.initial)
    as [s st1]. simpl in Hs, Hst.
  pose proof (calls_hold env _ cs st1 Hst) as Hrest.
  destruct (SimilarityCache.calls env cs st1) as [ss st2]. simpl in *.
  constructor; [exact Hs | exact Hrest].
Qed.

Section AnalyzeRoute.
Import AnalysisRoutes.
Local Open Scope Q_scope.

Lemma response_valid_true r :
  response_valid r = true <-> Num.unit_range (plagiarism_score r).
Proof.
  unfold response_valid, Num.unit_range.
  rewrite andb_true_iff, !Qle_bool_iff. reflexivity.
Qed.

End AnalyzeRoute.

(** X13: the route [analyze_text] answers with the result of the
    service when its score is between 0 and 1, and with status 500 only
    when the score is below 0, which takes a model; without a model it
    never answers 500. *)
Theorem analyze_route_answers env validation_error request st :
  exists s st' r,
    SimilarityCache.get_similarity_service env
      (SimilarityCache.Keyword (AnalysisRoutes.threshold request)) st = (s, st')
    /\ analyze_document (SimilarityCache.service s) (AnalysisRoutes.text request)
         (default [] (AnalysisRoutes.sources request)) = Return r
    /\ ((Num.unit_range (plagiarism_score r)
         /\ AnalysisRoutes.analyze_text env validation_error request st = (Ok r, st'))
        \/ ((plagiarism_score r < 0)%Q
            /\ model (SimilarityCache.service s) <> None
            /\ AnalysisRoutes.analyze_text env validation_error request st
               = (HTTPException 500 (validation_error r), st'))).
Proof.
  unfold AnalysisRoutes.analyze_text.
  destruct (SimilarityCache.get_similarity_service env _ st) as [s st'].
  destruct (analyze_document_returns (SimilarityCache.service s)
              (AnalysisRoutes.text request)
              (default [] (AnalysisRoutes.sources request))) as [r Hr].
  exists s, st', r. split; [reflexivity |]. split; [exact Hr |]. rewrite Hr.
  destruct (AnalysisRoutes.response_valid r) eqn:Hvalid.
  - left. split; [apply response_valid_true, Hvalid | reflexivity].
  - right.
    assert (~ Num.unit_range (plagiarism_score r)) as Hout.
    { intros H. apply response_valid_true in H. congruence. }
    destruct (analyze_document_upper_bounds _ _ _ _ Hr) as [Hle _].
    split; [| split; [| reflexivity]].
    + apply Qnot_le_lt. intros H0. apply Hout. split; assumption.
    + intros Hm. apply Hout. exact (lexical_score_range _ _ _ _ Hm Hr).
Qed.

(* ===================================================================== *)
(** * When [Citation.py] returns a citation *)
(* ===================================================================== *)

Section RootTotal.
Import Citation.

Lemma surname_returns author :
  Py.split author <> [] -> exists s, surname author = Return s.
Proof.
  intros H. destruct (item_last_returns (Py.split author) H) as (s & Hs & _).
  exists s. exact Hs.
Qed.

Variable m : SourceMetadata.
Hypothesis some_author : authors m <> [].
Hypothesis named : Forall (fun a => Py.split a <> []) (authors m).

Lemma first_author :
  exists a0 s0, Py.item (authors m) 0 = Return a0 /\ surname a0 = Return s0.
Proof.
  destruct (authors m) as [| a0 l]; [congruence |].
  inversion named; subst.
  destruct (surname_returns a0) as [s0 Hs0]; [assumption |].
  exists a0, s0. split; [reflexivity | exact Hs0].
Qed.

Lemma root_apa_returns : exists r, _generate_apa m = Return r.
Proof.
  unfold _generate_apa.
  destruct (format_authors_apa_returns (authors m)) as [author_str ->]. cbn [bind].
  destruct first_author as (a0 & s0 & Ha0 & Hs0). rewrite Ha0. cbn [bind]. rewrite Hs0.
  cbn [bind].
  destruct (length (authors m) =? 1)%nat; [cbn [bind]; eauto |].
  destruct (Nat.eqb_spec (length (authors m)) 2) as [H2 | _]; [| cbn [bind]; eauto].
  destruct (authors m) as [| x [| a1 [| ? ?]]]; try discriminate.
  inversion named as [| ? ? _ Hrest]; subst. inversion Hrest; subst.
  destruct (surname_returns a1) as [s1 Hs1]; [assumption |].
  simpl. rewrite Hs1. cbn [bind]. eauto.
Qed.

Lemma root_mla_returns : exists r, _generate_mla m = Return r.
Proof.
  unfold _generate_mla.
  destruct (format_authors_mla_returns (authors m)) as [author_str ->]. cbn [bind].
  rewrite bool_decide_false by assumption. cbn [negb].
  destruct first_author as (a0 & s0 & -> & Hs0). cbn [bind]. rewrite Hs0.
  cbn [bind]. eauto.
Qed.

Lemma root_chicago_returns : exists r, _generate_chicago m = Return r.
Proof.
  unfold _generate_chicago.
  destruct (format_authors_apa_returns (authors m)) as [author_str ->]. cbn [bind].
  rewrite bool_decide_false by assumption. cbn [negb].
  destruct first_author as (a0 & s0 & -> & Hs0). cbn [bind]. rewrite Hs0.
  cbn [bind]. eauto.
Qed.

Lemma root_ieee_returns : exists r, _generate_ieee m = Return r.
Proof.
  unfold _generate_ieee. rewrite (ieee_authors_shape _ named). cbn [bind]. eauto.
Qed.

End RootTotal.

Lemma supported_style style :
  CitationStyle.supported style = true ->
  style = CitationStyle.APA \/ style = CitationStyle.MLA
  \/ style = CitationStyle.CHICAGO \/ style = CitationStyle.HARVARD
  \/ style = CitationStyle.IEEE.
Proof.
  unfold CitationStyle.supported. intros H. apply bool_decide_eq_true in H.
  rewrite !elem_of_cons, elem_of_nil in H. tauto.
Qed.

Lemma root_citation_returns m style :
  CitationStyle.supported style = true ->
  Citation.authors m <> [] ->
  Forall (fun a => Py.split a <> []) (Citation.authors m) ->
  exists r, Citation.generate_citation m style = Return r.
Proof.
  intros Hs Hne Hall.
  destruct (supported_style style Hs) as [-> | [-> | [-> | [-> | ->]]]].
  - exact (root_apa_returns m Hne Hall).
  - exact (root_mla_returns m Hne Hall).
  - exact (root_chicago_returns m Hne Hall).
  - exact (root_apa_returns m Hne Hall).
  - exact (root_ieee_returns m Hall).
Qed.

(** X14: the generator of [Citation.py] returns a citation in each
    of the five styles when the work has an author and every author has a
    word. *)
Theorem root_generator_returns m style :
  CitationStyle.supported style = true ->
  Citation.authors m <> [] ->
  Forall (fun a => Py.split a <> []) (Citation.authors m) ->
  exists r, Citation.generate_citation m style = Return r.
Proof. apply root_citation_returns. Qed.

(** X14: the theorem on the Harvard entry of a work of two authors. *)
Lemma root_generator_returns_witness :
  exists r,
    Citation.generate_citation
      (Citation.article "T" ["John Ronald Reuel Tolkien"; "Plato"] None None)
      CitationStyle.HARVARD = Return r.
Proof.
  apply root_generator_returns.
  - vm_compute. reflexivity.
  - discriminate.
  - repeat constructor; vm_compute; discriminate.
Defined.

Section RootRaises.
Import Citation.

Lemma item_raises {A} (l : list A) i e : Py.item l i = Raise e -> e = Py.index_error.
Proof. unfold Py.item. destruct (l !! i); [discriminate | congruence]. Qed.

Lemma surname_raises author e : surname author = Raise e -> e = Py.index_error.
Proof.
  unfold surname, Py.item_last. destruct (rev _); [congruence | discriminate].
Qed.

(** Close a goal [e = Py.index_error] from the equation of the call that
    raised. *)
Ltac index_error :=
  match goal with
  | H : Py.item _ _ = Raise ?e |- _ => injection 1 as <-; exact (item_raises _ _ _ H)
  | H : surname _ = Raise ?e |- _ => injection 1 as <-; exact (surname_raises _ _ H)
  | _ => discriminate
  end.

Variable m : SourceMetadata.

Lemma root_apa_raises e : _generate_apa m = Raise e -> e = Py.index_error.
Proof.
  unfold _generate_apa.
  destruct (format_authors_apa_returns (authors m)) as [author_str ->]. cbn [bind].
  destruct (length (authors m) =? 1)%nat; [| destruct (length (authors m) =? 2)%nat];
    run_binds; index_error.
Qed.

Lemma root_mla_raises e : _generate_mla m = Raise e -> e = Py.index_error.
Proof.
  unfold _generate_mla.
  destruct (format_authors_mla_returns (authors m)) as [author_str ->]. cbn [bind].
  destruct (negb _); run_binds; index_error.
Qed.

Lemma root_chicago_raises e : _generate_chicago m = Raise e -> e = Py.index_error.
Proof.
  unfold _generate_chicago.
  destruct (format_authors_apa_returns (authors m)) as [author_str ->]. cbn [bind].
  destruct (negb _); run_binds; index_error.
Qed.

Lemma ieee_author_raises author e : ieee_author author = Raise e -> e = Py.index_error.
Proof.
  unfold ieee_author.
  rewrite initials_total by apply Forall_but_last, split_words. cbn [bind].
  run_binds; index_error.
Qed.

Lemma mapM_raises {A B} (f : A -> outcome B) l e :
  mapM f l = Raise e -> exists x, x ∈ l /\ f x = Raise e.
Proof.
  induction l as [| x l IH]; simpl; [discriminate |].
  destruct (f x) as [y | e'] eqn:E; simpl.
  - destruct (mapM f l); simpl; [discriminate |].
    intros H. destruct (IH H) as (x' & Hin & Hx'). exists x'. split; [right |]; assumption.
  - intros [= <-]. exists x. split; [left | exact E].
Qed.

Lemma root_ieee_raises e : _generate_ieee m = Raise e -> e = Py.index_error.
Proof.
  unfold _generate_ieee, ieee_authors.
  destruct (mapM ieee_author _) eqn:E; cbn [bind]; [discriminate |].
  intros [= <-]. apply mapM_raises in E as (x & _ & Hx).
  exact (ieee_author_raises _ _ Hx).
Qed.

End RootRaises.

(** X15: for a supported style, the only exception the generator of
    [Citation.py] raises is [IndexError] ("list index out of range"), and
    then the work has no author or some author has no word. *)
Theorem root_generator_raises_index_error m style e :
  CitationStyle.supported style = true ->
  Citation.generate_citation m style = Raise e ->
  e = Py.index_error
  /\ (Citation.authors m = []
      \/ Exists (fun a => Py.split a = []) (Citation.authors m)).
Proof.
  intros Hs Hraise. split.
  - destruct (supported_style style Hs) as [-> | [-> | [-> | [-> | ->]]]].
    + exact (root_apa_raises m e Hraise).
    + exact (root_mla_raises m e Hraise).
    + exact (root_chicago_raises m e Hraise).
    + exact (root_apa_raises m e Hraise).
    + exact (root_ieee_raises m e Hraise).
  - destruct (decide (Citation.authors m = [])) as [Hnil | Hne]; [left; exact Hnil |].
    destruct (decide (Exists (fun a => Py.split a = []) (Citation.authors m)))
      as [Hblank | Hnone]; [right; exact Hblank |].
    assert (Forall (fun a => Py.split a <> []) (Citation.authors m)) as Hall.
    { apply Forall_forall. intros a Ha Hsplit. apply Hnone, Exists_exists. eauto. }
    destruct (root_citation_returns m style Hs Hne Hall) as [r Hr]. congruence.
Qed.

(** X15: the theorem on an author made of white space. *)
Lemma root_generator_raises_index_error_witness :
  Py.index_error = Py.index_error
  /\ (["Jane Doe"; "  "] = []
      \/ Exists (fun a => Py.split a = []) ["Jane Doe"; "  "]).
Proof.
  apply (root_generator_raises_index_error
           (Citation.article "T" ["Jane Doe"; "  "] (Some 2024%Z) None)
           CitationStyle.APA Py.index_error).
  - vm_compute. reflexivity.
  - vm_compute. reflexivity.
Defined.

(* ===================================================================== *)
(** * The author strings of APA and MLA *)
(* ===================================================================== *)

Section AuthorNames.
Import Citation.

Variables (given : list string) (last : string).
Hypothesis given_words : Forall word given.
Hypothesis some_given : given <> [].
Hypothesis last_word : word last.

Lemma name_words : Py.split (Py.join " " (given ++ [last])) = (given ++ [last])%list.
Proof.
  apply split_join_words, Forall_app. split; [exact given_words |].
  constructor; [exact last_word | constructor].
Qed.

Lemma name_length : (2 <=? length (given ++ [last]))%nat = true.
Proof.
  apply Nat.leb_le. rewrite length_app. simpl.
  destruct given; [congruence | simpl; lia].
Qed.

Lemma given_not_empty : Forall (fun w => w <> "") given.
Proof. eapply Forall_impl; [exact given_words |]. intros w [Hw _]. exact Hw. Qed.

Lemma apa_author_name :
  apa_author (Py.join " " (given ++ [last]))
  = Return (last +:+ ", " +:+ Py.join "" (map initial given)).
Proof.
  unfold apa_author. rewrite name_words, name_length, item_last_snoc, but_last_snoc.
  cbn [bind]. rewrite (initials_total _ given_not_empty). reflexivity.
Qed.

Lemma mla_first_name :
  mla_first (Py.join " " (given ++ [last]))
  = Return (last +:+ ", " +:+ Py.join " " given).
Proof.
  unfold mla_first. rewrite name_words, name_length, item_last_snoc, but_last_snoc.
  reflexivity.
Qed.

End AuthorNames.

Section AuthorLists.
Import Citation.

Lemma format_authors_apa_names authors :
  exists names,
    mapM apa_author (take 20 authors) = Return names
    /\ length names = Nat.min 20 (length authors)
    /\ _format_authors_apa authors
       = Return match names with
                | [] => ""
                | [a] => a
                | [a; b] => a +:+ ", & " +:+ b
                | _ => Py.join ", " (removelast names) +:+ ", & " +:+ List.last names ""
                end.
Proof.
  destruct (mapM_returns apa_author (take 20 authors) apa_author_returns)
    as (names & Hnames & Hlen).
  rewrite length_take in Hlen.
  exists names. split; [exact Hnames |]. split; [exact Hlen |].
  unfold _format_authors_apa. rewrite Hnames.
  destruct authors as [| a0 [| a1 [| a2 l]]].
  - destruct names; [reflexivity | discriminate].
  - destruct names as [| x [| ? ?]]; try discriminate. reflexivity.
  - destruct names as [| x [| y [| ? ?]]]; try discriminate. reflexivity.
  - rewrite bool_decide_false by discriminate. cbn [bind].
    assert (3 <= length names) as H3 by (simpl in Hlen; lia).
    clear Hnames Hlen.
    destruct names as [| x front _] using rev_ind; [simpl in H3; lia |].
    rewrite item_last_snoc, last_last.
    unfold Py.but_last. rewrite removelast_last.
    rewrite length_app in H3. simpl in H3.
    destruct front as [| y [| z [| w l']]]; simpl in H3; try lia; reflexivity.
Qed.

Lemma format_authors_apa_cap authors :
  20 <= length authors ->
  _format_authors_apa authors = _format_authors_apa (take 20 authors).
Proof.
  intros Hlen. unfold _format_authors_apa.
  assert (length (take 20 authors) = 20) as Htake by (rewrite length_take; lia).
  rewrite take_take, Nat.min_id.
  rewrite !bool_decide_false; cycle 1.
  { intros E. rewrite E in Htake. discriminate. }
  { intros E. rewrite E in Hlen. simpl in Hlen. lia. }
  rewrite Htake.
  destruct (Nat.eqb_spec (length authors) 1) as [H1 | _]; [lia |].
  destruct (Nat.eqb_spec (length authors) 2) as [H2 | _]; [lia |].
  reflexivity.
Qed.

End AuthorLists.

(** X16: the APA author string: a name of several words becomes its
    last word, a comma and the initials of the others with no space
    between them; two names are joined by ", & ", more by commas with
    ", & " before the last; authors after the twentieth are left out. *)
Theorem apa_author_list :
  (forall given last,
     Forall word given -> given <> [] -> word last ->
     Citation.apa_author (Py.join " " (given ++ [last]))
     = Return (last +:+ ", " +:+ Py.join "" (map initial given)))
  /\ (forall authors,
        exists names,
          mapM Citation.apa_author (take 20 authors) = Return names
          /\ length names = Nat.min 20 (length authors)
          /\ Citation._format_authors_apa authors
             = Return match names with
                      | [] => ""
                      | [a] => a
                      | [a; b] => a +:+ ", & " +:+ b
                      | _ => Py.join ", " (removelast names) +:+ ", & "
                               +:+ List.last names ""
                      end)
  /\ (forall authors,
        20 <= length authors ->
        Citation._format_authors_apa authors
        = Citation._format_authors_apa (take 20 authors)).
Proof.
  split; [exact apa_author_name |].
  split; [exact format_authors_apa_names | exact format_authors_apa_cap].
Qed.

(** X16: the theorem on a name of four words and on twenty-two authors. *)
Lemma apa_author_list_witness :
  Citation.apa_author "John Ronald Reuel Tolkien" = Return "Tolkien, J.R.R."
  /\ Citation._format_authors_apa (replicate 20 "Ann Lee" ++ ["Bob Ray"; "Cy Orr"])%list
     = Citation._format_authors_apa (replicate 20 "Ann Lee").
Proof.
  split.
  - apply (proj1 apa_author_list ["John"; "Ronald"; "Reuel"] "Tolkien").
    + repeat constructor; discriminate.
    + discriminate.
    + repeat constructor; discriminate.
  - apply (proj2 (proj2 apa_author_list) (replicate 20 "Ann Lee" ++ ["Bob Ray"; "Cy Orr"])%list).
    simpl. lia.
Defined.

(** X17: the MLA author string: the first author becomes "Last,
    First Middle"; a second author is added as written after ", and"; with
    three authors or more the others are replaced by ", et al.". *)
Theorem mla_author_list :
  (forall given last,
     Forall word given -> given <> [] -> word last ->
     Citation.mla_first (Py.join " " (given ++ [last]))
     = Return (last +:+ ", " +:+ Py.join " " given))
  /\ (forall first second,
        exists first_formatted,
          Citation.mla_first first = Return first_formatted
          /\ Citation._format_authors_mla [first; second]
             = Return (first_formatted +:+ ", and " +:+ second))
  /\ (forall first others,
        2 <= length others ->
        exists first_formatted,
          Citation.mla_first first = Return first_formatted
          /\ Citation._format_authors_mla (first :: others)
             = Return (first_formatted +:+ ", et al.")).
Proof.
  split; [exact mla_first_name |]. split.
  - intros first second. destruct (mla_first_returns first) as [f Hf].
    exists f. split; [exact Hf |]. unfold Citation._format_authors_mla.
    rewrite bool_decide_false by discriminate. cbn [length Nat.eqb Py.item lookup list_lookup bind].
    rewrite Hf. reflexivity.
  - intros first others Hlen. destruct (mla_first_returns first) as [f Hf].
    exists f. split; [exact Hf |].
    destruct others as [| b [| c l]]; simpl in Hlen; try lia.
    unfold Citation._format_authors_mla.
    rewrite bool_decide_false by discriminate. cbn [length Nat.eqb Py.item lookup list_lookup bind].
    rewrite Hf. reflexivity.
Qed.

(** X17: the theorem on a name of four words and on three authors. *)
Lemma mla_author_list_witness :
  Citation.mla_first "Ursula Kroeber Le Guin" = Return "Guin, Ursula Kroeber Le"
  /\ exists first_formatted,
       Citation.mla_first "A B" = Return first_formatted
       /\ Citation._format_authors_mla ["A B"; "C D"; "E F"]
          = Return (first_formatted +:+ ", et al.").
Proof.
  split.
  - apply (proj1 mla_author_list ["Ursula"; "Kroeber"; "Le"] "Guin").
    + repeat constructor; discriminate.
    + discriminate.
    + repeat constructor; discriminate.
  - apply (proj2 (proj2 mla_author_list) "A B" ["C D"; "E F"]). simpl. lia.
Defined.

(* ===================================================================== *)
(** * Occurrences of a text in another *)
(* ===================================================================== *)

Section Occurrences.

#[local] Arguments String.append !_ _ / : simpl nomatch.

(** [c not in s] *)
#[local] Abbreviation lacks c s := (Py.is_in (String c "") s = false).

Lemma lacks_cons c d s : lacks c (String d s) <-> c <> d /\ lacks c s.
Proof.
  simpl. rewrite orb_false_iff, andb_true_r.
  rewrite bool_decide_eq_false. tauto.
Qed.

Lemma lacks_append c a b : lacks c (a +:+ b) <-> lacks c a /\ lacks c b.
Proof.
  induction a as [| d a IH]; simpl String.append.
  - split; [intros H; split; [reflexivity | exact H] | tauto].
  - rewrite !lacks_cons, IH. tauto.
Qed.

Lemma is_in_cons w c s :
  Py.is_in w (String c s) = false
  <-> Py.startswith w (String c s) = false /\ Py.is_in w s = false.
Proof. simpl. rewrite orb_false_iff. reflexivity. Qed.

Lemma is_in_empty w : w <> "" -> Py.is_in w "" = false.
Proof. destruct w; [congruence | reflexivity]. Qed.

(** A match that begins before a character the pattern lacks ends before
    it. *)
Lemma startswith_before w u c x :
  lacks c w -> Py.startswith w (u +:+ String c x) = true -> Py.startswith w u = true.
Proof.
  revert u. induction w as [| a w IH]; intros u Hc; [reflexivity |].
  apply lacks_cons in Hc as [Hca Hw].
  destruct u as [| b u]; simpl.
  - rewrite andb_true_iff, bool_decide_eq_true. intros [-> _]. congruence.
  - rewrite !andb_true_iff. intros [Hab Hrest]. split; [exact Hab |].
    exact (IH u Hw Hrest).
Qed.

(** Two texts without the pattern, joined by a character the pattern
    lacks. *)
Lemma is_in_joined w a c b :
  w <> "" -> lacks c w ->
  Py.is_in w a = false -> Py.is_in w b = false ->
  Py.is_in w (a +:+ String c b) = false.
Proof.
  intros Hw Hc Ha Hb. induction a as [| d a IH]; simpl String.append.
  - apply is_in_cons. split; [| exact Hb].
    destruct w as [| a0 w]; [congruence |].
    apply lacks_cons in Hc as [Hca _]. simpl.
    rewrite bool_decide_false by congruence. reflexivity.
  - apply is_in_cons in Ha as [Hstart Ha]. apply is_in_cons. split; [| exact (IH Ha)].
    destruct (Py.startswith w (String d (a +:+ String c b))) eqn:E; [| reflexivity].
    change (String d (a +:+ String c b)) with (String d a +:+ String c b) in E.
    apply (startswith_before _ _ _ _ Hc) in E. congruence.
Qed.

Lemma is_in_lines w c pieces :
  w <> "" -> lacks c w ->
  Forall (fun piece => Py.is_in w piece = false) pieces ->
  Py.is_in w (Py.join (String c "") pieces) = false.
Proof.
  intros Hw Hc. induction 1 as [| piece pieces Hp _ IH]; [exact (is_in_empty w Hw) |].
  destruct pieces as [| piece' pieces]; [exact Hp |].
  change (Py.join (String c "") (piece :: piece' :: pieces))
    with (piece +:+ String c "" +:+ Py.join (String c "") (piece' :: pieces)).
  simpl String.append. apply is_in_joined; assumption.
Qed.

(** The characters of a match are characters of the text. *)
Lemma startswith_lacks w s c : Py.startswith w s = true -> lacks c s -> lacks c w.
Proof.
  revert s. induction w as [| a w IH]; intros s; [reflexivity |].
  destruct s as [| b s]; [discriminate |]. simpl Py.startswith.
  rewrite andb_true_iff, bool_decide_eq_true. intros [-> Hrest] Hs.
  apply lacks_cons in Hs as [Hcb Hs]. apply lacks_cons. split; [exact Hcb |].
  exact (IH s Hrest Hs).
Qed.

Lemma is_in_lacking w s c :
  Py.is_in (String c "") w = true -> lacks c s -> Py.is_in w s = false.
Proof.
  intros Hw. induction s as [| d s IH]; intros Hs.
  - simpl. rewrite orb_false_r. destruct w; [discriminate | reflexivity].
  - apply is_in_cons. pose proof Hs as Hs'. apply lacks_cons in Hs' as [_ Hs'].
    split; [| exact (IH Hs')].
    destruct (Py.startswith w (String d s)) eqn:E; [| reflexivity].
    rewrite (startswith_lacks _ _ _ E Hs) in Hw. discriminate.
Qed.

Lemma startswith_prefix w x s :
  Py.startswith (w +:+ x) s = true -> Py.startswith w s = true.
Proof.
  revert s. induction w as [| a w IH]; intros s; [reflexivity |].
  destruct s as [| b s]; [discriminate |]. simpl.
  rewrite !andb_true_iff. intros [Hab Hrest]. split; [exact Hab | exact (IH s Hrest)].
Qed.

(** A text without a pattern is without the longer patterns. *)
Lemma is_in_longer w x s : Py.is_in w s = false -> Py.is_in (w +:+ x) s = false.
Proof.
  induction s as [| c s IH].
  - simpl. rewrite !orb_false_r. intros H.
    destruct (Py.startswith (w +:+ x) "") eqn:E; [| reflexivity].
    apply startswith_prefix in E. congruence.
  - rewrite !is_in_cons. intros [Hstart Hs]. split; [| exact (IH Hs)].
    destruct (Py.startswith (w +:+ x) (String c s)) eqn:E; [| reflexivity].
    apply startswith_prefix in E. congruence.
Qed.

(** ** [split] with a separator of several characters *)

Lemma split_by_from_none w cur s :
  Py.is_in w s = false -> PyStr.split_by_from w 0 cur s = [cur +:+ s].
Proof.
  revert cur. induction s as [| c s IH]; intros cur Hs; simpl.
  - rewrite append_nil_r. reflexivity.
  - apply is_in_cons in Hs as [Hstart Hs]. simpl in Hstart. rewrite Hstart.
    rewrite (IH _ Hs), append_assoc. reflexivity.
Qed.

Lemma split_by_from_skip w t cur rest :
  PyStr.split_by_from w (String.length t) cur (t +:+ rest)
  = PyStr.split_by_from w 0 cur rest.
Proof.
  induction t as [| c t IH]; simpl; [| exact IH].
  destruct rest; reflexivity.
Qed.

(** The first separator of a text: it follows a piece without separator
    that ends with a character the separator lacks. *)
Lemma split_by_from_first w cur piece c rest :
  w <> "" -> lacks c w -> Py.is_in w piece = false ->
  PyStr.split_by_from w 0 cur (piece +:+ String c (w +:+ rest))
  = (cur +:+ piece +:+ String c "") :: PyStr.split_by_from w 0 "" rest.
Proof.
  intros Hw Hc. revert cur. induction piece as [| d piece IH]; intros cur Hp.
  - destruct w as [| a w]; [congruence |].
    pose proof Hc as Hc'. apply lacks_cons in Hc' as [Hca _].
    simpl String.append. cbn [PyStr.split_by_from].
    assert (Py.startswith (String a w) (String c (String a (w +:+ rest))) = false) as ->.
    { simpl. rewrite bool_decide_false by congruence. reflexivity. }
    cbn [PyStr.split_by_from].
    pose proof (startswith_append (String a w) rest) as Hstart.
    simpl String.append in Hstart. rewrite Hstart.
    replace (String.length (String a w) - 1) with (String.length w) by (simpl; lia).
    rewrite split_by_from_skip. reflexivity.
  - apply is_in_cons in Hp as [Hstart Hp].
    simpl String.append. cbn [PyStr.split_by_from].
    assert (Py.startswith w (String d (piece +:+ String c (w +:+ rest))) = false) as ->.
    { destruct (Py.startswith w (String d (piece +:+ String c (w +:+ rest)))) eqn:E;
        [| reflexivity].
      change (String d (piece +:+ String c (w +:+ rest)))
        with (String d piece +:+ String c (w +:+ rest)) in E.
      apply (startswith_before _ _ _ _ Hc) in E. congruence. }
    rewrite (IH _ Hp). rewrite !append_assoc. reflexivity.
Qed.

Lemma split_once_first c before after :
  lacks c before ->
  PyStr.split_once c (before +:+ String c after) = [before; after].
Proof.
  induction before as [| d before IH]; intros Hb; simpl.
  - rewrite bool_decide_true by reflexivity. reflexivity.
  - apply lacks_cons in Hb as [Hcd Hb].
    rewrite bool_decide_false by congruence. rewrite (IH Hb). reflexivity.
Qed.

(** ** [strip] *)

Lemma rstrip_blank_end s blank :
  PyStr.rstrip blank = "" -> PyStr.rstrip (s +:+ blank) = PyStr.rstrip s.
Proof.
  intros Hb. induction s as [| c s IH]; simpl; [exact Hb |].
  rewrite IH. reflexivity.
Qed.

Lemma lstrip_length s : String.length (PyStr.lstrip s) <= String.length s.
Proof.
  induction s as [| c s IH]; simpl; [lia |].
  destruct (Py.isspace c); simpl; lia.
Qed.

Lemma lstrip_append s blank :
  s <> "" -> PyStr.lstrip s = s -> PyStr.lstrip (s +:+ blank) = s +:+ blank.
Proof.
  destruct s as [| c s]; [congruence |]. intros _. simpl.
  destruct (Py.isspace c); [| reflexivity].
  intros H. pose proof (lstrip_length s) as Hlen. rewrite H in Hlen. simpl in Hlen. lia.
Qed.

Lemma strip_blank_end s blank :
  PyStr.lstrip s = s -> PyStr.rstrip s = s -> PyStr.strip blank = "" ->
  PyStr.rstrip blank = "" ->
  PyStr.strip (s +:+ blank) = s.
Proof.
  intros Hl Hr Hb Hb'. destruct (decide (s = "")) as [-> | Hne]; [exact Hb |].
  unfold PyStr.strip. rewrite (lstrip_append _ _ Hne Hl), (rstrip_blank_end _ _ Hb').
  exact Hr.
Qed.

End Occurrences.


(* ===================================================================== *)
(** * The in-text citations of the service *)
(* ===================================================================== *)

Section BeforeTheComma.

#[local] Arguments String.append !_ _ / : simpl nomatch.
#[local] Abbreviation lacks c s := (Py.is_in (String c "") s = false).

Lemma split_on_whole sep s : lacks sep s -> Py.split_on sep s = [s].
Proof.
  induction s as [| c s IH]; intros Hs; [reflexivity |].
  apply lacks_cons in Hs as [Hc Hs]. simpl.
  destruct (decide (c = sep)); [congruence |]. rewrite (IH Hs). reflexivity.
Qed.

Lemma split_on_first sep before after :
  lacks sep before ->
  exists rest, Py.split_on sep (before +:+ String sep after) = before :: rest.
Proof.
  induction before as [| c before IH]; intros Hb; simpl.
  - destruct (decide (sep = sep)); [eauto | congruence].
  - apply lacks_cons in Hb as [Hc Hb]. destruct (decide (c = sep)); [congruence |].
    destruct (IH Hb) as [rest ->]. eauto.
Qed.

(** [s.split(',')[0]] when [s] is [before] or [before] and a comma. *)
Lemma before_comma before s :
  lacks "," before ->
  s = before \/ (exists after, s = before +:+ String "," after) ->
  Py.item (Py.split_on "," s) 0 = Return before.
Proof.
  intros Hb [-> | [after ->]].
  - rewrite (split_on_whole _ _ Hb). reflexivity.
  - destruct (split_on_first _ _ after Hb) as [rest ->]. reflexivity.
Qed.

Lemma is_in_comma before s :
  lacks "," before ->
  s = before \/ (exists after, s = before +:+ String "," after) ->
  (if Py.is_in "," s then Py.item (Py.split_on "," s) 0 else Return s) = Return before.
Proof.
  intros Hb Hs. destruct (Py.is_in "," s) eqn:E; [exact (before_comma _ _ Hb Hs) |].
  destruct Hs as [-> | [after ->]]; [reflexivity |].
  apply lacks_append in E as [_ E]. apply lacks_cons in E as [E _]. congruence.
Qed.

Lemma lacks_join c ws :
  lacks c " " -> Forall (fun w => lacks c w) ws -> lacks c (Py.join " " ws).
Proof.
  intros Hc. induction 1 as [| w ws Hw _ IH]; [reflexivity |].
  destruct ws as [| w' ws]; [exact Hw |].
  change (Py.join " " (w :: w' :: ws)) with (w +:+ " " +:+ Py.join " " (w' :: ws)).
  rewrite !lacks_append. tauto.
Qed.

End BeforeTheComma.

Section ServiceInText.
Import ServiceCitation.

#[local] Arguments String.append !_ _ / : simpl nomatch.
#[local] Abbreviation lacks c s := (Py.is_in (String c "") s = false).

Variables (m : metadata) (given : list string) (last : string) (others : list string).

#[local] Abbreviation first_author := (Py.join " " (given ++ [last])).

Hypothesis authors_given : authors m = Val (first_author :: others).
Hypothesis given_words : Forall word given.
Hypothesis last_word : word last.
Hypothesis given_plain : Forall (fun w => lacks "," w) given.
Hypothesis last_plain : lacks "," last.

Lemma service_authors : get_authors m = Some (first_author :: others).
Proof. unfold get_authors. rewrite authors_given. reflexivity. Qed.

Lemma first_author_plain : lacks "," first_author.
Proof.
  apply lacks_join; [reflexivity |]. apply Forall_app. split; [exact given_plain |].
  constructor; [exact last_plain | constructor].
Qed.

(** The first author in the APA shape: the last word, followed by a comma
    when there are given names. *)
Lemma apa_first_author :
  exists name,
    Citation.apa_author first_author = Return name
    /\ (name = last \/ exists after, name = last +:+ String "," after).
Proof.
  destruct given as [| g gs] eqn:Eg.
  - exists last. split; [| left; reflexivity].
    change (Py.join " " ([] ++ [last])) with (Py.join " " [last]).
    unfold Citation.apa_author.
    rewrite (split_join_words [last]) by (constructor; [exact last_word | constructor]).
    reflexivity.
  - rewrite <- Eg in *. eexists. split.
    + apply apa_author_name; [exact given_words | rewrite Eg; discriminate | exact last_word].
    + right. eexists. reflexivity.
Qed.

Lemma mla_first_author :
  exists name,
    Citation.mla_first first_author = Return name
    /\ (name = last \/ exists after, name = last +:+ String "," after).
Proof.
  destruct given as [| g gs] eqn:Eg.
  - exists last. split; [| left; reflexivity].
    change (Py.join " " ([] ++ [last])) with (Py.join " " [last]).
    unfold Citation.mla_first.
    rewrite (split_join_words [last]) by (constructor; [exact last_word | constructor]).
    reflexivity.
  - rewrite <- Eg in *. eexists. split.
    + apply mla_first_name; [exact given_words | rewrite Eg; discriminate | exact last_word].
    + right. eexists. reflexivity.
Qed.

(** A text that begins with [name] begins with [last]. *)
Lemma begins_with_last name text :
  name = last \/ (exists after, name = last +:+ String "," after) ->
  text = name \/ (exists after, text = name +:+ String "," after) ->
  text = last \/ (exists after, text = last +:+ String "," after).
Proof.
  intros [-> | [after ->]] [-> | [after' ->]]; eauto.
  right. eexists. rewrite append_assoc. reflexivity.
Qed.

Lemma apa_author_string :
  exists author_str,
    _format_authors_apa (first_author :: others) = Return author_str
    /\ (author_str = last \/ exists after, author_str = last +:+ String "," after).
Proof.
  destruct apa_first_author as (name & Hname & Hshape).
  destruct (format_authors_apa_names (first_author :: others))
    as (names & Hnames & Hlen & Hstr).
  change (take 20 (first_author :: others)) with (first_author :: take 19 others) in Hnames.
  cbn [mapM] in Hnames. rewrite Hname in Hnames. cbn [bind] in Hnames.
  destruct (mapM Citation.apa_author (take 19 others)) as [more |]; [| discriminate].
  injection Hnames as <-.
  exists (match name :: more with
          | [] => ""
          | [a] => a
          | [a; b] => a +:+ ", & " +:+ b
          | _ => Py.join ", " (removelast (name :: more)) +:+ ", & "
                   +:+ List.last (name :: more) ""
          end).
  split; [exact Hstr |]. apply (begins_with_last name); [exact Hshape |].
  destruct more as [| b [| c more]].
  - left. reflexivity.
  - right. eexists. reflexivity.
  - right. cbn [removelast]. destruct (removelast (c :: more)) eqn:E.
    + eexists. cbn [Py.join]. rewrite !append_assoc. reflexivity.
    + eexists. cbn [Py.join]. rewrite !append_assoc. reflexivity.
Qed.

Lemma mla_author_string :
  exists author_str,
    _format_authors_mla (first_author :: others) = Return author_str
    /\ (author_str = last \/ exists after, author_str = last +:+ String "," after).
Proof.
  destruct mla_first_author as (name & Hname & Hshape).
  unfold _format_authors_mla, Citation._format_authors_mla.
  rewrite bool_decide_false by discriminate.
  destruct others as [| b [| c more]];
    cbn [length Nat.eqb Py.item lookup list_lookup bind]; rewrite Hname; cbn [bind].
  - eexists. split; [reflexivity | exact Hshape].
  - eexists. split; [reflexivity |]. apply (begins_with_last name); [exact Hshape |].
    right. eexists. reflexivity.
  - eexists. split; [reflexivity |]. apply (begins_with_last name); [exact Hshape |].
    right. eexists. reflexivity.
Qed.

Lemma joined_author_string :
  joined_authors m = first_author
  \/ exists after, joined_authors m = first_author +:+ String "," after.
Proof.
  unfold joined_authors. rewrite service_authors.
  destruct others as [| b more]; [left; reflexivity |].
  right. eexists. reflexivity.
Qed.

Lemma service_in_text_apa :
  exists r, _generate_apa m = Return r
            /\ in_text r = "(" +:+ last +:+ " " +:+ fmt_year (year m) "n.d." +:+ ")".
Proof.
  unfold _generate_apa. rewrite service_authors.
  destruct apa_author_string as (author_str & -> & Hshape). cbn [bind].
  rewrite (before_comma last author_str last_plain Hshape). cbn [bind].
  eexists. split; reflexivity.
Qed.

Lemma service_in_text_mla :
  exists r, _generate_mla m = Return r /\ in_text r = "(" +:+ last +:+ ")".
Proof.
  unfold _generate_mla. rewrite service_authors.
  destruct mla_author_string as (author_str & -> & Hshape). cbn [bind].
  rewrite (is_in_comma last author_str last_plain Hshape). cbn [bind].
  eexists. split; reflexivity.
Qed.

Lemma service_in_text_chicago :
  exists r, _generate_chicago m = Return r
            /\ in_text r
               = "(" +:+ first_author +:+ " " +:+ fmt_year (year m) "n.d." +:+ ")".
Proof.
  unfold _generate_chicago.
  rewrite (before_comma first_author _ first_author_plain joined_author_string).
  cbn [bind]. eexists. split; reflexivity.
Qed.

Lemma service_in_text_harvard :
  exists r, _generate_harvard m = Return r
            /\ in_text r
               = "(" +:+ first_author +:+ " " +:+ fmt_year (year m) "n.d." +:+ ")".
Proof.
  unfold _generate_harvard.
  rewrite (before_comma first_author _ first_author_plain joined_author_string).
  cbn [bind]. eexists. split; reflexivity.
Qed.

End ServiceInText.

(** X18: in the service, when the first author is written as words
    without comma separated by single spaces, the in-text citation is the
    last word of the name and the year in APA, the last word alone in MLA,
    and the whole name as written and the year in Chicago and Harvard. *)
Theorem service_in_text_citations m given last others :
  ServiceCitation.authors m = Val (Py.join " " (given ++ [last]) :: others) ->
  Forall word given -> word last ->
  Forall (fun w => Py.is_in "," w = false) given -> Py.is_in "," last = false ->
  let year := ServiceCitation.fmt_year (ServiceCitation.year m) "n.d." in
  (exists r, ServiceCitation.generate_citation m CitationStyle.APA = Return r
             /\ in_text r = "(" +:+ last +:+ " " +:+ year +:+ ")")
  /\ (exists r, ServiceCitation.generate_citation m CitationStyle.MLA = Return r
                /\ in_text r = "(" +:+ last +:+ ")")
  /\ (exists r, ServiceCitation.generate_citation m CitationStyle.CHICAGO = Return r
                /\ in_text r
                   = "(" +:+ Py.join " " (given ++ [last]) +:+ " " +:+ year +:+ ")")
  /\ (exists r, ServiceCitation.generate_citation m CitationStyle.HARVARD = Return r
                /\ in_text r
                   = "(" +:+ Py.join " " (given ++ [last]) +:+ " " +:+ year +:+ ")").
Proof.
  intros Ha Hg Hl Hgp Hlp year.
  split; [eapply service_in_text_apa; eassumption |].
  split; [eapply service_in_text_mla; eassumption |].
  split; [eapply service_in_text_chicago; eassumption |].
  eapply service_in_text_harvard; eassumption.
Qed.

(** X18: the theorem on three authors, the first of three words. *)
Lemma service_in_text_citations_witness :
  let m := ServiceCitation.request "T" ["Jane Q Doe"; "John Smith"; "Plato"]
             (Some 2024%Z) (Some "J") in
  (exists r, ServiceCitation.generate_citation m CitationStyle.APA = Return r
             /\ in_text r = "(Doe 2024)")
  /\ (exists r, ServiceCitation.generate_citation m CitationStyle.MLA = Return r
                /\ in_text r = "(Doe)")
  /\ (exists r, ServiceCitation.generate_citation m CitationStyle.CHICAGO = Return r
                /\ in_text r = "(Jane Q Doe 2024)")
  /\ (exists r, ServiceCitation.generate_citation m CitationStyle.HARVARD = Return r
                /\ in_text r = "(Jane Q Doe 2024)").
Proof.
  intros m.
  apply (service_in_text_citations m ["Jane"; "Q"] "Doe" ["John Smith"; "Plato"]).
  - reflexivity.
  - repeat constructor; discriminate.
  - repeat constructor; discriminate.
  - repeat constructor.
  - reflexivity.
Defined.

(* ===================================================================== *)
(** * The route [generate_citation] *)
(* ===================================================================== *)

Section StyleNames.
Import AnalysisRoutes.

Lemma upper_lower_char c : PyStr.upper_char (Py.lower_char c) = PyStr.upper_char c.
Proof. destruct c as [[] [] [] [] [] [] [] []]; vm_compute; reflexivity. Qed.

Lemma upper_upper_char c : PyStr.upper_char (PyStr.upper_char c) = PyStr.upper_char c.
Proof. destruct c as [[] [] [] [] [] [] [] []]; vm_compute; reflexivity. Qed.

Lemma upper_lower s : PyStr.upper (Py.lower s) = PyStr.upper s.
Proof.
  induction s as [| c s IH]; simpl; [reflexivity |].
  rewrite upper_lower_char, IH. reflexivity.
Qed.

Lemma upper_upper s : PyStr.upper (PyStr.upper s) = PyStr.upper s.
Proof.
  induction s as [| c s IH]; simpl; [reflexivity |].
  rewrite upper_upper_char, IH. reflexivity.
Qed.

Lemma style_by_name_supported name style :
  style_by_name name = Some style -> CitationStyle.supported style = true.
Proof.
  unfold style_by_name.
  repeat (destruct (bool_decide _); [intros [= <-]; vm_compute; reflexivity |]).
  discriminate.
Qed.

Lemma resolve_style_supported citation_style :
  CitationStyle.supported (resolve_style citation_style) = true.
Proof.
  unfold resolve_style.
  destruct (style_by_name _) as [style |] eqn:E; simpl.
  - exact (style_by_name_supported _ _ E).
  - vm_compute. reflexivity.
Qed.

End StyleNames.

(** X19: the route [generate_citation] never answers with an error:
    it returns the full entry of the service for the resolved style, which
    is one of the five, and repeats the style of the request as it was
    written. *)
Theorem citation_route_answers request :
  exists entry,
    ServiceCitation.generate_citation (AnalysisRoutes.citation_metadata request)
      (AnalysisRoutes.resolve_style (AnalysisRoutes.citation_style request))
    = Return entry
    /\ AnalysisRoutes.generate_citation request
       = Ok {| AnalysisRoutes.formatted_citation := full entry;
               AnalysisRoutes.style := AnalysisRoutes.citation_style request |}
    /\ CitationStyle.supported
         (AnalysisRoutes.resolve_style (AnalysisRoutes.citation_style request)) = true.
Proof.
  destruct (service_generate_returns (AnalysisRoutes.citation_metadata request)
              (AnalysisRoutes.resolve_style (AnalysisRoutes.citation_style request)))
    as [entry Hentry].
  exists entry. split; [exact Hentry |]. split.
  - unfold AnalysisRoutes.generate_citation. rewrite Hentry. reflexivity.
  - apply resolve_style_supported.
Qed.

(** X20: the route resolves the style by its upper-cased name, so
    the case of the request does not matter ("chicago" is Chicago); a name
    that is none of the five gives the APA entry, the answer still
    repeating the name of the request. *)
Theorem citation_style_name_resolution :
  (forall citation_style,
     AnalysisRoutes.resolve_style (Py.lower citation_style)
     = AnalysisRoutes.resolve_style citation_style
     /\ AnalysisRoutes.resolve_style (PyStr.upper citation_style)
        = AnalysisRoutes.resolve_style citation_style)
  /\ (forall citation_style,
        AnalysisRoutes.style_by_name (PyStr.upper citation_style) = None ->
        forall request,
          AnalysisRoutes.generate_citation
            (AnalysisRoutes.with_style request citation_style)
          = match AnalysisRoutes.generate_citation
                    (AnalysisRoutes.with_style request "APA") with
            | Ok body =>
                Ok {| AnalysisRoutes.formatted_citation :=
                        AnalysisRoutes.formatted_citation body;
                      AnalysisRoutes.style := citation_style |}
            | HTTPException status_code detail => HTTPException status_code detail
            end)
  /\ AnalysisRoutes.resolve_style "chicago" = CitationStyle.CHICAGO
  /\ AnalysisRoutes.resolve_style "Harvard" = CitationStyle.HARVARD.
Proof.
  split; [| split; [| split; reflexivity]].
  - intros citation_style. unfold AnalysisRoutes.resolve_style.
    rewrite upper_lower, upper_upper. split; reflexivity.
  - intros citation_style Hnone request. unfold AnalysisRoutes.generate_citation.
    cbn [AnalysisRoutes.citation_style AnalysisRoutes.with_style].
    unfold AnalysisRoutes.resolve_style at 1. rewrite Hnone.
    change (AnalysisRoutes.resolve_style "APA") with CitationStyle.APA.
    change (default CitationStyle.APA None) with CitationStyle.APA.
    change (AnalysisRoutes.citation_metadata (AnalysisRoutes.with_style request citation_style))
      with (AnalysisRoutes.citation_metadata (AnalysisRoutes.with_style request "APA")).
    destruct (ServiceCitation.generate_citation _ _); reflexivity.
Qed.

(** X20: the theorem on the style "Vancouver". *)
Lemma citation_style_name_resolution_witness :
  let request :=
    {| AnalysisRoutes.title := "T"; AnalysisRoutes.authors := ["Jane Doe"];
       AnalysisRoutes.year := Some 2024%Z; AnalysisRoutes.publication_name := Some "J";
       AnalysisRoutes.volume := None; AnalysisRoutes.issue := None;
       AnalysisRoutes.pages := None; AnalysisRoutes.url := None;
       AnalysisRoutes.doi := None; AnalysisRoutes.source_type := "article";
       AnalysisRoutes.citation_style := "Vancouver" |} in
  AnalysisRoutes.generate_citation request
  = Ok {| AnalysisRoutes.formatted_citation := "Doe, J. (2024). T. J.";
          AnalysisRoutes.style := "Vancouver" |}.
Proof.
  intros request.
  exact (proj1 (proj2 citation_style_name_resolution) "Vancouver" eq_refl request).
Defined.

Section MissingPublication.
Import ServiceCitation.

Variable m : metadata.
Hypothesis no_publication : publication_name m = Null.

(** The place of the publication name in an entry. *)
Ltac none_slot :=
  lazymatch goal with
  | |- occurs_in _ (full {| full := ?entry; in_text := _ |}) =>
      let before := before_of constr:("None") entry in
      cbn [full]; exists before; eexists; rewrite ?append_assoc; reflexivity
  end.

Lemma service_apa_none :
  exists r, _generate_apa m = Return r /\ occurs_in "None" (full r).
Proof.
  destruct (service_apa_returns m) as [r Hr]. exists r. split; [exact Hr |].
  revert Hr. unfold _generate_apa. rewrite no_publication.
  change (fmt_get Null) with "None".
  run_binds; returned; none_slot.
Qed.

Lemma service_mla_none :
  exists r, _generate_mla m = Return r /\ occurs_in "None" (full r).
Proof.
  destruct (service_mla_returns m) as [r Hr]. exists r. split; [exact Hr |].
  revert Hr. unfold _generate_mla. rewrite no_publication.
  change (fmt_get Null) with "None".
  run_binds; returned; none_slot.
Qed.

Lemma service_chicago_none :
  exists r, _generate_chicago m = Return r /\ occurs_in "None" (full r).
Proof.
  destruct (service_chicago_returns m) as [r Hr]. exists r. split; [exact Hr |].
  revert Hr. unfold _generate_chicago. rewrite no_publication.
  change (fmt_get Null) with "None".
  run_binds; returned; none_slot.
Qed.

Lemma service_harvard_none :
  exists r, _generate_harvard m = Return r /\ occurs_in "None" (full r).
Proof.
  destruct (service_harvard_returns m) as [r Hr]. exists r. split; [exact Hr |].
  revert Hr. unfold _generate_harvard. rewrite no_publication.
  change (fmt_get Null) with "None".
  run_binds; returned; none_slot.
Qed.

Lemma service_ieee_none :
  exists r, _generate_ieee m = Return r /\ occurs_in "None" (full r).
Proof.
  unfold _generate_ieee. rewrite no_publication.
  change (fmt_get Null) with "None".
  eexists. split; [reflexivity |]. none_slot.
Qed.

Lemma service_generate_none style :
  exists r, generate_citation m style = Return r /\ occurs_in "None" (full r).
Proof.
  unfold generate_citation.
  repeat (destruct (bool_decide _));
    auto using service_apa_none, service_mla_none, service_chicago_none,
      service_harvard_none, service_ieee_none.
Qed.

End MissingPublication.

(** X21: a request without publication name gets, in every style,
    an entry in which the text "None" stands for the publication. *)
Theorem citation_route_missing_publication request :
  AnalysisRoutes.publication_name request = None ->
  exists body,
    AnalysisRoutes.generate_citation request = Ok body
    /\ occurs_in "None" (AnalysisRoutes.formatted_citation body).
Proof.
  intros Hpub.
  destruct (service_generate_none (AnalysisRoutes.citation_metadata request))
    with (style := AnalysisRoutes.resolve_style (AnalysisRoutes.citation_style request))
    as (r & Hr & Hnone).
  { simpl. rewrite Hpub. reflexivity. }
  unfold AnalysisRoutes.generate_citation. rewrite Hr.
  eexists. split; [reflexivity | exact Hnone].
Qed.

(** X21: the theorem on a request with a title, two authors and a year. *)
Lemma citation_route_missing_publication_witness :
  exists body,
    AnalysisRoutes.generate_citation
      {| AnalysisRoutes.title := "Deep Learning for NLP";
         AnalysisRoutes.authors := ["Yoshua Bengio"; "Yann LeCun"];
         AnalysisRoutes.year := Some 2024%Z; AnalysisRoutes.publication_name := None;
         AnalysisRoutes.volume := None; AnalysisRoutes.issue := None;
         AnalysisRoutes.pages := None; AnalysisRoutes.url := None;
         AnalysisRoutes.doi := None; AnalysisRoutes.source_type := "article";
         AnalysisRoutes.citation_style := "apa" |}
    = Ok body
    /\ occurs_in "None" (AnalysisRoutes.formatted_citation body).
Proof.
  apply citation_route_missing_publication. reflexivity.
Defined.

(* ===================================================================== *)
(** * Metadata from a URL *)
(* ===================================================================== *)

Section UrlFacts.
Import UrlMetadata.

#[local] Arguments String.append !_ _ / : simpl nomatch.

Lemma span_append p s : (span p s).1 +:+ (span p s).2 = s.
Proof.
  induction s as [| c s IH]; simpl; [reflexivity |].
  destruct (p c); [| reflexivity].
  destruct (span p s) as [run rest]. simpl in *. rewrite IH. reflexivity.
Qed.

Lemma span_no_space p s :
  (forall c, p c = true -> Py.isspace c = false) -> no_space (span p s).1.
Proof.
  intros Hp. induction s as [| c s IH]; simpl; [exact I |].
  destruct (p c) eqn:E; [| exact I].
  destruct (span p s) as [run rest]. simpl in *. split; [apply Hp, E | exact IH].
Qed.

Lemma isdigit_not_space c : isdigit c = true -> Py.isspace c = false.
Proof. destruct c as [[] [] [] [] [] [] [] []]; vm_compute; congruence. Qed.

Lemma after_prefix_append p s rest : after_prefix p s = Some rest -> s = p +:+ rest.
Proof.
  revert s. induction p as [| c p IH]; intros s; simpl; [congruence |].
  destruct s as [| d s]; [discriminate |].
  destruct (bool_decide_reflect (c = d)) as [-> | _]; [| discriminate].
  intros H. rewrite (IH _ H). reflexivity.
Qed.

Lemma no_space_append s t : no_space s -> no_space t -> no_space (s +:+ t).
Proof. induction s as [| c s IH]; simpl; [tauto |]. intros [Hc Hs] Ht. auto. Qed.

(** A match at the head of [s] is a prefix of [s] that begins with ["10."]
    and has no white space. *)
Lemma doi_at_match s found :
  doi_at s = Some found ->
  starts_with "10." found /\ no_space found /\ starts_with found s.
Proof.
  unfold doi_at. destruct (after_prefix "10." s) as [rest |] eqn:Hprefix; [| discriminate].
  apply after_prefix_append in Hprefix. subst s.
  pose proof (span_append isdigit rest) as Hrest.
  pose proof (span_no_space isdigit rest isdigit_not_space) as Hdigits.
  destruct (span isdigit rest) as [ds rest']. simpl in Hrest, Hdigits.
  destruct (4 <=? String.length ds)%nat; [| discriminate].
  destruct rest' as [| c tail]; [discriminate |].
  destruct (Ascii.eqb_spec c "/") as [-> | Hc].
  2: { destruct c as [[] [] [] [] [] [] [] []]; try discriminate. congruence. }
  pose proof (span_append (fun c => negb (Py.isspace c)) tail) as Htail.
  pose proof (span_no_space (fun c => negb (Py.isspace c)) tail) as Hsuffix.
  destruct (span _ tail) as [suffix rest'']. simpl in Htail, Hsuffix.
  destruct (bool_decide (suffix = "")); [discriminate |].
  intros [= <-]. split; [eexists; reflexivity |]. split.
  - repeat split. apply no_space_append; [exact Hdigits |].
    split; [reflexivity |]. apply Hsuffix. intros c Hc. apply negb_true_iff, Hc.
  - exists rest''. rewrite <- Hrest, <- Htail. simpl.
    rewrite append_assoc. reflexivity.
Qed.

(** What [re.search] finds occurs in the text. *)
Lemma doi_search_match s found :
  doi_search s = Some found ->
  starts_with "10." found /\ no_space found /\ occurs_in found s.
Proof.
  induction s as [| c s IH]; simpl.
  - discriminate.
  - destruct (doi_at (String c s)) eqn:E.
    + intros [= <-]. destruct (doi_at_match _ _ E) as (H1 & H2 & rest & H3).
      split; [exact H1 |]. split; [exact H2 |]. exists "", rest. exact H3.
    + intros H. destruct (IH H) as (H1 & H2 & before & after & H3).
      split; [exact H1 |]. split; [exact H2 |].
      exists (String c before), after. rewrite H3. reflexivity.
Qed.

End UrlFacts.

(** X22: [extract_metadata_from_url] always returns metadata, never
    with a year; the DOI it finds begins with "10.", has no white space and
    occurs in the URL, and the metadata then is an article without URL;
    when it finds none the URL is kept. *)
Theorem extracted_doi today url :
  exists m,
    UrlMetadata.extract_metadata_from_url today url = Some m
    /\ Citation.year m = None
    /\ match Citation.doi m with
       | Some doi =>
           UrlMetadata.doi_search url = Some doi
           /\ starts_with "10." doi /\ no_space doi /\ occurs_in doi url
           /\ Citation.url m = None /\ Citation.source_type m = "article"
       | None =>
           UrlMetadata.doi_search url = None /\ Citation.url m = Some url
       end.
Proof.
  unfold UrlMetadata.extract_metadata_from_url.
  destruct (UrlMetadata.doi_search url) as [found |] eqn:Hsearch.
  - eexists. split; [reflexivity |]. split; [reflexivity |]. simpl.
    destruct (doi_search_match _ _ Hsearch) as (H1 & H2 & H3). tauto.
  - destruct (_ && _); eexists; (split; [reflexivity |]); simpl; tauto.
Qed.



(* ===================================================================== *)
(** * The paraphrasing service *)
(* ===================================================================== *)

Section ParaphrasingFacts.
Import Paraphrasing.

Variable rw : Rewriting.

Lemma local_paraphrase_returns text style :
  exists paraphrased, local_paraphrase rw text style = Return paraphrased.
Proof.
  unfold local_paraphrase. destruct (too_short text); [eauto |].
  match goal with |- context [try_except ?m _] => destruct m end; simpl; eauto.
Qed.

Lemma paraphrase_claude_returns self text style :
  exists paraphrased, _paraphrase_claude self text style = Return paraphrased.
Proof.
  unfold _paraphrase_claude.
  match goal with |- context [try_except ?m _] => destruct m end; simpl; eauto.
Qed.

Lemma paraphrase_openai_returns self text style :
  exists paraphrased, _paraphrase_openai self text style = Return paraphrased.
Proof.
  unfold _paraphrase_openai.
  match goal with |- context [try_except ?m _] => destruct m end; simpl; eauto.
Qed.

Lemma paraphrase_returns self text style :
  exists paraphrased, paraphrase rw self text style = Return paraphrased.
Proof.
  unfold paraphrase. destruct (too_short text); [eauto |].
  destruct (use_local self); [apply local_paraphrase_returns |].
  cbv zeta.
  destruct (Py.is_in "claude" _).
  { destruct (paraphrase_claude_returns self text style) as [p ->]. simpl. eauto. }
  destruct (Py.is_in "gpt" _).
  { destruct (paraphrase_openai_returns self text style) as [p ->]. simpl. eauto. }
  simpl. eauto.
Qed.

(** The three services [__init__] can build. *)
Lemma init_cases pf use_anthropic anthropic_api_key openai_api_key :
  let self := init pf use_anthropic anthropic_api_key openai_api_key in
  self = {| client := None; model := None; use_local := true |}
  \/ (exists create,
        self = {| client := Some (AnthropicClient create);
                  model := Some "claude-3-haiku-20240307";
                  use_local := false |})
  \/ (exists create,
        self = {| client := Some (OpenAIClient create);
                  model := Some "gpt-4-turbo-preview";
                  use_local := false |}).
Proof.
  unfold init.
  destruct (if use_anthropic then _ else _) as [key |].
  - destruct (Anthropic pf key) as [create |]; simpl; [right; left; eauto |].
    destruct (usable _) as [key' |]; [| left; reflexivity].
    destruct (OpenAI pf key') as [create |]; [right; right; eauto | left; reflexivity].
  - simpl. destruct (usable _) as [key' |]; [| left; reflexivity].
    destruct (OpenAI pf key') as [create |]; [right; right; eauto | left; reflexivity].
Qed.

End ParaphrasingFacts.

(** X24: for a service built by [__init__], [paraphrase] returns a
    too short text as it is; with a client it returns the answer of the
    model, and the text unchanged when the request fails; the local
    rewriting is used only when there is no client. *)
Theorem paraphrase_of_new_service pf rw use_anthropic anthropic_api_key
    openai_api_key text style :
  let self := Paraphrasing.init pf use_anthropic anthropic_api_key openai_api_key in
  Paraphrasing.paraphrase rw self text style
  = if Paraphrasing.too_short text then Return text
    else match Paraphrasing.client self with
         | None => Paraphrasing.local_paraphrase rw text style
         | Some c =>
             Return match Paraphrasing.request_of c (Paraphrasing.model self)
                            (Paraphrasing.prompt text style) with
                    | Return answer => answer
                    | Raise _ => text
                    end
         end.
Proof.
  intros self. subst self.
  destruct (init_cases pf use_anthropic anthropic_api_key openai_api_key)
    as [-> | [[create ->] | [create ->]]];
    unfold Paraphrasing.paraphrase; destruct (Paraphrasing.too_short text);
    try reflexivity.
  - cbv zeta.
    cbn [Paraphrasing.use_local Paraphrasing.client Paraphrasing.model
         Paraphrasing.request_of].
    change (Py.is_in "claude" (Py.lower (default "" (Some "claude-3-haiku-20240307"))))
      with true. cbv iota.
    unfold Paraphrasing._paraphrase_claude.
    cbn [Paraphrasing.client Paraphrasing.model].
    destruct (create _ _); reflexivity.
  - cbv zeta.
    cbn [Paraphrasing.use_local Paraphrasing.client Paraphrasing.model
         Paraphrasing.request_of].
    change (Py.is_in "claude" (Py.lower (default "" (Some "gpt-4-turbo-preview"))))
      with false.
    change (Py.is_in "gpt" (Py.lower (default "" (Some "gpt-4-turbo-preview"))))
      with true. cbv iota.
    unfold Paraphrasing._paraphrase_openai.
    cbn [Paraphrasing.client Paraphrasing.model].
    destruct (create _ _); reflexivity.
Qed.

(** X25: [generate_paraphrases] never raises and returns exactly
    one suggestion, whatever [num_alternatives] and [context] are; its text
    is that of [paraphrase] in the standard style. *)
Theorem generate_paraphrases_single rw self text context num_alternatives :
  exists suggestion,
    Paraphrasing.generate_paraphrases rw self text context num_alternatives
    = Return [suggestion]
    /\ Paraphrasing.paraphrase rw self text "standard"
       = Return (Paraphrasing.paraphrase_of suggestion).
Proof.
  unfold Paraphrasing.generate_paraphrases.
  destruct (bool_decide_reflect (text = "")) as [-> | Hne].
  - eexists. split; reflexivity.
  - destruct (paraphrase_returns rw self text "standard") as [p ->]. simpl.
    eexists. split; reflexivity.
Qed.

(* ===================================================================== *)
(** * Reading the answer of a language model *)
(* ===================================================================== *)

Section ReadingAnswers.
Import RootParaphrasing.

#[local] Arguments String.append !_ _ / : simpl nomatch.
#[local] Abbreviation lacks c s := (Py.is_in (String c "") s = false).

Lemma number_lacks c label :
  UrlMetadata.isdigit c = false -> number label -> lacks c label.
Proof.
  intros Hc. induction label as [| d label IH]; [reflexivity |].
  intros [Hd Hl]. apply lacks_cons. split; [congruence | exact (IH Hl)].
Qed.

Variables (label : string) (p : Paraphrase).
Hypothesis label_number : number label.
Hypothesis paraphrase_plain : plain (paraphrase p).
Hypothesis explanation_plain : plain (explanation p).

(** ["n:"] *)
#[local] Abbreviation head := (label +:+ ":").

(** The paraphrase with its label, up to the line of the second marker. *)
#[local] Abbreviation first_part :=
  (head +:+ String newline (paraphrase p +:+ String newline "")).

(** The explanation with its label, and the blank line. *)
#[local] Abbreviation second_part :=
  (head +:+ String newline (explanation p +:+ String newline (String newline ""))).

(** The item after its first marker, less its last line break. *)
#[local] Abbreviation body :=
  (first_part +:+ String newline
     ("EXPLANATION " +:+ head +:+ String newline (explanation p +:+ String newline ""))).

Lemma head_lacks c :
  UrlMetadata.isdigit c = false -> c <> ":"%char -> lacks c head.
Proof.
  intros Hd Hc. apply lacks_append. split; [exact (number_lacks _ _ Hd label_number) |].
  apply lacks_cons. split; [exact Hc | reflexivity].
Qed.

Lemma head_without w c :
  Py.is_in (String c "") w = true -> UrlMetadata.isdigit c = false -> c <> ":"%char ->
  Py.is_in w head = false.
Proof. intros Hw Hd Hc. exact (is_in_lacking w head c Hw (head_lacks c Hd Hc)). Qed.

Lemma item_text_body :
  item_text label p = "PARAPHRASE " +:+ (body +:+ String newline "").
Proof. unfold item_text, nl. repeat first [rewrite append_assoc | progress simpl]. reflexivity. Qed.

Lemma body_parts :
  body +:+ String newline "" = first_part +:+ String newline ("EXPLANATION " +:+ second_part).
Proof. repeat first [rewrite append_assoc | progress simpl]. reflexivity. Qed.

Lemma first_part_without w :
  w <> "" -> lacks newline w -> Py.is_in w head = false ->
  Py.is_in w (paraphrase p) = false ->
  Py.is_in w first_part = false.
Proof.
  intros Hw Hn Hh Hp. apply is_in_joined; try assumption.
  apply is_in_joined; try assumption. exact (is_in_empty w Hw).
Qed.

Lemma second_part_without w :
  w <> "" -> lacks newline w -> Py.is_in w head = false ->
  Py.is_in w (explanation p) = false ->
  Py.is_in w second_part = false.
Proof.
  intros Hw Hn Hh Hp. apply is_in_joined; try assumption.
  apply is_in_joined; try assumption.
  apply (is_in_joined w "" newline ""); try assumption; exact (is_in_empty w Hw).
Qed.

Lemma body_without_marker : Py.is_in "PARAPHRASE " body = false.
Proof.
  destruct paraphrase_plain as (_ & _ & Hp & _).
  destruct explanation_plain as (_ & _ & He & _).
  assert (Py.is_in "PARAPHRASE " head = false) as Hh
    by (apply (head_without _ "R"); [reflexivity | reflexivity | discriminate]).
  apply is_in_joined; [discriminate | reflexivity | |].
  - apply first_part_without; [discriminate | reflexivity | exact Hh |].
    exact (is_in_longer "PARAPHRASE" " " _ Hp).
  - apply (is_in_joined _ ("EXPLANATION " +:+ head)); [discriminate | reflexivity | |].
    + apply (is_in_lacking _ _ "R"); [reflexivity |].
      apply lacks_append. split; [reflexivity |].
      apply head_lacks; [reflexivity | discriminate].
    + apply is_in_joined; [discriminate | reflexivity | | reflexivity].
      exact (is_in_longer "PARAPHRASE" " " _ He).
Qed.

Lemma first_part_line :
  "" +:+ first_part +:+ String newline ""
  = head +:+ String newline (paraphrase p +:+ String newline (String newline "")).
Proof. repeat first [rewrite append_assoc | progress simpl]. reflexivity. Qed.

Lemma blank_line_strip : PyStr.strip (String newline (String newline "")) = "".
Proof. reflexivity. Qed.

Lemma blank_line_rstrip : PyStr.rstrip (String newline (String newline "")) = "".
Proof. reflexivity. Qed.

(** The section of an item is read back as the item. *)
Lemma parse_section_item : parse_section (body +:+ String newline "") = Return p.
Proof.
  destruct paraphrase_plain as (Hpl & Hpr & Hpp & Hpe).
  destruct explanation_plain as (Hel & Her & Hep & Hee).
  assert (Py.is_in "EXPLANATION " head = false) as Hh
    by (apply (head_without _ "E"); [reflexivity | reflexivity | discriminate]).
  unfold parse_section, PyStr.split_by. rewrite body_parts.
  rewrite split_by_from_first; [| discriminate | reflexivity |].
  2: { apply first_part_without; [discriminate | reflexivity | exact Hh | exact Hpe]. }
  rewrite split_by_from_none.
  2: { apply second_part_without; [discriminate | reflexivity | exact Hh | exact Hee]. }
  rewrite first_part_line. change ("" +:+ second_part) with second_part.
  cbv iota beta.
  rewrite !split_once_first by (apply head_lacks; [reflexivity | discriminate]).
  cbn [Py.item lookup list_lookup bind].
  rewrite (strip_blank_end _ _ Hpl Hpr blank_line_strip blank_line_rstrip).
  rewrite (strip_blank_end _ _ Hel Her blank_line_strip blank_line_rstrip).
  rewrite Hep. cbn [bind]. destruct p; reflexivity.
Qed.

End ReadingAnswers.

Section WholeAnswer.
Import RootParaphrasing.

#[local] Arguments String.append !_ _ / : simpl nomatch.

(** The text of an item after its first marker. *)
#[local] Abbreviation section_of item :=
  ((((item.1 +:+ ":") +:+ String newline (paraphrase item.2 +:+ String newline ""))
      +:+ String newline
            ("EXPLANATION " +:+ (item.1 +:+ ":")
               +:+ String newline (explanation item.2 +:+ String newline "")))
     +:+ String newline "").

#[local] Abbreviation well_formed :=
  (fun item : string * Paraphrase =>
     number item.1 /\ plain (paraphrase item.2) /\ plain (explanation item.2)).

Lemma answer_sections items previous cur :
  Py.is_in "PARAPHRASE " previous = false ->
  Forall well_formed items ->
  PyStr.split_by_from "PARAPHRASE " 0 cur (previous +:+ String newline (items_text items))
  = (cur +:+ previous +:+ String newline "") :: map (fun item => section_of item) items.
Proof.
  intros Hprev Hitems. revert previous cur Hprev.
  induction Hitems as [| [label p] items (Hl & Hp & He) _ IH]; intros previous cur Hprev.
  - cbn [items_text map]. rewrite split_by_from_none; [reflexivity |].
    apply is_in_joined; [discriminate | reflexivity | exact Hprev | reflexivity].
  - cbn [items_text map fst snd]. rewrite (item_text_body label p).
    rewrite (append_assoc "PARAPHRASE " _ (items_text items)).
    rewrite (append_assoc _ (String newline "") (items_text items)).
    change (String newline "" +:+ items_text items)
      with (String newline (items_text items)).
    rewrite split_by_from_first; [| discriminate | reflexivity | exact Hprev].
    rewrite IH by exact (body_without_marker label p Hl Hp He).
    reflexivity.
Qed.

Lemma parse_sections items paraphrases :
  Forall well_formed items ->
  foldM
    (fun paraphrases section =>
       match parse_section section with
       | Return p => Return (paraphrases ++ [p])%list
       | Raise e => if skipped e then Return paraphrases else Raise e
       end)
    paraphrases (map (fun item => section_of item) items)
  = Return (paraphrases ++ map snd items)%list.
Proof.
  intros Hitems. revert paraphrases.
  induction Hitems as [| [label p] items (Hl & Hp & He) _ IH]; intros paraphrases.
  - simpl. rewrite app_nil_r. reflexivity.
  - cbn [map foldM fst snd]. rewrite (parse_section_item label p Hl Hp He).
    cbn [bind]. rewrite IH, <- app_assoc. reflexivity.
Qed.

Lemma parse_section_raises section e : parse_section section = Raise e -> skipped e = true.
Proof.
  unfold parse_section.
  destruct (PyStr.split_by "EXPLANATION " section) as [| a [| b [| c l]]];
    try (intros [= <-]; reflexivity).
  destruct (Py.item (PyStr.split_once newline a) 1) as [x | e1] eqn:E1; cbn [bind];
    [| intros [= <-]; apply item_raises in E1; subst; reflexivity].
  destruct (Py.item (PyStr.split_once newline b) 1) as [y | e2] eqn:E2; cbn [bind];
    [| intros [= <-]; apply item_raises in E2; subst; reflexivity].
  destruct (Py.is_in "PARAPHRASE" (PyStr.strip y)); cbn [bind]; [| discriminate].
  destruct (Py.item _ 0) as [z | e3] eqn:E3; cbn [bind]; [discriminate |].
  intros [= <-]. apply item_raises in E3. subst. reflexivity.
Qed.

Lemma parse_sections_returns sections paraphrases :
  exists result,
    foldM
      (fun paraphrases section =>
         match parse_section section with
         | Return p => Return (paraphrases ++ [p])%list
         | Raise e => if skipped e then Return paraphrases else Raise e
         end)
      paraphrases sections = Return result
    /\ length result <= length paraphrases + length sections.
Proof.
  revert paraphrases. induction sections as [| section sections IH]; intros paraphrases.
  - exists paraphrases. split; [reflexivity | simpl; lia].
  - cbn [foldM]. destruct (parse_section section) as [p | e] eqn:E.
    + cbn [bind]. destruct (IH (paraphrases ++ [p])%list) as (result & -> & Hlen).
      exists result. split; [reflexivity |]. rewrite length_app in Hlen. simpl in *. lia.
    + rewrite (parse_section_raises _ _ E). cbn [bind].
      destruct (IH paraphrases) as (result & -> & Hlen).
      exists result. split; [reflexivity |]. simpl. lia.
Qed.

Lemma split_by_from_length w skip cur s :
  1 <= length (PyStr.split_by_from w skip cur s).
Proof.
  revert skip cur. induction s as [| c s IH]; intros skip cur; [simpl; lia |].
  cbn [PyStr.split_by_from]. destruct skip; [| apply IH].
  destruct (Py.startswith w (String c s)); [simpl; lia | apply IH].
Qed.

End WholeAnswer.

(** X26: [_parse_response] never raises: a section it cannot read
    is left out; it returns at most one item per marker "PARAPHRASE ", and
    none when the answer has no marker. *)
Theorem parse_response_returns response :
  exists paraphrases,
    RootParaphrasing._parse_response response = Return paraphrases
    /\ S (length paraphrases) <= length (PyStr.split_by "PARAPHRASE " response)
    /\ (Py.is_in "PARAPHRASE " response = false -> paraphrases = []).
Proof.
  unfold RootParaphrasing._parse_response. cbv zeta.
  destruct (parse_sections_returns (drop 1 (PyStr.split_by "PARAPHRASE " response)) [])
    as (result & Hresult & Hlen).
  exists result. split; [exact Hresult |]. split.
  - rewrite length_drop in Hlen. simpl in Hlen.
    pose proof (split_by_from_length "PARAPHRASE " 0 "" response) as Hone.
    unfold PyStr.split_by in *. lia.
  - intros Hnone. unfold PyStr.split_by in Hresult.
    rewrite (split_by_from_none _ _ _ Hnone) in Hresult. simpl in Hresult. congruence.
Qed.

(** X27: an answer in the format the prompt asks for is read back
    item by item: after an introduction without marker, the numbered items
    whose texts have no white space at their ends and none of the two
    markers give the list of these items. *)
Theorem parse_response_reads_answer introduction items :
  Py.is_in "PARAPHRASE " introduction = false ->
  Forall (fun item : string * RootParaphrasing.Paraphrase =>
            RootParaphrasing.number item.1
            /\ RootParaphrasing.plain (RootParaphrasing.paraphrase item.2)
            /\ RootParaphrasing.plain (RootParaphrasing.explanation item.2)) items ->
  RootParaphrasing._parse_response (RootParaphrasing.answer introduction items)
  = Return (map snd items).
Proof.
  intros Hintro Hitems. unfold RootParaphrasing._parse_response, PyStr.split_by,
    RootParaphrasing.answer, RootParaphrasing.nl. cbv zeta.
  change (String RootParaphrasing.newline "" +:+ RootParaphrasing.items_text items)
    with (String RootParaphrasing.newline (RootParaphrasing.items_text items)).
  rewrite (answer_sections items introduction "" Hintro Hitems).
  cbn [drop]. exact (parse_sections items [] Hitems).
Qed.

(** X27: the theorem on an answer of two items, one with an empty text. *)
Lemma parse_response_reads_answer_witness :
  RootParaphrasing._parse_response
    (RootParaphrasing.answer "Here are two versions:"
       [("1", {| RootParaphrasing.paraphrase := "Cats sit on mats.";
                 RootParaphrasing.explanation := "Shorter sentence" |});
        ("2", {| RootParaphrasing.paraphrase := "";
                 RootParaphrasing.explanation := "EXPLAINED: nothing to say" |})])
  = Return [{| RootParaphrasing.paraphrase := "Cats sit on mats.";
               RootParaphrasing.explanation := "Shorter sentence" |};
            {| RootParaphrasing.paraphrase := "";
               RootParaphrasing.explanation := "EXPLAINED: nothing to say" |}].
Proof.
  apply (parse_response_reads_answer "Here are two versions:").
  - vm_compute. reflexivity.
  - repeat constructor; vm_compute; reflexivity.
Defined.
